(** * mkwd: the project scaffolder of [mkwd.py], embedded and verified

    The development follows the source top to bottom:
    - [PyStr]: the few string operations the program relies on;
    - [PurePath]: the part of [pathlib] the program uses ([/], [parent],
      [relative_to], [str]);
    - [Posix]: a file system as a finite map from resolved paths to
      entries, with the path walk of the kernel, [mkdir] and [open];
    - [Pathlib]: [Path.exists] and [Path.mkdir] on that file system;
    - [Py]: the state-and-exception monad in which the methods run;
    - [Catalog]: the template bodies, verbatim;
    - [Scaffolder]: [ProjectScaffolder] and [main];
    - the notions the statements need, then the lemmas, then the claims
      of the specification, C1 to C10.

    Scope of the file-system model: no symbolic links, no permissions, no
    length or space limits, names free of NUL bytes.  Strings are byte
    strings (UTF-8), as the files are written. *)

From Stdlib Require Import Ascii.
From Stdlib Require String.
From stdpp Require Import base gmap strings list.

(** ** Strings *)

Module PyStr.

Definition blank : string := EmptyString.
Definition nl : string := String (Ascii.ascii_of_nat 10) EmptyString.
Definition dq : string := String (Ascii.ascii_of_nat 34) EmptyString.
Definition tq : string := dq +:+ dq +:+ dq.
Definition slash : ascii := Ascii.ascii_of_nat 47.

(** [sep.join(l)] *)
Definition join (sep : string) (l : list string) : string :=
  String.concat sep l.

(** Concatenation of the pieces of a line; template lines that contain
    double quotes are written with [dq] and [tq] between the pieces. *)
Definition cat (pieces : list string) : string := join blank pieces.

(** A text given line by line, every line terminated by a newline. *)
Fixpoint text (lines : list string) : string :=
  match lines with
  | [] => EmptyString
  | l :: ls => l +:+ nl +:+ text ls
  end.

(** [s.split(sep)] for a one-character separator. *)
Fixpoint split (sep : ascii) (s : string) : list string :=
  match s with
  | EmptyString => [EmptyString]
  | String c s' =>
      if Ascii.eqb c sep then EmptyString :: split sep s'
      else match split sep s' with
           | [] => [String c EmptyString]
           | h :: t => String c h :: t
           end
  end.

(** [s.startswith(p)] *)
Definition startswith (p s : string) : bool := String.prefix p s.

(** [sub in s] *)
Fixpoint contains (sub s : string) : bool :=
  String.prefix sub s ||
  match s with
  | EmptyString => false
  | String _ s' => contains sub s'
  end.

End PyStr.

(** ** Pure paths (pathlib.PurePosixPath, absolute paths only)

    A path is its anchor (["/"], or ["//"] when the text starts with
    exactly two slashes) and its parts.  Every path of the program derives
    from [Path.cwd()], so every path is absolute. *)

Module PurePath.
Import PyStr.

Record t := mk { dslash : bool; parts : list string }.

Global Instance t_eq_dec : EqDecision t.
Proof. solve_decision. Defined.

(** The components kept by the parser: empty ones and ["."] are dropped,
    [".."] is kept. *)
Definition keep (x : string) : bool :=
  negb (String.eqb x blank) && negb (String.eqb x ".").

Definition parse_parts (s : string) : list string :=
  List.filter keep (split slash s).

Definition is_absolute (s : string) : bool := startswith "/" s.

(** [splitroot]: exactly two leading slashes make the anchor ["//"]. *)
Definition double_root (s : string) : bool :=
  startswith "//" s && negb (startswith "///" s).

(** [self / key] *)
Definition div (self : t) (key : string) : t :=
  if is_absolute key
  then mk (double_root key) (parse_parts key)
  else mk (dslash self) (parts self ++ parse_parts key).

(** [self.parent]: the anchor is its own parent. *)
Definition parent (self : t) : t :=
  mk (dslash self) (removelast (parts self)).

(** [str(self)] *)
Definition str (self : t) : string :=
  (if dslash self then "//" else "/") +:+ join "/" (parts self).

Fixpoint strip_prefix (pre l : list string) : option (list string) :=
  match pre, l with
  | [], _ => Some l
  | x :: pre', y :: l' =>
      if String.eqb x y then strip_prefix pre' l' else None
  | _ :: _, [] => None
  end.

(** [str(self.relative_to(other))]; [None] is the [ValueError] raised
    when [other] is not a lexical prefix of [self]. *)
Definition relative_to (self other : t) : option string :=
  if bool_decide (dslash self = dslash other) then
    match strip_prefix (parts other) (parts self) with
    | Some [] => Some "."
    | Some rel => Some (join "/" rel)
    | None => None
    end
  else None.

End PurePath.

Abbreviation Path := PurePath.t.
Infix "</>" := PurePath.div (at level 40, left associativity).

(** ** The file system *)

Module Posix.

Inductive entry :=
| Dir
| Reg (content : string).

Global Instance entry_eq_dec : EqDecision entry.
Proof. solve_decision. Defined.

Inductive errno := ENOENT | ENOTDIR | EEXIST | EISDIR.

(** Entries are keyed by their resolved location: the names from the
    root directory [[]] down, without [".."]. *)
Abbreviation fs := (gmap (list string) entry).

(** The path walk: every component but the last must lead through an
    existing directory; [".."] steps to the parent (the root is its own
    parent).  The result is the location the path denotes, which may or
    may not hold an entry. *)
Fixpoint walk (m : fs) (cur : list string) (p : list string)
  : errno + list string :=
  match p with
  | [] => inr cur
  | c :: rest =>
      match m !! cur with
      | None => inl ENOENT
      | Some (Reg _) => inl ENOTDIR
      | Some Dir =>
          walk m (if String.eqb c ".." then removelast cur else cur ++ [c])
            rest
      end
  end.

Definition namei (m : fs) (p : list string) : errno + list string :=
  walk m [] p.

(** stat(2) *)
Definition stat (m : fs) (p : list string) : errno + entry :=
  match namei m p with
  | inl e => inl e
  | inr loc =>
      match m !! loc with
      | Some e => inr e
      | None => inl ENOENT
      end
  end.

(** mkdir(2) *)
Definition mkdir (m : fs) (p : list string) : errno + fs :=
  match namei m p with
  | inl e => inl e
  | inr loc =>
      match m !! loc with
      | Some _ => inl EEXIST
      | None => inr (<[loc := Dir]> m)
      end
  end.

(** open(2) with [O_WRONLY|O_CREAT|O_TRUNC], the write of the whole
    content, and close(2). *)
Definition write_file (m : fs) (p : list string) (content : string)
  : errno + fs :=
  match namei m p with
  | inl e => inl e
  | inr loc =>
      match m !! loc with
      | Some Dir => inl EISDIR
      | _ => inr (<[loc := Reg content]> m)
      end
  end.

Definition exists_ (m : fs) (p : list string) : bool :=
  match stat m p with inr _ => true | inl _ => false end.

Definition is_dir (m : fs) (p : list string) : bool :=
  match stat m p with inr Dir => true | _ => false end.

End Posix.

(** ** pathlib.Path on the file system *)

Module Pathlib.
Import Posix.

(** [Path.exists()]: [stat], with [ENOENT] and [ENOTDIR] read as "no". *)
Definition exists_ (m : fs) (p : Path) : bool :=
  Posix.exists_ m (PurePath.parts p).

(** [Path.mkdir(parents=False, exist_ok=True)] on the parts [p]. *)
Definition mkdir_once (m : fs) (p : list string) : fs * option errno :=
  match Posix.mkdir m p with
  | inr m' => (m', None)
  | inl ENOENT => (m, Some ENOENT)
  | inl e => if is_dir m p then (m, None) else (m, Some e)
  end.

(** [Path.mkdir(parents=True, exist_ok=True)], by recursion on the parts
    in reverse, so that [self.parent] is the tail:
<<
    try: os.mkdir(self)
    except FileNotFoundError:
        if not parents or self.parent == self: raise
        self.parent.mkdir(parents=True, exist_ok=True)
        self.mkdir(parents=False, exist_ok=exist_ok)
    except OSError:
        if not exist_ok or not self.is_dir(): raise
>>
    The file system comes back also when the call raises: parents made
    on the way stay. *)
Fixpoint mkdir_up (m : fs) (rp : list string) : fs * option errno :=
  match Posix.mkdir m (rev rp) with
  | inr m' => (m', None)
  | inl ENOENT =>
      match rp with
      | [] => (m, Some ENOENT)
      | _ :: up =>
          match mkdir_up m up with
          | (m1, None) => mkdir_once m1 (rev rp)
          | failed => failed
          end
      end
  | inl e => if is_dir m (rev rp) then (m, None) else (m, Some e)
  end.

Definition mkdir_p (m : fs) (p : list string) : fs * option errno :=
  mkdir_up m (rev p).

End Pathlib.

(** ** The monad of the methods: a world, and exceptions *)

Module Py.
Import Posix.

Inductive exn :=
| SystemExit (code : nat)
| OSError (e : errno)  (** FileNotFoundError, NotADirectoryError,
                           FileExistsError, IsADirectoryError *)
| ValueError.

(** The file-system calls of the program, in the order it makes them
    (a ghost log: the program does not read it). *)
Inductive call :=
| CallExists (p : Path)
| CallMkdir (p : Path)
| CallOpen (p : Path).

Record world := World {
  cwd : Path;              (** [Path.cwd()] *)
  disk : fs;
  stdout : list string;    (** one element per [print] *)
  stderr : list string;
  calls : list call
}.

Inductive outcome (A : Type) :=
| Ok (a : A)
| Raise (e : exn).
Arguments Ok {A} a.
Arguments Raise {A} e.

Definition M (A : Type) : Type := world -> world * outcome A.

Definition ret {A} (a : A) : M A := fun w => (w, Ok a).

Definition bind {A B} (c : M A) (k : A -> M B) : M B :=
  fun w =>
    match c w with
    | (w', Ok a) => k a w'
    | (w', Raise e) => (w', Raise e)
    end.

Definition raise {A} (e : exn) : M A := fun w => (w, Raise e).

(** The exit status of the process for an outcome at top level: an
    uncaught exception other than [SystemExit] ends the interpreter
    with status 1. *)
Definition exit_status {A} (o : outcome A) : nat :=
  match o with
  | Ok _ => 0
  | Raise (SystemExit n) => n
  | Raise _ => 1
  end.

Definition set_disk (m : fs) (w : world) : world :=
  World (cwd w) m (stdout w) (stderr w) (calls w).

Definition log (c : call) (w : world) : world :=
  World (cwd w) (disk w) (stdout w) (stderr w) (calls w ++ [c]).

Definition print (s : string) : M unit :=
  fun w => (World (cwd w) (disk w) (stdout w ++ [s]) (stderr w) (calls w),
            Ok tt).

Definition eprint (s : string) : M unit :=
  fun w => (World (cwd w) (disk w) (stdout w) (stderr w ++ [s]) (calls w),
            Ok tt).

Definition sys_exit {A} (code : nat) : M A := raise (SystemExit code).

Definition path_cwd : M Path := fun w => (w, Ok (cwd w)).

Definition path_exists (p : Path) : M bool :=
  fun w => (log (CallExists p) w, Ok (Pathlib.exists_ (disk w) p)).

(** [p.mkdir(parents=True, exist_ok=True)] *)
Definition path_mkdir (p : Path) : M unit :=
  fun w =>
    match Pathlib.mkdir_p (disk w) (PurePath.parts p) with
    | (m, None) => (set_disk m (log (CallMkdir p) w), Ok tt)
    | (m, Some e) => (set_disk m (log (CallMkdir p) w), Raise (OSError e))
    end.

(** [with open(p, 'w') as f: f.write(content)] *)
Definition open_write (p : Path) (content : string) : M unit :=
  fun w =>
    match Posix.write_file (disk w) (PurePath.parts p) content with
    | inr m => (set_disk m (log (CallOpen p) w), Ok tt)
    | inl e => (log (CallOpen p) w, Raise (OSError e))
    end.

End Py.

Notation "x <- c1 ; c2" := (Py.bind c1 (fun x => c2))
  (at level 20, c1 at level 100, c2 at level 200, only parsing).
Notation "c1 ;; c2" := (Py.bind c1 (fun _ => c2))
  (at level 100, c2 at level 200, only parsing, right associativity).

(** ** The template bodies ([_get_*] methods), verbatim *)

Module Catalog.
Import PyStr.

(** [_get_app_init], line 250 *)
Definition get_app_init : string :=
  text [
    cat [tq; "Portfolio Application Package"; tq];
    cat ["__version__ = "; dq; "1.0.0"; dq]
  ].

(** [_get_main_py], line 253 *)
Definition get_main_py : string :=
  text [
    tq;
    "Main FastAPI Application";
    tq;
    "from fastapi import FastAPI";
    "from fastapi.staticfiles import StaticFiles";
    "from fastapi.middleware.cors import CORSMiddleware";
    "from pathlib import Path";
    blank;
    "from app.config import settings";
    "from app.database.connection import init_db";
    "from app.api.routes import pages, chatbot, email, contact, analytics";
    "from app.api.middleware.analytics import AnalyticsMiddleware";
    "from app.api.middleware.security import SecurityHeadersMiddleware";
    blank;
    "def create_app() -> FastAPI:";
    cat ["    "; tq; "Application factory"; tq];
    "    app = FastAPI(";
    "        title=settings.PROJECT_NAME,";
    cat ["        version="; dq; "1.0.0"; dq; ","];
    cat ["        docs_url="; dq; "/api/docs"; dq; " if settings.DEBUG else None,"];
    "    )";
    "    ";
    "    # CORS";
    "    app.add_middleware(";
    "        CORSMiddleware,";
    "        allow_origins=settings.ALLOWED_ORIGINS,";
    "        allow_credentials=True,";
    cat ["        allow_methods=["; dq; "*"; dq; "],"];
    cat ["        allow_headers=["; dq; "*"; dq; "],"];
    "    )";
    "    ";
    "    # Custom Middleware";
    "    app.add_middleware(AnalyticsMiddleware)";
    "    app.add_middleware(SecurityHeadersMiddleware)";
    "    ";
    "    # Static Files";
    "    app.mount(";
    cat ["        "; dq; "/static"; dq; ","];
    cat ["        StaticFiles(directory=Path(__file__).parent.parent / "; dq; "static"; dq; "),"];
    cat ["        name="; dq; "static"; dq];
    "    )";
    "    ";
    "    # Routes";
    cat ["    app.include_router(pages.router, tags=["; dq; "Pages"; dq; "])"];
    cat ["    app.include_router(chatbot.router, prefix="; dq; "/api/v1/chatbot"; dq; ", tags=["; dq; "Chatbot"; dq; "])"];
    cat ["    app.include_router(email.router, prefix="; dq; "/api/v1/email"; dq; ", tags=["; dq; "Email"; dq; "])"];
    cat ["    app.include_router(contact.router, prefix="; dq; "/api/v1/contact"; dq; ", tags=["; dq; "Contact"; dq; "])"];
    cat ["    app.include_router(analytics.router, prefix="; dq; "/api/v1/analytics"; dq; ", tags=["; dq; "Analytics"; dq; "])"];
    "    ";
    cat ["    @app.on_event("; dq; "startup"; dq; ")"];
    "    async def startup():";
    "        init_db()";
    cat ["        print(f"; dq; "🚀 {settings.PROJECT_NAME} started!"; dq; ")"];
    "    ";
    cat ["    @app.get("; dq; "/health"; dq; ")"];
    "    async def health():";
    cat ["        return {"; dq; "status"; dq; ": "; dq; "healthy"; dq; "}"];
    "    ";
    "    return app";
    blank;
    "app = create_app()";
    blank;
    cat ["if __name__ == "; dq; "__main__"; dq; ":"];
    "    import uvicorn";
    cat ["    uvicorn.run("; dq; "app.main:app"; dq; ", host="; dq; "0.0.0.0"; dq; ", port=8080, reload=settings.DEBUG)"]
  ].

(** [_get_config_py], line 321 *)
Definition get_config_py : string :=
  text [
    cat [tq; "Configuration Management"; tq];
    "from pydantic_settings import BaseSettings";
    "from typing import List";
    blank;
    "class Settings(BaseSettings):";
    cat ["    PROJECT_NAME: str = "; dq; "My Portfolio"; dq];
    cat ["    ENVIRONMENT: str = "; dq; "development"; dq];
    "    DEBUG: bool = True";
    cat ["    DATABASE_URL: str = "; dq; "sqlite:///./app.db"; dq];
    cat ["    SECRET_KEY: str = "; dq; "change-me-in-production"; dq];
    cat ["    ALLOWED_ORIGINS: List[str] = ["; dq; "http://localhost:8080"; dq; "]"];
    "    ";
    cat ["    OPENAI_API_KEY: str = "; dq; dq];
    cat ["    GROQ_API_KEY: str = "; dq; dq];
    cat ["    WEBHOOK_URL: str = "; dq; dq];
    "    ";
    "    ENABLE_ANALYTICS: bool = True";
    "    ";
    "    class Config:";
    cat ["        env_file = "; dq; ".env"; dq];
    "        case_sensitive = True";
    blank;
    "settings = Settings()"
  ].

(** [_get_models_py], line 347 *)
Definition get_models_py : string :=
  text [
    cat [tq; "Database Models"; tq];
    "from sqlalchemy import Column, Integer, String, DateTime, Text, Boolean";
    "from sqlalchemy.ext.declarative import declarative_base";
    "from sqlalchemy.sql import func";
    blank;
    "Base = declarative_base()";
    blank;
    "class ContactMessage(Base):";
    "    __tablename__ = 'contact_messages'";
    "    ";
    "    id = Column(Integer, primary_key=True)";
    "    name = Column(String(200), nullable=False)";
    "    email = Column(String(200), nullable=False)";
    "    message = Column(Text, nullable=False)";
    "    submitted_at = Column(DateTime, default=func.now())";
    "    read = Column(Boolean, default=False)";
    "    ";
    "    def to_dict(self):";
    "        return {";
    "            'id': self.id,";
    "            'name': self.name,";
    "            'email': self.email,";
    "            'message': self.message,";
    "            'submitted_at': self.submitted_at.isoformat()";
    "        }";
    blank;
    "class Visitor(Base):";
    "    __tablename__ = 'visitors'";
    "    ";
    "    id = Column(Integer, primary_key=True)";
    "    ip_hash = Column(String(64))";
    "    page = Column(String(200))";
    "    timestamp = Column(DateTime, default=func.now())"
  ].

(** [_get_connection_py], line 383 *)
Definition get_connection_py : string :=
  text [
    cat [tq; "Database Connection"; tq];
    "from sqlalchemy import create_engine";
    "from sqlalchemy.orm import sessionmaker";
    "from contextlib import contextmanager";
    "from app.config import settings";
    blank;
    "engine = create_engine(";
    "    settings.DATABASE_URL,";
    "    echo=settings.DEBUG,";
    cat ["    connect_args={"; dq; "check_same_thread"; dq; ": False} if "; dq; "sqlite"; dq; " in settings.DATABASE_URL else {}"];
    ")";
    blank;
    "SessionLocal = sessionmaker(autocommit=False, autoflush=False, bind=engine)";
    blank;
    "@contextmanager";
    "def get_db():";
    "    db = SessionLocal()";
    "    try:";
    "        yield db";
    "        db.commit()";
    "    except:";
    "        db.rollback()";
    "        raise";
    "    finally:";
    "        db.close()";
    blank;
    "def init_db():";
    "    from app.database.models import Base";
    "    Base.metadata.create_all(bind=engine)";
    cat ["    print("; dq; "✅ Database initialized"; dq; ")"]
  ].

(** [_get_pages_routes], line 416 *)
Definition get_pages_routes : string :=
  text [
    cat [tq; "Page Routes"; tq];
    "from fastapi import APIRouter, Request";
    "from fastapi.responses import HTMLResponse";
    "from fastapi.templating import Jinja2Templates";
    blank;
    "router = APIRouter()";
    cat ["templates = Jinja2Templates(directory="; dq; "templates"; dq; ")"];
    blank;
    cat ["@router.get("; dq; "/"; dq; ", response_class=HTMLResponse)"];
    "async def home(request: Request):";
    cat ["    return templates.TemplateResponse("; dq; "pages/home.html"; dq; ", {"];
    cat ["        "; dq; "request"; dq; ": request,"];
    cat ["        "; dq; "title"; dq; ": "; dq; "Home"; dq];
    "    })"
  ].

(** [_get_chatbot_routes], line 433 *)
Definition get_chatbot_routes : string :=
  text [
    cat [tq; "Chatbot Routes"; tq];
    "from fastapi import APIRouter";
    blank;
    "router = APIRouter()";
    blank;
    cat ["@router.post("; dq; "/upload"; dq; ")"];
    "async def upload_pdf():";
    cat ["    return {"; dq; "message"; dq; ": "; dq; "Upload endpoint - implement your logic here"; dq; "}"];
    blank;
    cat ["@router.post("; dq; "/query"; dq; ")"];
    "async def query_pdf():";
    cat ["    return {"; dq; "message"; dq; ": "; dq; "Query endpoint - implement your logic here"; dq; "}"]
  ].

(** [_get_email_routes], line 448 *)
Definition get_email_routes : string :=
  text [
    cat [tq; "Email Generator Routes"; tq];
    "from fastapi import APIRouter";
    blank;
    "router = APIRouter()";
    blank;
    cat ["@router.post("; dq; "/generate"; dq; ")"];
    "async def generate_email():";
    cat ["    return {"; dq; "message"; dq; ": "; dq; "Email generation - implement your logic here"; dq; "}"]
  ].

(** [_get_contact_routes], line 459 *)
Definition get_contact_routes : string :=
  text [
    cat [tq; "Contact Form Routes"; tq];
    "from fastapi import APIRouter, Request, Body";
    "from app.database.models import ContactMessage";
    "from app.database.connection import get_db";
    blank;
    "router = APIRouter()";
    blank;
    cat ["@router.post("; dq; "/message"; dq; ")"];
    "async def submit_contact(request: Request, payload: dict = Body(...)):";
    "    with get_db() as db:";
    "        msg = ContactMessage(";
    "            name=payload['name'],";
    "            email=payload['email'],";
    "            message=payload['message']";
    "        )";
    "        db.add(msg)";
    cat ["    return {"; dq; "status"; dq; ": "; dq; "success"; dq; "}"]
  ].

(** [_get_analytics_routes], line 479 *)
Definition get_analytics_routes : string :=
  text [
    cat [tq; "Analytics Routes"; tq];
    "from fastapi import APIRouter";
    blank;
    "router = APIRouter()";
    blank;
    cat ["@router.get("; dq; "/summary"; dq; ")"];
    "async def get_analytics():";
    cat ["    return {"; dq; "message"; dq; ": "; dq; "Analytics - implement your logic here"; dq; "}"]
  ].

(** [_get_analytics_middleware], line 490 *)
Definition get_analytics_middleware : string :=
  text [
    cat [tq; "Analytics Middleware"; tq];
    "from starlette.middleware.base import BaseHTTPMiddleware";
    "from app.database.models import Visitor";
    "from app.database.connection import get_db";
    "import hashlib";
    blank;
    "class AnalyticsMiddleware(BaseHTTPMiddleware):";
    "    async def dispatch(self, request, call_next):";
    "        response = await call_next(request)";
    "        ";
    "        if not request.url.path.startswith('/static'):";
    "            try:";
    "                ip_hash = hashlib.sha256(request.client.host.encode()).hexdigest()";
    "                with get_db() as db:";
    "                    visitor = Visitor(ip_hash=ip_hash, page=request.url.path)";
    "                    db.add(visitor)";
    "            except:";
    "                pass";
    "        ";
    "        return response"
  ].

(** [_get_security_middleware], line 513 *)
Definition get_security_middleware : string :=
  text [
    cat [tq; "Security Headers Middleware"; tq];
    "from starlette.middleware.base import BaseHTTPMiddleware";
    blank;
    "class SecurityHeadersMiddleware(BaseHTTPMiddleware):";
    "    async def dispatch(self, request, call_next):";
    "        response = await call_next(request)";
    cat ["        response.headers["; dq; "X-Content-Type-Options"; dq; "] = "; dq; "nosniff"; dq];
    cat ["        response.headers["; dq; "X-Frame-Options"; dq; "] = "; dq; "DENY"; dq];
    cat ["        response.headers["; dq; "X-XSS-Protection"; dq; "] = "; dq; "1; mode=block"; dq];
    "        return response"
  ].

(** [_get_base_css], line 526 *)
Definition get_base_css : string :=
  text [
    "/* Base Styles */";
    "* {";
    "    margin: 0;";
    "    padding: 0;";
    "    box-sizing: border-box;";
    "}";
    blank;
    ":root {";
    "    --primary-color: #2c3e50;";
    "    --secondary-color: #3498db;";
    "    --text-color: #333;";
    "    --bg-color: #ffffff;";
    "    --transition: all 0.3s ease;";
    "}";
    blank;
    "body {";
    "    font-family: 'Poppins', sans-serif;";
    "    color: var(--text-color);";
    "    background-color: var(--bg-color);";
    "    line-height: 1.6;";
    "}";
    blank;
    ".container {";
    "    max-width: 1200px;";
    "    margin: 0 auto;";
    "    padding: 0 20px;";
    "}"
  ].

(** [_get_main_js], line 556 *)
Definition get_main_js : string :=
  text [
    "// Main JavaScript";
    "console.log('Portfolio loaded!');";
    blank;
    "// Add your global JavaScript here"
  ].

(** [_get_base_template], line 563 *)
Definition get_base_template : string :=
  text [
    "<!DOCTYPE html>";
    cat ["<html lang="; dq; "en"; dq; ">"];
    "<head>";
    cat ["    <meta charset="; dq; "UTF-8"; dq; ">"];
    cat ["    <meta name="; dq; "viewport"; dq; " content="; dq; "width=device-width, initial-scale=1.0"; dq; ">"];
    "    <title>{% block title %}{{ title }}{% endblock %}</title>";
    cat ["    <link rel="; dq; "preconnect"; dq; " href="; dq; "https://fonts.googleapis.com"; dq; ">"];
    cat ["    <link href="; dq; "https://fonts.googleapis.com/css2?family=Poppins:wght@300;400;600;700&display=swap"; dq; " rel="; dq; "stylesheet"; dq; ">"];
    cat ["    <link rel="; dq; "stylesheet"; dq; " href="; dq; "{{ url_for('static', path='css/base.css') }}"; dq; ">"];
    "    {% block extra_css %}{% endblock %}";
    "</head>";
    "<body>";
    "    {% include 'components/navbar.html' %}";
    "    ";
    "    <main>";
    "        {% block content %}{% endblock %}";
    "    </main>";
    "    ";
    "    {% include 'components/footer.html' %}";
    "    ";
    cat ["    <script src="; dq; "{{ url_for('static', path='js/main.js') }}"; dq; "></script>"];
    "    {% block extra_js %}{% endblock %}";
    "</body>";
    "</html>"
  ].

(** [_get_navbar_component], line 590 *)
Definition get_navbar_component : string :=
  text [
    cat ["<nav class="; dq; "navbar"; dq; ">"];
    cat ["    <div class="; dq; "container"; dq; ">"];
    cat ["        <div class="; dq; "logo"; dq; ">MyPortfolio</div>"];
    cat ["        <ul class="; dq; "nav-links"; dq; ">"];
    cat ["            <li><a href="; dq; "/"; dq; ">Home</a></li>"];
    cat ["            <li><a href="; dq; "/portfolio"; dq; ">Portfolio</a></li>"];
    cat ["            <li><a href="; dq; "/chatbot"; dq; ">Chatbot</a></li>"];
    cat ["            <li><a href="; dq; "#contact"; dq; ">Contact</a></li>"];
    "        </ul>";
    "    </div>";
    "</nav>"
  ].

(** [_get_footer_component], line 604 *)
Definition get_footer_component : string :=
  text [
    cat ["<footer class="; dq; "footer"; dq; ">"];
    cat ["    <div class="; dq; "container"; dq; ">"];
    "        <p>&copy; 2024 MyPortfolio. All rights reserved.</p>";
    "    </div>";
    "</footer>"
  ].

(** [_get_home_page], line 612 *)
Definition get_home_page : string :=
  text [
    cat ["{% extends "; dq; "base.html"; dq; " %}"];
    blank;
    "{% block content %}";
    cat ["<div class="; dq; "hero"; dq; ">"];
    cat ["    <div class="; dq; "container"; dq; ">"];
    "        <h1>Welcome to My Portfolio</h1>";
    "        <p>Data Scientist | ML Engineer | Problem Solver</p>";
    "    </div>";
    "</div>";
    "{% endblock %}"
  ].

(** [_get_env_example], line 625 *)
Definition get_env_example : string :=
  text [
    "# Application";
    cat ["PROJECT_NAME="; dq; "My Portfolio"; dq];
    "ENVIRONMENT=development";
    "DEBUG=true";
    blank;
    "# Database";
    "DATABASE_URL=sqlite:///./app.db";
    blank;
    "# Security";
    "SECRET_KEY=your-secret-key-here";
    blank;
    "# API Keys";
    "OPENAI_API_KEY=";
    "GROQ_API_KEY=";
    blank;
    "# Webhooks";
    "WEBHOOK_URL=";
    blank;
    "# CORS";
    "ALLOWED_ORIGINS=http://localhost:8080"
  ].

(** [_get_gitignore], line 648 *)
Definition get_gitignore : string :=
  text [
    "# Python";
    "__pycache__/";
    "*.py[cod]";
    "*$py.class";
    "*.so";
    ".Python";
    "venv/";
    "env/";
    "ENV/";
    "*.egg-info/";
    "dist/";
    "build/";
    blank;
    "# Database";
    "*.db";
    "*.db-journal";
    "*.sqlite";
    "*.sqlite3";
    blank;
    "# Environment";
    ".env";
    ".env.local";
    blank;
    "# IDE";
    ".vscode/";
    ".idea/";
    "*.swp";
    "*.swo";
    blank;
    "# OS";
    ".DS_Store";
    "Thumbs.db";
    blank;
    "# Logs";
    "*.log";
    blank;
    "# Cache";
    ".cache/";
    ".pytest_cache/"
  ].

(** [_get_requirements], line 690 *)
Definition get_requirements : string :=
  text [
    "# Core";
    "fastapi==0.109.0";
    "uvicorn[standard]==0.27.0";
    "python-multipart==0.0.6";
    "jinja2==3.1.3";
    "python-dotenv==1.0.0";
    "pydantic-settings==2.1.0";
    blank;
    "# Database";
    "sqlalchemy==2.0.25";
    "alembic==1.13.1";
    blank;
    "# Utilities";
    "httpx==0.26.0";
    "requests==2.31.0";
    blank;
    "# Testing";
    "pytest==7.4.4";
    "pytest-asyncio==0.23.3"
  ].

(** [_get_readme], line 712: the only body that reads
    [self.project_name] *)
Definition get_readme (project_name : string) : string :=
  text [
    cat ["# "; project_name];
    blank;
    "Professional web application built with FastAPI.";
    blank;
    "## Quick Start";
    blank;
    "```bash";
    "# Setup";
    "python -m venv venv";
    "source venv/bin/activate  # Windows: venv\Scripts\activate";
    "pip install -r requirements.txt";
    blank;
    "# Configure";
    "cp .env.example .env";
    "# Edit .env with your settings";
    blank;
    "# Run";
    "python app/main.py";
    "```";
    blank;
    "Visit: http://localhost:8080";
    blank;
    "## Features";
    blank;
    "- ✅ Modern FastAPI backend";
    "- ✅ SQLAlchemy database integration";
    "- ✅ Professional project structure";
    "- ✅ Analytics tracking";
    "- ✅ API documentation at /api/docs";
    blank;
    "## Project Structure";
    blank;
    "```";
    cat [project_name; "/"];
    "├── app/           # Application code";
    "├── static/        # Static assets";
    "├── templates/     # HTML templates";
    "├── tests/         # Tests";
    "└── alembic/       # Database migrations";
    "```";
    blank;
    "## Development";
    blank;
    "```bash";
    "# Run with auto-reload";
    "python app/main.py";
    blank;
    "# Run tests";
    "pytest";
    blank;
    "# Database migrations";
    cat ["alembic revision --autogenerate -m "; dq; "description"; dq];
    "alembic upgrade head";
    "```"
  ].

(** [_get_dockerfile], line 769 *)
Definition get_dockerfile : string :=
  text [
    "FROM python:3.11-slim";
    blank;
    "WORKDIR /app";
    blank;
    "COPY requirements.txt .";
    "RUN pip install --no-cache-dir -r requirements.txt";
    blank;
    "COPY . .";
    blank;
    "EXPOSE 8080";
    blank;
    cat ["CMD ["; dq; "python"; dq; ", "; dq; "app/main.py"; dq; "]"]
  ].

(** [_get_docker_compose], line 784 *)
Definition get_docker_compose : string :=
  text [
    "version: '3.8'";
    blank;
    "services:";
    "  app:";
    "    build: .";
    "    ports:";
    cat ["      - "; dq; "8080:8080"; dq];
    "    environment:";
    "      - DATABASE_URL=sqlite:///./app.db";
    "    volumes:";
    "      - .:/app"
  ].

(** [_get_run_py], line 798 *)
Definition get_run_py : string :=
  text [
    cat [tq; "Development server runner"; tq];
    "import uvicorn";
    "from app.config import settings";
    blank;
    cat ["if __name__ == "; dq; "__main__"; dq; ":"];
    "    uvicorn.run(";
    cat ["        "; dq; "app.main:app"; dq; ","];
    cat ["        host="; dq; "0.0.0.0"; dq; ","];
    "        port=8080,";
    "        reload=settings.DEBUG,";
    cat ["        log_level="; dq; "info"; dq];
    "    )"
  ].

End Catalog.

(** ** ProjectScaffolder *)

Module Scaffolder.
Import PyStr Py Catalog.

(** A value of a structure dict: a [str] (a file and its content) or a
    nested [dict] (a directory).  A dict is kept as the list of its
    items, in insertion order. *)
#[warnings="-register-all"]
Inductive node :=
| File (content : string)
| Directory (items : list (string * node)).

Abbreviation structure := (list (string * node)).

Record t := Self {
  project_name : string;
  project_type : string;
  project_root : Path
}.

(** [__init__] *)
Definition init (project_name project_type : string) : M t :=
  here <- path_cwd ;
  ret (Self project_name project_type (here </> project_name)).

(** [_create_file] *)
Definition create_file (self : t) (filepath : Path) (content : string)
  : M unit :=
  open_write filepath content ;;
  match PurePath.relative_to filepath (project_root self) with
  | Some rel => print ("  ✓ Created: " +:+ rel)
  | None => raise ValueError
  end.

(** [_build_structure], one item of the loop: the recursion is on the
    value, the loop over the items of a nested dict is the inner
    fixpoint. *)
Fixpoint build_item (self : t) (base_path : Path) (name : string)
    (content : node) {struct content} : M unit :=
  let path := base_path </> name in
  match content with
  | Directory sub =>
      path_mkdir path ;;
      (fix items (l : structure) : M unit :=
         match l with
         | [] => ret tt
         | (n, c) :: rest => build_item self path n c ;; items rest
         end) sub
  | File content =>
      path_mkdir (PurePath.parent path) ;;
      create_file self path content
  end.

(** [_build_structure] *)
Fixpoint build_structure (self : t) (base_path : Path) (s : structure)
  : M unit :=
  match s with
  | [] => ret tt
  | (name, content) :: rest =>
      build_item self base_path name content ;;
      build_structure self base_path rest
  end.

(** The dict literal of [_create_portfolio_structure]. *)
Definition portfolio_structure : structure :=
  [
    ("app", Directory
      [
        ("__init__.py", File get_app_init);
        ("main.py", File get_main_py);
        ("config.py", File get_config_py);
        ("dependencies.py", File blank);
        ("api", Directory
          [
            ("__init__.py", File blank);
            ("routes", Directory
              [
                ("__init__.py", File blank);
                ("pages.py", File get_pages_routes);
                ("chatbot.py", File get_chatbot_routes);
                ("email.py", File get_email_routes);
                ("contact.py", File get_contact_routes);
                ("analytics.py", File get_analytics_routes)
              ]);
            ("middleware", Directory
              [
                ("__init__.py", File blank);
                ("analytics.py", File get_analytics_middleware);
                ("security.py", File get_security_middleware);
                ("error.py", File blank)
              ])
          ]);
        ("core", Directory
          [
            ("__init__.py", File blank);
            ("graphrag.py", File "# Your GraphRAG implementation goes here");
            ("document_processor.py", File "# Your document processor goes here");
            ("knowledgegraph.py", File "# Your knowledge graph goes here");
            ("queryengine.py", File "# Your query engine goes here");
            ("email_generator.py", File "# Your email generator goes here")
          ]);
        ("database", Directory
          [
            ("__init__.py", File blank);
            ("models.py", File get_models_py);
            ("connection.py", File get_connection_py);
            ("crud.py", File "# CRUD operations go here")
          ]);
        ("utils", Directory
          [
            ("__init__.py", File blank);
            ("session.py", File blank);
            ("validators.py", File blank)
          ])
      ]);
    ("static", Directory
      [
        ("css", Directory
          [
            ("base.css", File get_base_css);
            ("components.css", File blank);
            ("utils.css", File blank);
            ("pages", Directory
              [
                ("home.css", File blank);
                ("portfolio.css", File blank);
                ("chatbot.css", File blank);
                ("contact.css", File blank)
              ])
          ]);
        ("js", Directory
          [
            ("main.js", File get_main_js);
            ("components", Directory
              [
                ("navbar.js", File blank);
                ("footer.js", File blank);
                ("typing-effect.js", File blank)
              ]);
            ("pages", Directory
              [
                ("chatbot.js", File blank);
                ("email.js", File blank);
                ("contact.js", File blank)
              ])
          ]);
        ("img", Directory
          [
            ("logo", Directory []);
            ("projects", Directory []);
            ("backgrounds", Directory [])
          ])
      ]);
    ("templates", Directory
      [
        ("base.html", File get_base_template);
        ("components", Directory
          [
            ("navbar.html", File get_navbar_component);
            ("footer.html", File get_footer_component);
            ("project-card.html", File blank)
          ]);
        ("pages", Directory
          [
            ("home.html", File get_home_page);
            ("about.html", File blank);
            ("portfolio.html", File blank);
            ("chatbot.html", File blank);
            ("email-generator.html", File blank);
            ("project-details", Directory
              [
                ("cancer-prediction.html", File blank);
                ("cold-email.html", File blank);
                ("object-detection.html", File blank)
              ])
          ])
      ]);
    ("tests", Directory
      [
        ("__init__.py", File blank);
        ("test_api.py", File blank);
        ("test_database.py", File blank);
        ("test_ml.py", File blank)
      ]);
    ("alembic", Directory
      [
        ("versions", Directory []);
        ("env.py", File blank)
      ])
  ].

(** The dict literal of [_create_api_structure]. *)
Definition api_structure : structure :=
  [
    ("app", Directory
      [
        ("__init__.py", File blank);
        ("main.py", File get_main_py);
        ("config.py", File get_config_py);
        ("api", Directory
          [
            ("__init__.py", File blank);
            ("routes", Directory
              [
                ("__init__.py", File blank);
                ("users.py", File blank);
                ("auth.py", File blank)
              ])
          ]);
        ("database", Directory
          [
            ("__init__.py", File blank);
            ("models.py", File blank);
            ("connection.py", File get_connection_py)
          ])
      ]);
    ("tests", Directory
      [
        ("__init__.py", File blank);
        ("test_api.py", File blank)
      ])
  ].

(** [_create_portfolio_structure] *)
Definition create_portfolio_structure (self : t) : M unit :=
  let root := project_root self in
  build_structure self root portfolio_structure ;;
  create_file self (root </> ".env.example") get_env_example ;;
  create_file self (root </> ".gitignore") get_gitignore ;;
  create_file self (root </> "requirements.txt") get_requirements ;;
  create_file self (root </> "README.md") (get_readme (project_name self)) ;;
  create_file self (root </> "Dockerfile") get_dockerfile ;;
  create_file self (root </> "docker-compose.yml") get_docker_compose ;;
  create_file self (root </> "run.py") get_run_py.

(** [_create_api_structure] *)
Definition create_api_structure (self : t) : M unit :=
  let root := project_root self in
  build_structure self root api_structure ;;
  create_file self (root </> ".env.example") get_env_example ;;
  create_file self (root </> ".gitignore") get_gitignore ;;
  create_file self (root </> "requirements.txt") get_requirements ;;
  create_file self (root </> "README.md") (get_readme (project_name self)).

(** [_create_fullstack_structure] *)
Definition create_fullstack_structure (self : t) : M unit :=
  create_portfolio_structure self.

Definition msg_creating (self : t) : string :=
  "🚀 Creating " +:+ project_type self +:+ " project: "
    +:+ project_name self.

Definition msg_exists (self : t) : string :=
  "❌ Error: Directory '" +:+ project_name self +:+ "' already exists!".

Definition msg_unknown (self : t) : string :=
  "❌ Unknown project type: " +:+ project_type self.

(** The closing prints of [create]. *)
Definition print_summary (self : t) : M unit :=
  print (nl +:+ "✅ Project '" +:+ project_name self
            +:+ "' created successfully!") ;;
  print (nl +:+ "📂 Location: " +:+ PurePath.str (project_root self)) ;;
  print (nl +:+ "🎯 Next steps:") ;;
  print ("   cd " +:+ project_name self) ;;
  print "   python -m venv venv" ;;
  print "   source venv/bin/activate  # On Windows: venv\Scripts\activate" ;;
  print "   pip install -r requirements.txt" ;;
  print "   python app/main.py".

(** [create] *)
Definition create (self : t) : M unit :=
  print (msg_creating self) ;;
  found <- path_exists (project_root self) ;
  (if found then print (msg_exists self) ;; sys_exit 1 else ret tt) ;;
  (if String.eqb (project_type self) "portfolio" then
     create_portfolio_structure self
   else if String.eqb (project_type self) "api" then
     create_api_structure self
   else if String.eqb (project_type self) "fullstack" then
     create_fullstack_structure self
   else
     print (msg_unknown self) ;; sys_exit 1) ;;
  print_summary self.

(** [ProjectScaffolder(project_name, project_type).create()] *)
Definition scaffold (project_name project_type : string) : M unit :=
  scaffolder <- init project_name project_type ;
  create scaffolder.

(** [main].  The command line is taken as argparse has split it: the
    positional argument, and the value given to [--type] if there is
    one.  What [main] itself fixes is kept: the default and the
    [choices] of [--type]; a value outside them ends in [parser.error],
    which writes to the error stream and exits with status 2. *)
Section Main.

(** Python's [repr] of a string: argparse shows the rejected value
    with it. *)
Variable repr : string -> string.

Definition type_choices : list string := ["portfolio"; "api"; "fullstack"].

Definition msg_invalid_choice (value : string) : string :=
  "argument --type: invalid choice: " +:+ repr value
    +:+ " (choose from 'portfolio', 'api', 'fullstack')".

Definition parse_args (project_name : string) (type : option string)
  : M (string * string) :=
  match type with
  | None => ret (project_name, "portfolio")
  | Some value =>
      if bool_decide (value ∈ type_choices)
      then ret (project_name, value)
      else eprint (msg_invalid_choice value) ;; sys_exit 2
  end.

Definition main (project_name : string) (type : option string) : M unit :=
  args <- parse_args project_name type ;
  scaffold (fst args) (snd args).

End Main.

End Scaffolder.


(** * Notions for the statements *)

(** ** Names *)

Module Names.
Import PyStr PurePath.

Fixpoint has_slash (s : string) : bool :=
  match s with
  | EmptyString => false
  | String c s' => Ascii.eqb c slash || has_slash s'
  end.

(** A single path component: not empty, not ["."] or [".."], no slash. *)
Definition simple_name (n : string) : bool :=
  keep n && negb (String.eqb n "..") && negb (has_slash n).

End Names.

(** ** Growth of the world, layout of a structure, outcomes of a run *)

Module Notions.
Import Posix Pathlib Py Scaffolder Names.

Definition is_directory (e : entry) : bool :=
  match e with Dir => true | Reg _ => false end.

(** [grows m m']: every entry of [m] is still there in [m'], as a
    directory if it was one and as a file if it was one (the content of a
    file may differ). *)
Definition grows (m m' : fs) : Prop :=
  forall loc e, m !! loc = Some e ->
    is_directory <$> (m' !! loc) = Some (is_directory e).

(** The calls that change the file system. *)
Definition mutation (c : call) : bool :=
  match c with
  | CallExists _ => false
  | CallMkdir _ | CallOpen _ => true
  end.

(** [extends w w']: from [w] to [w'] the working directory and the error
    stream are the same, the file system has only grown, output was only
    appended, and the calls made in between are all mutations. *)
Record extends (w w' : world) : Prop := Extends {
  ext_cwd : cwd w' = cwd w;
  ext_disk : grows (disk w) (disk w');
  ext_stderr : stderr w' = stderr w;
  ext_stdout : exists l, stdout w' = stdout w ++ l;
  ext_calls : exists l, calls w' = calls w ++ l /\ forallb mutation l = true
}.

(** A computation is [steady] when every run of it extends the world,
    whether it returns or raises. *)
Definition steady {A} (c : M A) : Prop :=
  forall w w' o, c w = (w', o) -> extends w w'.

(** The world in which [create] leaves off when the root is there: two
    lines printed, one call made, the file system as it was. *)
Definition aborted (self : t) (w : world) : world :=
  World (cwd w) (disk w)
    (stdout w ++ [msg_creating self; msg_exists self])
    (stderr w)
    (calls w ++ [CallExists (project_root self)]).

(** The world in which [create] leaves off on an unknown type when the
    root is not there. *)
Definition refused (self : t) (w : world) : world :=
  World (cwd w) (disk w)
    (stdout w ++ [msg_creating self; msg_unknown self])
    (stderr w)
    (calls w ++ [CallExists (project_root self)]).

Definition known_type (ty : string) : bool :=
  String.eqb ty "portfolio" || String.eqb ty "api" || String.eqb ty "fullstack".

(** The entries of a value placed at [loc], parents before children, in
    the order of the items. *)
Fixpoint entries (loc : list string) (c : node) : list (list string * entry) :=
  match c with
  | File content => [(loc, Reg content)]
  | Directory sub =>
      (loc, Dir) ::
      (fix go (l : structure) :=
         match l with
         | [] => []
         | (n, c) :: rest => entries (loc ++ [n]) c ++ go rest
         end) sub
  end.

Fixpoint entries_items (loc : list string) (s : structure)
  : list (list string * entry) :=
  match s with
  | [] => []
  | (n, c) :: rest => entries (loc ++ [n]) c ++ entries_items loc rest
  end.

(** The files of a value placed at the relative path [rel], in the order
    in which [_build_structure] reaches them. *)
Fixpoint files (rel : list string) (c : node) : list (list string) :=
  match c with
  | File _ => [rel]
  | Directory sub =>
      (fix go (l : structure) :=
         match l with
         | [] => []
         | (n, c) :: rest => files (rel ++ [n]) c ++ go rest
         end) sub
  end.

Fixpoint files_items (rel : list string) (s : structure) : list (list string) :=
  match s with
  | [] => []
  | (n, c) :: rest => files (rel ++ [n]) c ++ files_items rel rest
  end.

(** The number of nodes of a value: itself and, for a directory, the
    nodes of its items. *)
Fixpoint nodes (c : node) : nat :=
  match c with
  | File _ => 1
  | Directory sub =>
      S ((fix go (l : structure) :=
            match l with
            | [] => 0
            | (_, c) :: rest => nodes c + go rest
            end) sub)
  end.

Fixpoint nodes_items (s : structure) : nat :=
  match s with
  | [] => 0
  | (_, c) :: rest => nodes c + nodes_items rest
  end.

(** The leaves of a value: its files and its empty directories. *)
Fixpoint leaves (c : node) : nat :=
  match c with
  | File _ => 1
  | Directory [] => 1
  | Directory sub =>
      (fix go (l : structure) :=
         match l with
         | [] => 0
         | (_, c) :: rest => leaves c + go rest
         end) sub
  end.

(** A dict as the program writes them: the keys of every dict are distinct
    (as in any dict) and each is a single path component. *)
Fixpoint well_formed (c : node) : bool :=
  match c with
  | File _ => true
  | Directory sub =>
      bool_decide (NoDup sub.*1) &&
      (fix go (l : structure) :=
         match l with
         | [] => true
         | (n, c) :: rest => simple_name n && well_formed c && go rest
         end) sub
  end.

Fixpoint well_formed_items (s : structure) : bool :=
  match s with
  | [] => true
  | (n, c) :: rest => simple_name n && well_formed c && well_formed_items rest
  end.

Definition progress_line (rel : list string) : string :=
  "  ✓ Created: " +:+ PyStr.join "/" rel.

(** Writing a list of entries, one after the other. *)
Definition write_all (es : list (list string * entry)) (m : fs) : fs :=
  foldl (fun m x => <[x.1 := x.2]> m) m es.

(** [placed self base rel lb w]: [base] is the root followed by [rel], and in
    [w] it leads to the directory at [lb]. *)
Record placed (self : t) (base : Path) (rel lb : list string) (w : world) : Prop := Placed {
  pl_parts : PurePath.parts base = PurePath.parts (project_root self) ++ rel;
  pl_anchor : PurePath.dslash base = PurePath.dslash (project_root self);
  pl_namei : namei (disk w) (PurePath.parts base) = inr lb;
  pl_dir : disk w !! lb = Some Dir
}.

(** One item under a directory that is there, nothing being at the place
    of the item. *)
Definition item_spec (self : t) (c : node) : Prop :=
  forall base rel lb n w,
    simple_name n = true -> well_formed c = true ->
    placed self base rel lb w ->
    (forall q, disk w !! (lb ++ n :: q) = None) ->
    exists w',
      build_item self base n c w = (w', Ok tt)
      /\ disk w' = write_all (entries (lb ++ [n]) c) (disk w)
      /\ stdout w' = stdout w ++ map progress_line (files (rel ++ [n]) c).

Definition items_spec (self : t) (s : structure) : Prop :=
  forall base rel lb w,
    NoDup s.*1 -> well_formed_items s = true ->
    placed self base rel lb w ->
    (forall n q, n ∈ s.*1 -> disk w !! (lb ++ n :: q) = None) ->
    exists w',
      build_structure self base s w = (w', Ok tt)
      /\ disk w' = write_all (entries_items lb s) (disk w)
      /\ stdout w' = stdout w ++ map progress_line (files_items rel s).

(** [agree pre1 pre2 w1 w2]: the two worlds are the same but for the
    beginning of their output, [pre1] in one and [pre2] in the other. *)
Record agree (pre1 pre2 : list string) (w1 w2 : world) : Prop := Agree {
  ag_cwd : cwd w1 = cwd w2;
  ag_disk : disk w1 = disk w2;
  ag_stderr : stderr w1 = stderr w2;
  ag_calls : calls w1 = calls w2;
  ag_stdout : exists t, stdout w1 = pre1 ++ t /\ stdout w2 = pre2 ++ t
}.

(** Two computations are [twin]s when, from worlds that agree, they end
    in worlds that agree, with the same outcome. *)
Definition twin {A} (c1 c2 : M A) : Prop :=
  forall pre1 pre2 w1 w2, agree pre1 pre2 w1 w2 ->
    agree pre1 pre2 (c1 w1).1 (c2 w2).1 /\ (c1 w1).2 = (c2 w2).2.

(** A file system in the shape of a tree: the parent of every entry is a
    directory. *)
Definition tree_shaped (m : fs) : bool :=
  forallb (fun x => bool_decide (m !! removelast x.1 = Some Dir))
    (map_to_list m).

(** The number of files of a structure. *)
Fixpoint count_files (c : node) : nat :=
  match c with
  | File _ => 1
  | Directory sub =>
      (fix go (l : structure) :=
         match l with
         | [] => 0
         | (_, c) :: rest => count_files c + go rest
         end) sub
  end.

(** The number of directories of a structure, itself included. *)
Fixpoint count_dirs (c : node) : nat :=
  match c with
  | File _ => 0
  | Directory sub =>
      S ((fix go (l : structure) :=
            match l with
            | [] => 0
            | (_, c) :: rest => count_dirs c + go rest
            end) sub)
  end.

(** The lines of [stdout] that report a created path. *)
Definition progress_lines (out : list string) : list string :=
  List.filter (String.prefix "  ✓ Created: ") out.

End Notions.

(** ** The text of the README around the name *)

Module ReadmeText.
Import PyStr Catalog.

(** The lines of the README between its title and the tree sketch. *)
Definition readme_before_sketch : list string :=
  [
    blank;
    "Professional web application built with FastAPI.";
    blank;
    "## Quick Start";
    blank;
    "```bash";
    "# Setup";
    "python -m venv venv";
    "source venv/bin/activate  # Windows: venv\Scripts\activate";
    "pip install -r requirements.txt";
    blank;
    "# Configure";
    "cp .env.example .env";
    "# Edit .env with your settings";
    blank;
    "# Run";
    "python app/main.py";
    "```";
    blank;
    "Visit: http://localhost:8080";
    blank;
    "## Features";
    blank;
    "- ✅ Modern FastAPI backend";
    "- ✅ SQLAlchemy database integration";
    "- ✅ Professional project structure";
    "- ✅ Analytics tracking";
    "- ✅ API documentation at /api/docs";
    blank;
    "## Project Structure";
    blank;
    "```"
  ].

(** The lines of the README after the head of the tree sketch. *)
Definition readme_after_sketch : list string :=
  [
    "├── app/           # Application code";
    "├── static/        # Static assets";
    "├── templates/     # HTML templates";
    "├── tests/         # Tests";
    "└── alembic/       # Database migrations";
    "```";
    blank;
    "## Development";
    blank;
    "```bash";
    "# Run with auto-reload";
    "python app/main.py";
    blank;
    "# Run tests";
    "pytest";
    blank;
    "# Database migrations";
    cat ["alembic revision --autogenerate -m "; dq; "description"; dq];
    "alembic upgrade head";
    "```"
  ].

(** What stands between the two places of the name, and after the second. *)
Definition readme_mid : string := nl +:+ text readme_before_sketch.
Definition readme_tail : string := "/" +:+ nl +:+ text readme_after_sketch.

End ReadmeText.

(** ** The catalog as a tree *)

Module Resolve.
Import Py Scaffolder Catalog.

(** The files that [_create_portfolio_structure] writes beside its dict. *)
Definition portfolio_root_files (project_name : string) : list (string * string) :=
  [ (".env.example", get_env_example);
    (".gitignore", get_gitignore);
    ("requirements.txt", get_requirements);
    ("README.md", get_readme project_name);
    ("Dockerfile", get_dockerfile);
    ("docker-compose.yml", get_docker_compose);
    ("run.py", get_run_py) ].

(** The files that [_create_api_structure] writes beside its dict. *)
Definition api_root_files (project_name : string) : list (string * string) :=
  [ (".env.example", get_env_example);
    (".gitignore", get_gitignore);
    ("requirements.txt", get_requirements);
    ("README.md", get_readme project_name) ].

Definition as_files (l : list (string * string)) : structure :=
  map (fun x => (x.1, File x.2)) l.

(** The tree that [create] lays out for a type and a name: the dict of the
    type, then the files written beside it.  [None] for a type that
    [create] does not know. *)
Definition resolve (project_type project_name : string) : option structure :=
  if String.eqb project_type "portfolio" then
    Some (portfolio_structure ++ as_files (portfolio_root_files project_name))
  else if String.eqb project_type "api" then
    Some (api_structure ++ as_files (api_root_files project_name))
  else if String.eqb project_type "fullstack" then
    Some (portfolio_structure ++ as_files (portfolio_root_files project_name))
  else None.

(** A run of [_create_file] calls, as the two methods make them after
    [_build_structure]. *)
Fixpoint create_files (self : t) (l : list (string * string)) : M unit :=
  match l with
  | [] => ret tt
  | (n, c) :: rest =>
      create_file self (project_root self </> n) c ;; create_files self rest
  end.

(** The lines that end a run that returned. *)
Definition summary_lines (self : t) : list string :=
  [ PyStr.nl +:+ "✅ Project '" +:+ project_name self
      +:+ "' created successfully!";
    PyStr.nl +:+ "📂 Location: " +:+ PurePath.str (project_root self);
    PyStr.nl +:+ "🎯 Next steps:";
    "   cd " +:+ project_name self;
    "   python -m venv venv";
    "   source venv/bin/activate  # On Windows: venv\Scripts\activate";
    "   pip install -r requirements.txt";
    "   python app/main.py" ].

End Resolve.

(** ** Worlds to run the program in *)

Module Example.
Import Posix Py.

(** A file system with the directories [/], [/home] and [/home/u]. *)
Definition home : fs :=
  <[ ["home"; "u"] := Dir ]> (<[ ["home"] := Dir ]> (<[ [] := Dir ]> ∅)).

Definition in_home (m : fs) : world :=
  World (PurePath.mk false ["home"; "u"]) m [] [] [].

(** Nothing in the working directory. *)
Definition fresh_world : world := in_home home.

(** The working directory holds a directory [demo]. *)
Definition taken_world : world := in_home (<[ ["home"; "u"; "demo"] := Dir ]> home).

End Example.

(** ** Notions for the further properties *)

Module Further.
Import Posix Py Scaffolder.

(** A computation that never ends in [SystemExit]: it returns, or raises
    some other exception. *)
Definition never_exits {A} (c : M A) : Prop :=
  forall w w' o n, c w = (w', o) -> o <> Raise (SystemExit n).

(** A computation that never ends in [ValueError], the exception of
    [relative_to]. *)
Definition never_value_error {A} (c : M A) : Prop :=
  forall w w' o, c w = (w', o) -> o <> Raise ValueError.

(** [laid_out m es]: every entry of [es] is in [m], directories as
    directories and files with the very content. *)
Definition laid_out (m : fs) (es : list (list string * entry)) : Prop :=
  forall loc e, (loc, e) ∈ es -> m !! loc = Some e.

End Further.

Import Names Notions ReadmeText Resolve Further.

(** * Properties *)

(** ** The model at work *)

Module Trials.
Import Posix Pathlib Py Scaffolder.

Example split_on_slash :
  PyStr.split PyStr.slash "a//b/" = ["a"; PyStr.blank; "b"; PyStr.blank].
Proof. reflexivity. Qed.

Example join_keeps_dotdot :
  PurePath.mk false ["home"; "u"] </> "./a/../b/"
  = PurePath.mk false ["home"; "u"; "a"; ".."; "b"].
Proof. reflexivity. Qed.

Example join_absolute_replaces :
  PurePath.mk false ["home"; "u"] </> "//srv/x" = PurePath.mk true ["srv"; "x"].
Proof. reflexivity. Qed.

Example relative_to_root :
  PurePath.relative_to (PurePath.mk false ["home"; "u"; "demo"; "app"; "main.py"])
    (PurePath.mk false ["home"; "u"; "demo"])
  = Some "app/main.py".
Proof. reflexivity. Qed.

Example walk_through_dotdot :
  namei Example.home ["home"; "u"; ".."; "v"] = inr ["home"; "v"].
Proof. vm_compute. reflexivity. Qed.

Example walk_missing_parent :
  namei Example.home ["home"; "v"; "w"] = inl ENOENT.
Proof. vm_compute. reflexivity. Qed.

Example mkdir_makes_parents :
  let r := mkdir_p Example.home ["home"; "u"; "a"; "b"] in
  r.2 = None
  /\ r.1 !! ["home"; "u"; "a"] = Some Dir
  /\ r.1 !! ["home"; "u"; "a"; "b"] = Some Dir.
Proof. vm_compute. repeat split. Qed.

Example mkdir_over_file :
  (mkdir_p (<[ ["f"] := Reg "x" ]> Example.home) ["f"; "d"]).2 = Some ENOTDIR.
Proof. vm_compute. reflexivity. Qed.

Example api_run :
  let r := scaffold "demo" "api" Example.fresh_world in
  r.2 = Ok tt
  /\ Py.exit_status r.2 = 0
  /\ stat (disk r.1) ["home"; "u"; "demo"; "app"; "main.py"]
     = inr (Reg Catalog.get_main_py)
  /\ stat (disk r.1) ["home"; "u"; "demo"; "tests"] = inr Dir
  /\ length (stdout r.1) = 25.
Proof. vm_compute. repeat split. Qed.

End Trials.

(** ** Names and paths *)

Module NameFacts.
Import PyStr PurePath.

Lemma split_slash_free s : has_slash s = false -> split slash s = [s].
Proof.
  induction s as [|c s IH]; simpl; [done|].
  intros [Hc Hs]%orb_false_iff. rewrite Hc, (IH Hs). done.
Qed.

Lemma simple_name_inv n :
  simple_name n = true ->
  keep n = true /\ n <> ".." /\ has_slash n = false.
Proof.
  unfold simple_name. rewrite !andb_true_iff, !negb_true_iff.
  intros [[Hk Hd] Hs]. repeat split; try done.
  intros ->. discriminate Hd.
Qed.

Lemma parse_parts_simple n : simple_name n = true -> parse_parts n = [n].
Proof.
  intros (Hk & _ & Hs)%simple_name_inv. unfold parse_parts.
  rewrite (split_slash_free _ Hs). simpl. rewrite Hk. done.
Qed.

Lemma is_absolute_slash_free n : has_slash n = false -> is_absolute n = false.
Proof.
  destruct n as [|c n]; [done|].
  intros [Hc _]%orb_false_iff. unfold is_absolute, startswith.
  cbn [String.prefix].
  destruct (Ascii.ascii_dec "/" c) as [<-|]; [discriminate Hc | done].
Qed.

Lemma div_simple (p : Path) n :
  simple_name n = true -> p </> n = mk (dslash p) (parts p ++ [n]).
Proof.
  intros H. unfold div.
  rewrite (is_absolute_slash_free n), (parse_parts_simple n H); [done|].
  by apply simple_name_inv in H as (_ & _ & ?).
Qed.

Lemma strip_prefix_app pre rel : strip_prefix pre (pre ++ rel) = Some rel.
Proof.
  induction pre as [|x pre IH]; simpl; [done|].
  by rewrite String.eqb_refl.
Qed.

Lemma relative_to_below (root : Path) rel x :
  relative_to (mk (dslash root) (parts root ++ rel ++ [x])) root
  = Some (join "/" (rel ++ [x])).
Proof.
  unfold relative_to. simpl. rewrite bool_decide_eq_true_2 by done.
  rewrite strip_prefix_app. by destruct rel.
Qed.

End NameFacts.

(** ** The file system only grows *)

Module PosixFacts.
Import Posix Pathlib.

Lemma grows_refl m : grows m m.
Proof. intros loc e H. by rewrite H. Qed.

Lemma grows_trans m1 m2 m3 : grows m1 m2 -> grows m2 m3 -> grows m1 m3.
Proof.
  intros H12 H23 loc e H. specialize (H12 _ _ H).
  destruct (m2 !! loc) as [e2|] eqn:E2; [|done].
  specialize (H23 _ _ E2). simpl in H12. congruence.
Qed.

Lemma grows_dir (m m' : fs) (loc : list string) : grows m m' -> m !! loc = Some Dir -> m' !! loc = Some Dir.
Proof.
  intros G H. specialize (G _ _ H).
  destruct (m' !! loc) as [[|c]|]; simpl in G; congruence.
Qed.

Lemma grows_insert (m : fs) (loc : list string) e :
  (forall e0, m !! loc = Some e0 -> is_directory e0 = is_directory e) ->
  grows m (<[loc := e]> m).
Proof.
  intros H k e0 Hk. destruct (decide (loc = k)) as [->|Hne].
  - rewrite lookup_insert_eq. simpl. by rewrite (H _ Hk).
  - rewrite lookup_insert_ne by done. by rewrite Hk.
Qed.

Lemma walk_app m cur p q :
  walk m cur (p ++ q)
  = match walk m cur p with inl e => inl e | inr loc => walk m loc q end.
Proof.
  revert cur. induction p as [|c p IH]; intros cur; simpl; [done|].
  destruct (m !! cur) as [[|?]|]; auto.
Qed.

Lemma walk_grows m m' cur p loc :
  grows m m' -> walk m cur p = inr loc -> walk m' cur p = inr loc.
Proof.
  intros G. revert cur. induction p as [|c p IH]; intros cur; simpl; [done|].
  destruct (m !! cur) as [[|?]|] eqn:E; try done.
  rewrite (grows_dir _ _ _ G E). apply IH.
Qed.

Lemma namei_grows m m' p loc :
  grows m m' -> namei m p = inr loc -> namei m' p = inr loc.
Proof. apply walk_grows. Qed.

Lemma namei_snoc (m : fs) p (lb : list string) n :
  namei m p = inr lb -> m !! lb = Some Dir -> n <> ".." ->
  namei m (p ++ [n]) = inr (lb ++ [n]).
Proof.
  unfold namei. intros Hp Hd Hn. rewrite walk_app, Hp. simpl. rewrite Hd.
  by rewrite (proj2 (String.eqb_neq n "..") Hn).
Qed.

Lemma namei_snoc_missing (m : fs) p (lb : list string) n :
  namei m p = inr lb -> m !! lb = None -> namei m (p ++ [n]) = inl ENOENT.
Proof. unfold namei. intros Hp Hd. rewrite walk_app, Hp. simpl. by rewrite Hd. Qed.

Lemma is_dir_spec m p :
  is_dir m p = true <-> exists loc, namei m p = inr loc /\ m !! loc = Some Dir.
Proof.
  unfold is_dir, stat. split.
  - destruct (namei m p) as [|loc]; [done|].
    destruct (m !! loc) as [[|?]|] eqn:E; try done. eauto.
  - intros (loc & -> & ->). done.
Qed.

Lemma exists_spec m p :
  Posix.exists_ m p = true <-> exists loc, namei m p = inr loc /\ is_Some (m !! loc).
Proof.
  unfold Posix.exists_, stat. split.
  - destruct (namei m p) as [|loc]; [done|].
    destruct (m !! loc) eqn:E; try done. eauto.
  - intros (loc & -> & [e ->]). done.
Qed.

Lemma is_dir_exists m p : is_dir m p = true -> Posix.exists_ m p = true.
Proof.
  rewrite is_dir_spec, exists_spec. intros (loc & ? & ?). exists loc. eauto.
Qed.

Lemma is_dir_grows m m' p : grows m m' -> is_dir m p = true -> is_dir m' p = true.
Proof.
  rewrite !is_dir_spec. intros G (loc & Hn & Hd). exists loc.
  eauto using namei_grows, grows_dir.
Qed.

Lemma exists_grows m m' p : grows m m' -> Posix.exists_ m p = true -> Posix.exists_ m' p = true.
Proof.
  rewrite !exists_spec. intros G (loc & Hn & [e He]). exists loc.
  split; [eauto using namei_grows|].
  specialize (G _ _ He). destruct (m' !! loc); [eauto | done].
Qed.

(** A path that leads to a directory leads through directories. *)
Lemma is_dir_parent m p n : is_dir m (p ++ [n]) = true -> is_dir m p = true.
Proof.
  rewrite !is_dir_spec. intros (loc & Hn & _). unfold namei in *.
  rewrite walk_app in Hn. destruct (walk m [] p) as [|lb]; [done|].
  simpl in Hn. destruct (m !! lb) as [[|?]|] eqn:E; try done. eauto.
Qed.

Lemma mkdir_inv m p m' :
  Posix.mkdir m p = inr m' ->
  exists loc, namei m p = inr loc /\ m !! loc = None /\ m' = <[loc := Dir]> m.
Proof.
  unfold Posix.mkdir. destruct (namei m p) as [|loc]; [done|].
  destruct (m !! loc) eqn:E; [done|]. intros [= <-]. eauto.
Qed.

Lemma write_file_inv m p c m' :
  write_file m p c = inr m' ->
  exists loc, namei m p = inr loc /\ m !! loc <> Some Dir
              /\ m' = <[loc := Reg c]> m.
Proof.
  unfold write_file. destruct (namei m p) as [|loc]; [done|].
  destruct (m !! loc) as [[|?]|] eqn:E; try done; intros [= <-];
    exists loc; by rewrite E.
Qed.

Lemma mkdir_grows m p m' : Posix.mkdir m p = inr m' -> grows m m'.
Proof.
  intros (loc & _ & Hnone & ->)%mkdir_inv. apply grows_insert.
  intros e0. by rewrite Hnone.
Qed.

Lemma write_file_grows m p c m' : write_file m p c = inr m' -> grows m m'.
Proof.
  intros (loc & _ & Hnd & ->)%write_file_inv. apply grows_insert.
  intros [|?] H; [done | done].
Qed.

Lemma mkdir_is_dir m p m' : Posix.mkdir m p = inr m' -> is_dir m' p = true.
Proof.
  intros H. pose proof (mkdir_grows _ _ _ H) as G.
  apply mkdir_inv in H as (loc & Hn & _ & ->).
  apply is_dir_spec. exists loc. split; [eauto using namei_grows|].
  apply lookup_insert_eq.
Qed.

Lemma mkdir_once_grows m p m' o : mkdir_once m p = (m', o) -> grows m m'.
Proof.
  unfold mkdir_once. destruct (Posix.mkdir m p) as [[]|m1] eqn:E;
    repeat case_match; intros [= <- <-];
    eauto using grows_refl, mkdir_grows.
Qed.

Lemma mkdir_once_is_dir m p m' : mkdir_once m p = (m', None) -> is_dir m' p = true.
Proof.
  unfold mkdir_once. destruct (Posix.mkdir m p) as [[]|m1] eqn:E;
    repeat case_match; intros [= <-]; eauto using mkdir_is_dir.
Qed.

Lemma mkdir_up_grows rp : forall m m' o, mkdir_up m rp = (m', o) -> grows m m'.
Proof.
  induction rp as [|x up IH]; intros m m' o; simpl.
  - destruct (Posix.mkdir m []) as [[]|m1] eqn:E;
      repeat case_match; intros [= <- <-]; eauto using grows_refl, mkdir_grows.
  - destruct (Posix.mkdir m (rev up ++ [x])) as [[]|m1] eqn:E.
    + destruct (mkdir_up m up) as [m1 [e|]] eqn:E1.
      * intros [= <- <-]. eauto.
      * intros H. eapply grows_trans; eauto using mkdir_once_grows.
    + case_match; intros [= <- <-]; apply grows_refl.
    + case_match; intros [= <- <-]; apply grows_refl.
    + case_match; intros [= <- <-]; apply grows_refl.
    + intros [= <- <-]. eauto using mkdir_grows.
Qed.

Lemma mkdir_up_is_dir rp m m' :
  mkdir_up m rp = (m', None) -> is_dir m' (rev rp) = true.
Proof.
  destruct rp as [|x up]; simpl.
  - destruct (Posix.mkdir m []) as [[]|m1] eqn:E;
      repeat case_match; intros [= <-]; eauto using mkdir_is_dir.
  - destruct (Posix.mkdir m (rev up ++ [x])) as [[]|m1] eqn:E.
    + destruct (mkdir_up m up) as [m1 [e|]] eqn:E1; [done|].
      apply mkdir_once_is_dir.
    + case_match; intros [= <-]; done.
    + case_match; intros [= <-]; done.
    + case_match; intros [= <-]; done.
    + intros [= <-]. eauto using mkdir_is_dir.
Qed.

Lemma mkdir_p_grows m p m' o : mkdir_p m p = (m', o) -> grows m m'.
Proof. apply mkdir_up_grows. Qed.

Lemma mkdir_p_is_dir m p m' : mkdir_p m p = (m', None) -> is_dir m' p = true.
Proof.
  intros H%mkdir_up_is_dir. by rewrite rev_involutive in H.
Qed.

(** [mkdir_p] where the first [os.mkdir] succeeds. *)
Lemma mkdir_p_new (m : fs) p (loc : list string) :
  namei m p = inr loc -> m !! loc = None ->
  mkdir_p m p = (<[loc := Dir]> m, None).
Proof.
  intros Hn Hl. unfold mkdir_p.
  assert (Posix.mkdir m (rev (rev p)) = inr (<[loc := Dir]> m)) as E.
  { rewrite rev_involutive. unfold Posix.mkdir. by rewrite Hn, Hl. }
  destruct (rev p); simpl in *; by rewrite E.
Qed.

(** [mkdir_p] on a directory that is there. *)
Lemma mkdir_p_there m p : is_dir m p = true -> mkdir_p m p = (m, None).
Proof.
  intros Hd. pose proof Hd as (loc & Hn & Hl)%is_dir_spec. unfold mkdir_p.
  assert (Posix.mkdir m (rev (rev p)) = inl EEXIST) as E.
  { rewrite rev_involutive. unfold Posix.mkdir. by rewrite Hn, Hl. }
  rewrite <- (rev_involutive p) in Hd.
  destruct (rev p); simpl in *; by rewrite E, Hd.
Qed.

(** [mkdir_p] where exactly the parent is missing: the parent is made,
    then the directory. *)
Lemma mkdir_p_parent_new (m : fs) p n (lb : list string) :
  namei m p = inr lb -> m !! lb = None -> m !! (lb ++ [n]) = None ->
  n <> ".." ->
  mkdir_p m (p ++ [n]) = (<[lb ++ [n] := Dir]> (<[lb := Dir]> m), None).
Proof.
  intros Hn Hl Hc Hdd. unfold mkdir_p. rewrite rev_unit. simpl.
  rewrite rev_involutive.
  unfold Posix.mkdir at 1. rewrite (namei_snoc_missing _ _ _ _ Hn Hl).
  fold (mkdir_p m p). rewrite (mkdir_p_new _ _ _ Hn Hl).
  unfold mkdir_once, Posix.mkdir.
  rewrite (namei_snoc _ _ lb n); first last; try done.
  - apply lookup_insert_eq.
  - eapply namei_grows; [|done]. apply grows_insert. intros e0. by rewrite Hl.
  - rewrite lookup_insert_ne, Hc; [done|].
    intros H%(f_equal length). rewrite length_app in H. simpl in H. lia.
Qed.

End PosixFacts.

(** ** What every step of the builder leaves in place *)

Module PyFacts.
Import Posix Pathlib Py PosixFacts.

Lemma extends_refl w : extends w w.
Proof.
  split; try done.
  - apply grows_refl.
  - exists []. by rewrite app_nil_r.
  - exists []. by rewrite app_nil_r.
Qed.

Lemma extends_trans w1 w2 w3 : extends w1 w2 -> extends w2 w3 -> extends w1 w3.
Proof.
  intros [C1 D1 E1 [o1 O1] [l1 [L1 F1]]] [C2 D2 E2 [o2 O2] [l2 [L2 F2]]].
  split.
  - congruence.
  - eauto using grows_trans.
  - congruence.
  - exists (o1 ++ o2). by rewrite O2, O1, app_assoc.
  - exists (l1 ++ l2). rewrite L2, L1, app_assoc, forallb_app, F1, F2. done.
Qed.

Lemma steady_ret {A} (a : A) : steady (ret a).
Proof. intros w w' o [= <- <-]. apply extends_refl. Qed.

Lemma steady_raise {A} e : steady (@raise A e).
Proof. intros w w' o [= <- <-]. apply extends_refl. Qed.

Lemma steady_bind {A B} (c : M A) (k : A -> M B) :
  steady c -> (forall a, steady (k a)) -> steady (bind c k).
Proof.
  intros Hc Hk w w' o. unfold bind.
  destruct (c w) as [w1 [a|e]] eqn:E.
  - intros H. eapply extends_trans; [eapply Hc | eapply Hk]; eauto.
  - intros [= <- <-]. eauto.
Qed.

Lemma steady_print s : steady (print s).
Proof.
  intros w w' o [= <- <-]. split; simpl; try done.
  - apply grows_refl.
  - eauto.
  - exists []. by rewrite app_nil_r.
Qed.

Lemma steady_path_mkdir p : steady (path_mkdir p).
Proof.
  intros w w' o. unfold path_mkdir.
  destruct (mkdir_p (disk w) (PurePath.parts p)) as [m [e|]] eqn:E;
    intros [= <- <-]; (split; simpl; try done;
      [ eauto using mkdir_p_grows | exists []; by rewrite app_nil_r | eauto ]).
Qed.

Lemma steady_open_write p c : steady (open_write p c).
Proof.
  intros w w' o. unfold open_write.
  destruct (write_file (disk w) (PurePath.parts p) c) as [e|m] eqn:E;
    intros [= <- <-]; (split; simpl; try done;
      [ eauto using write_file_grows, grows_refl
      | exists []; by rewrite app_nil_r | eauto ]).
Qed.

End PyFacts.

(** ** The builder *)

Module BuilderFacts.
Import Posix Pathlib Py PosixFacts PyFacts NameFacts Scaffolder.

(** Induction on a structure value, with the hypothesis for every item of
    a nested dict. *)
Lemma node_ind_nested (P : node -> Prop) :
  (forall content, P (File content)) ->
  (forall items, Forall (fun x => P x.2) items -> P (Directory items)) ->
  forall c, P c.
Proof.
  intros HF HD. fix IH 1. intros [content|items].
  - apply HF.
  - apply HD. induction items as [|[n c] items IHitems]; constructor.
    + apply IH.
    + exact IHitems.
Qed.

Lemma bind_ok_inv {A B} (c : M A) (k : A -> M B) w w' b :
  bind c k w = (w', Ok b) ->
  exists w1 a, c w = (w1, Ok a) /\ k a w1 = (w', Ok b).
Proof.
  unfold bind. destruct (c w) as [w1 [a|e]]; [eauto | done].
Qed.

(** A run is known by its outcome and the world it ends in. *)
Lemma run_ok {A} (c : M A) w a : (c w).2 = Ok a -> c w = ((c w).1, Ok a).
Proof. destruct (c w) as [w' o]. simpl. by intros ->. Qed.

Lemma bind_ok {A B} (c : M A) (k : A -> M B) w w1 a :
  c w = (w1, Ok a) -> bind c k w = k a w1.
Proof. unfold bind. by intros ->. Qed.

(** The equations of [_build_structure], as the source has them. *)
Lemma build_item_directory self base name sub w :
  build_item self base name (Directory sub) w
  = (path_mkdir (base </> name) ;;
     build_structure self (base </> name) sub) w.
Proof.
  simpl. unfold bind. destruct (path_mkdir (base </> name) w) as [w1 [[]|e]]; [|done].
  generalize w1. induction sub as [|[n c] sub IH]; intros w2; [done|].
  simpl. unfold bind. destruct (build_item self (base </> name) n c w2) as [w3 [[]|e]]; [|done].
  apply IH.
Qed.

Lemma build_item_file self base name content w :
  build_item self base name (File content) w
  = (path_mkdir (PurePath.parent (base </> name)) ;;
     create_file self (base </> name) content) w.
Proof. done. Qed.

Lemma steady_create_file self p c : steady (create_file self p c).
Proof.
  unfold create_file. apply steady_bind; [apply steady_open_write|].
  intros _. destruct (PurePath.relative_to p (project_root self));
    [apply steady_print | apply steady_raise].
Qed.

Lemma steady_build_item self c : forall base n, steady (build_item self base n c).
Proof.
  induction c as [content|items IH] using node_ind_nested; intros base n w w' o.
  - rewrite build_item_file. revert w w' o.
    apply steady_bind; [apply steady_path_mkdir|]. intros _. apply steady_create_file.
  - rewrite build_item_directory. revert w w' o.
    apply steady_bind; [apply steady_path_mkdir|]. intros _.
    generalize (base </> n). clear base n.
    induction IH as [|[n c] items Hc _ IHitems]; intros base; simpl.
    + apply steady_ret.
    + apply steady_bind; [apply Hc | intros _; apply IHitems].
Qed.

Lemma steady_build_structure self base s : steady (build_structure self base s).
Proof.
  induction s as [|[n c] s IH]; simpl.
  - apply steady_ret.
  - apply steady_bind; [apply steady_build_item | intros _; apply IH].
Qed.

Create HintDb steady.
#[export] Hint Resolve steady_ret steady_raise steady_print steady_path_mkdir
  steady_open_write steady_create_file steady_build_item
  steady_build_structure : steady.

Ltac steady :=
  cbv zeta;
  repeat match goal with
         | |- steady (bind _ _) => apply steady_bind; [|intros ?]
         end;
  auto with steady.

Lemma steady_create_portfolio_structure self : steady (create_portfolio_structure self).
Proof. unfold create_portfolio_structure. steady. Qed.

Lemma steady_create_api_structure self : steady (create_api_structure self).
Proof. unfold create_api_structure. steady. Qed.

Lemma steady_print_summary self : steady (print_summary self).
Proof. unfold print_summary. steady. Qed.

Lemma print_disk s w w' o : print s w = (w', o) -> disk w' = disk w.
Proof. by intros [= <- _]. Qed.

Lemma bind_disk {A B} (c : M A) (k : A -> M B) w w' o :
  (forall w1 w2 o1, c w1 = (w2, o1) -> disk w2 = disk w1) ->
  (forall a w1 w2 o1, k a w1 = (w2, o1) -> disk w2 = disk w1) ->
  bind c k w = (w', o) -> disk w' = disk w.
Proof.
  intros Hc Hk. unfold bind. destruct (c w) as [w1 [a|e]] eqn:E.
  - intros H. rewrite (Hk _ _ _ _ H). eauto.
  - intros [= <- _]. eauto.
Qed.

Lemma print_summary_disk self w w' o : print_summary self w = (w', o) -> disk w' = disk w.
Proof.
  unfold print_summary.
  repeat (apply bind_disk; [apply print_disk | intros _ ? ? ?]).
  apply print_disk.
Qed.

(** The first item of a structure, once built, has made the base
    directory. *)
Lemma build_item_makes_base self base n c w w' :
  simple_name n = true ->
  build_item self base n c w = (w', Ok tt) ->
  is_dir (disk w') (PurePath.parts base) = true.
Proof.
  intros Hn. destruct c as [content|sub].
  - rewrite build_item_file.
    intros (w1 & [] & Hmk & Hrest)%bind_ok_inv.
    rewrite (div_simple base n Hn) in Hmk. unfold PurePath.parent in Hmk.
    simpl in Hmk. rewrite removelast_last in Hmk.
    eapply is_dir_grows.
    { eapply ext_disk, steady_create_file, Hrest. }
    unfold path_mkdir in Hmk. simpl in Hmk.
    destruct (mkdir_p (disk w) (PurePath.parts base)) as [m [e|]] eqn:E; [done|].
    injection Hmk as <-. simpl. eauto using mkdir_p_is_dir.
  - rewrite build_item_directory.
    intros (w1 & [] & Hmk & Hrest)%bind_ok_inv.
    rewrite (div_simple base n Hn) in Hmk.
    eapply is_dir_grows.
    { eapply ext_disk, steady_build_structure, Hrest. }
    unfold path_mkdir in Hmk. simpl in Hmk.
    destruct (mkdir_p (disk w) (PurePath.parts base ++ [n])) as [m [e|]] eqn:E; [done|].
    injection Hmk as <-. simpl. eauto using mkdir_p_is_dir, is_dir_parent.
Qed.

End BuilderFacts.

(** ** [create] *)

Module CreateFacts.
Import Posix Pathlib Py PosixFacts PyFacts NameFacts Scaffolder BuilderFacts.

Lemma known_type_choices ty : known_type ty = true <-> ty ∈ type_choices.
Proof.
  unfold known_type, type_choices.
  rewrite !orb_true_iff, !String.eqb_eq, !elem_of_cons, elem_of_nil. tauto.
Qed.

Lemma unknown_type_inv ty :
  known_type ty = false ->
  String.eqb ty "portfolio" = false /\ String.eqb ty "api" = false
  /\ String.eqb ty "fullstack" = false.
Proof. unfold known_type. rewrite !orb_false_iff. tauto. Qed.

Lemma scaffold_eq name ty w :
  scaffold name ty w = create (Self name ty (cwd w </> name)) w.
Proof. reflexivity. Qed.

Lemma create_existing self w :
  Pathlib.exists_ (disk w) (project_root self) = true ->
  create self w = (aborted self w, Raise (SystemExit 1)).
Proof.
  intros H. unfold create, bind, print, path_exists. simpl. rewrite H. simpl.
  unfold aborted. by rewrite <- app_assoc.
Qed.

Lemma create_unknown self w :
  Pathlib.exists_ (disk w) (project_root self) = false ->
  known_type (project_type self) = false ->
  create self w = (refused self w, Raise (SystemExit 1)).
Proof.
  intros H (H1 & H2 & H3)%unknown_type_inv.
  unfold create, bind, print, path_exists. simpl. rewrite H, H1, H2, H3. simpl.
  unfold refused. by rewrite <- app_assoc.
Qed.

Lemma steady_sys_exit {A} n : steady (@sys_exit A n).
Proof. apply steady_raise. Qed.

(** Everything [create] does after its existence check. *)
Lemma steady_create_rest self (found : bool) :
  steady
    ((if found then print (msg_exists self) ;; sys_exit 1 else ret tt) ;;
     (if String.eqb (project_type self) "portfolio" then
        create_portfolio_structure self
      else if String.eqb (project_type self) "api" then
        create_api_structure self
      else if String.eqb (project_type self) "fullstack" then
        create_fullstack_structure self
      else
        print (msg_unknown self) ;; sys_exit 1) ;;
     print_summary self).
Proof.
  apply steady_bind; [|intros _; apply steady_bind].
  - destruct found; steady. apply steady_sys_exit.
  - repeat case_match;
      auto using steady_create_portfolio_structure, steady_create_api_structure.
    steady. apply steady_sys_exit.
  - intros _. apply steady_print_summary.
Qed.

Lemma create_calls self w w' o :
  create self w = (w', o) ->
  exists l, calls w' = calls w ++ CallExists (project_root self) :: l
            /\ forallb mutation l = true.
Proof.
  unfold create. unfold bind at 1, print at 1. unfold bind at 1, path_exists.
  intros H. apply steady_create_rest in H as [_ _ _ _ (l & Hl & Hm)].
  exists l. split; [|done]. rewrite Hl. simpl. by rewrite <- app_assoc.
Qed.

Lemma create_cwd self w w' o : create self w = (w', o) -> cwd w' = cwd w.
Proof.
  unfold create. unfold bind at 1, print at 1. unfold bind at 1, path_exists.
  intros H. by apply steady_create_rest in H as [-> _ _ _ _].
Qed.

(** [grows] between the two worlds of a run [H] of a steady computation. *)
Ltac grown_by H :=
  match type of H with
  | ?c ?w = (?w', ?o) =>
      let S := fresh in
      assert (steady c) as S by steady;
      exact (ext_disk _ _ (S w w' o H))
  end.

Lemma build_structure_makes_base self base n c rest w w' :
  simple_name n = true ->
  build_structure self base ((n, c) :: rest) w = (w', Ok tt) ->
  is_dir (disk w') (PurePath.parts base) = true.
Proof.
  intros Hn. cbn [build_structure].
  intros (w1 & [] & Hitem & Hrest)%bind_ok_inv.
  eapply is_dir_grows.
  - eapply ext_disk, steady_build_structure, Hrest.
  - eapply build_item_makes_base; eauto.
Qed.

Lemma create_portfolio_structure_makes_root self w w' :
  create_portfolio_structure self w = (w', Ok tt) ->
  is_dir (disk w') (PurePath.parts (project_root self)) = true.
Proof.
  unfold create_portfolio_structure. cbv zeta.
  intros (w1 & [] & Hb & Hrest)%bind_ok_inv.
  eapply is_dir_grows.
  - grown_by Hrest.
  - unfold portfolio_structure in Hb.
    eapply build_structure_makes_base; [|exact Hb]. done.
Qed.

Lemma create_api_structure_makes_root self w w' :
  create_api_structure self w = (w', Ok tt) ->
  is_dir (disk w') (PurePath.parts (project_root self)) = true.
Proof.
  unfold create_api_structure. cbv zeta.
  intros (w1 & [] & Hb & Hrest)%bind_ok_inv.
  eapply is_dir_grows.
  - grown_by Hrest.
  - unfold api_structure in Hb.
    eapply build_structure_makes_base; [|exact Hb]. done.
Qed.

(** A [create] that returns has made its root, for a known type; for any
    other type it does not return. *)
Lemma create_ok_inv self w w' :
  create self w = (w', Ok tt) ->
  known_type (project_type self) = true
  /\ Pathlib.exists_ (disk w) (project_root self) = false
  /\ is_dir (disk w') (PurePath.parts (project_root self)) = true.
Proof.
  unfold create.
  intros (w0 & [] & Hp & H)%bind_ok_inv.
  apply bind_ok_inv in H as (w1 & found & Hfound & H).
  apply bind_ok_inv in H as (w2 & [] & Hguard & H).
  apply bind_ok_inv in H as (w3 & [] & Hbuild & Hsum).
  assert (found = false) as ->.
  { destruct found; [|done].
    by apply bind_ok_inv in Hguard as (? & ? & _ & ?). }
  injection Hp as <-. injection Hfound as _ Hfound. simpl in Hfound.
  rewrite (print_summary_disk _ _ _ _ Hsum).
  unfold known_type.
  destruct (String.eqb (project_type self) "portfolio");
    [|destruct (String.eqb (project_type self) "api");
      [|destruct (String.eqb (project_type self) "fullstack")]]; simpl.
  - eauto using create_portfolio_structure_makes_root.
  - eauto using create_api_structure_makes_root.
  - eauto using create_portfolio_structure_makes_root.
  - by apply bind_ok_inv in Hbuild as (? & ? & _ & ?).
Qed.

End CreateFacts.

(** ** What a structure looks like on disk *)

Module Layout.
Import Posix Pathlib Py PosixFacts PyFacts NameFacts Scaffolder BuilderFacts.

Lemma entries_directory loc sub :
  entries loc (Directory sub) = (loc, Dir) :: entries_items loc sub.
Proof. simpl. f_equal. induction sub as [|[n c] sub IH]; [done|]. by rewrite IH. Qed.

Lemma files_directory rel sub : files rel (Directory sub) = files_items rel sub.
Proof. simpl. induction sub as [|[n c] sub IH]; [done|]. by rewrite IH. Qed.

Lemma nodes_directory sub : nodes (Directory sub) = S (nodes_items sub).
Proof. reflexivity. Qed.

Lemma well_formed_directory sub :
  well_formed (Directory sub)
  = bool_decide (NoDup sub.*1) && well_formed_items sub.
Proof. reflexivity. Qed.

Lemma write_all_app es1 es2 m :
  write_all (es1 ++ es2) m = write_all es2 (write_all es1 m).
Proof. apply foldl_app. Qed.

Lemma write_all_other (es : list (list string * entry)) (m : fs) (k : list string) :
  k ∉ es.*1 -> write_all es m !! k = m !! k.
Proof.
  revert m. induction es as [|[k' e] es IH]; intros m; simpl; [done|].
  rewrite not_elem_of_cons. intros [Hne Hk].
  rewrite (IH _ Hk). by rewrite lookup_insert_ne.
Qed.

Lemma write_all_lookup (es : list (list string * entry)) (m : fs) (k : list string) e :
  NoDup es.*1 -> (k, e) ∈ es -> write_all es m !! k = Some e.
Proof.
  revert m. induction es as [|[k' e'] es IH]; intros m; simpl.
  - intros _ H. by apply elem_of_nil in H.
  - rewrite NoDup_cons. intros [Hk' Hnd]. rewrite elem_of_cons.
    intros [[= -> ->]|Hin]; [|by apply IH].
    rewrite write_all_other by done. apply lookup_insert_eq.
Qed.

Lemma write_all_size (es : list (list string * entry)) (m : fs) :
  NoDup es.*1 -> (forall k, k ∈ es.*1 -> m !! k = None) ->
  size (write_all es m) = size m + length es.
Proof.
  revert m. induction es as [|[k e] es IH]; intros m; simpl; [lia|].
  rewrite NoDup_cons. intros [Hk Hnd] Hnew. rewrite IH; try done.
  - rewrite map_size_insert_None; [lia|]. apply Hnew. left.
  - intros k' Hk'. rewrite lookup_insert_ne.
    + apply Hnew. by right.
    + intros ->. done.
Qed.

(** Every entry of a value lies at or below the place of the value. *)
Lemma entries_below c : forall loc k,
  k ∈ (entries loc c).*1 -> exists q, k = loc ++ q.
Proof.
  induction c as [content|items IH] using node_ind_nested; intros loc k.
  - simpl. rewrite list_elem_of_singleton. intros ->. exists []. by rewrite app_nil_r.
  - rewrite entries_directory. simpl. rewrite elem_of_cons.
    intros [->|Hin]; [exists []; by rewrite app_nil_r|].
    induction IH as [|[n c] items Hc _ IHitems]; simpl in Hin.
    + by apply elem_of_nil in Hin.
    + rewrite fmap_app, elem_of_app in Hin. destruct Hin as [Hin|Hin]; [|auto].
      apply Hc in Hin as [q ->]. exists (n :: q). by rewrite <- app_assoc.
Qed.

Lemma entries_items_below s : forall loc k,
  k ∈ (entries_items loc s).*1 ->
  exists n q, n ∈ s.*1 /\ k = loc ++ n :: q.
Proof.
  induction s as [|[n c] s IH]; intros loc k; simpl.
  - intros H. by apply elem_of_nil in H.
  - rewrite fmap_app, elem_of_app. intros [Hin|Hin].
    + apply entries_below in Hin as [q ->]. exists n, q.
      split; [left|by rewrite <- app_assoc].
    + apply IH in Hin as (n' & q & Hn' & ->). exists n', q. split; [by right|done].
Qed.

End Layout.

(** ** [_build_structure] on a well-formed structure *)

Module BuildSpec.
Import Posix Pathlib Py PosixFacts PyFacts NameFacts Scaffolder BuilderFacts.
Import Layout.

Section Run.

Variable self : t.

Lemma placed_is_dir base rel lb w :
  placed self base rel lb w -> is_dir (disk w) (PurePath.parts base) = true.
Proof. intros [_ _ Hn Hd]. apply is_dir_spec. eauto. Qed.

Lemma placed_extends base rel lb w w' :
  extends w w' -> placed self base rel lb w -> placed self base rel lb w'.
Proof.
  intros E [Hp Ha Hn Hd]. split; try done.
  - eapply namei_grows; [apply E | done].
  - eapply grows_dir; [apply E | done].
Qed.

Lemma placed_child base rel lb n w w' :
  simple_name n = true -> placed self base rel lb w ->
  disk w !! (lb ++ [n]) = None ->
  disk w' = <[lb ++ [n] := Dir]> (disk w) ->
  placed self (base </> n) (rel ++ [n]) (lb ++ [n]) w'.
Proof.
  intros Hn [Hp Ha Hnm Hd] Hnew Hw'. rewrite (div_simple _ _ Hn).
  apply simple_name_inv in Hn as (_ & Hdd & _).
  split; rewrite ?Hw'; simpl.
  - by rewrite Hp, app_assoc.
  - done.
  - eapply namei_grows; [|by apply namei_snoc].
    apply grows_insert. intros e0. by rewrite Hnew.
  - apply lookup_insert_eq.
Qed.

Lemma path_mkdir_new p loc w :
  namei (disk w) (PurePath.parts p) = inr loc -> disk w !! loc = None ->
  path_mkdir p w = (set_disk (<[loc := Dir]> (disk w)) (log (CallMkdir p) w), Ok tt).
Proof. intros Hn Hl. unfold path_mkdir. by rewrite (mkdir_p_new _ _ _ Hn Hl). Qed.

Lemma path_mkdir_there p w :
  is_dir (disk w) (PurePath.parts p) = true ->
  path_mkdir p w = (set_disk (disk w) (log (CallMkdir p) w), Ok tt).
Proof. intros H. unfold path_mkdir. by rewrite (mkdir_p_there _ _ H). Qed.

Lemma create_file_spec base rel lb n content w :
  simple_name n = true -> placed self base rel lb w ->
  disk w !! (lb ++ [n]) <> Some Dir ->
  exists w',
    create_file self (base </> n) content w = (w', Ok tt)
    /\ disk w' = <[lb ++ [n] := Reg content]> (disk w)
    /\ stdout w' = stdout w ++ [progress_line (rel ++ [n])].
Proof.
  intros Hn [Hp Ha Hnm Hd] Hnew. rewrite (div_simple _ _ Hn).
  apply simple_name_inv in Hn as (_ & Hdd & _).
  unfold create_file, bind, open_write, write_file. simpl.
  rewrite (namei_snoc _ _ _ _ Hnm Hd Hdd).
  rewrite Hp, Ha, <- app_assoc, relative_to_below.
  destruct (disk w !! (lb ++ [n])) as [[|?]|]; [done| |]; eexists; done.
Qed.

Lemma items_spec_of s : Forall (fun x => item_spec self x.2) s -> items_spec self s.
Proof.
  induction 1 as [|[n c] s Hc _ IH]; intros base rel lb w Hnd Hwf Hpl Hfresh.
  - exists w. simpl. by rewrite app_nil_r.
  - simpl in Hnd, Hwf, Hc. apply NoDup_cons in Hnd as [Hn Hnd].
    apply andb_true_iff in Hwf as [[Hsn Hwc]%andb_true_iff Hws].
    destruct (Hc base rel lb n w) as (w1 & Hrun1 & Hd1 & Ho1); try done.
    { intros q. apply Hfresh. left. }
    assert (extends w w1) as E by (eapply steady_build_item; eauto).
    destruct (IH base rel lb w1) as (w2 & Hrun2 & Hd2 & Ho2); try done.
    { by eapply placed_extends. }
    { intros n' q Hn'. rewrite Hd1, write_all_other.
      - apply Hfresh. by right.
      - intros (q' & Hq')%entries_below.
        rewrite <- app_assoc in Hq'. apply app_inv_head in Hq'.
        injection Hq' as -> _. done. }
    exists w2. cbn [build_structure entries_items files_items].
    rewrite (bind_ok _ _ _ _ _ Hrun1). split; [done|].
    rewrite Hd2, Hd1, Ho2, Ho1, write_all_app, map_app, app_assoc. done.
Qed.

Lemma item_spec_all c : item_spec self c.
Proof.
  induction c as [content|sub IH] using node_ind_nested;
    intros base rel lb n w Hn Hwf Hpl Hfresh.
  - rewrite build_item_file.
    pose proof (div_simple base n Hn) as Hdiv.
    assert (PurePath.parts (PurePath.parent (base </> n)) = PurePath.parts base) as Hparent.
    { rewrite Hdiv. simpl. apply removelast_last. }
    erewrite bind_ok; last first.
    { apply path_mkdir_there. rewrite Hparent. by eapply placed_is_dir. }
    destruct (create_file_spec base rel lb n content
                (set_disk (disk w) (log (CallMkdir (PurePath.parent (base </> n))) w)))
      as (w' & Hrun & Hd & Ho); [done | by destruct Hpl | |].
    { simpl. specialize (Hfresh []). by rewrite Hfresh. }
    exists w'. done.
  - rewrite build_item_directory.
    pose proof (div_simple base n Hn) as Hdiv.
    pose proof (Hfresh []) as Hnew.
    pose proof Hn as (_ & Hdd & _)%simple_name_inv.
    rewrite well_formed_directory in Hwf.
    apply andb_true_iff in Hwf as [Hnd%bool_decide_eq_true Hws].
    erewrite bind_ok; last first.
    { apply (path_mkdir_new _ (lb ++ [n])); [|done].
      rewrite Hdiv. simpl. destruct Hpl. by apply namei_snoc. }
    destruct (items_spec_of sub IH (base </> n) (rel ++ [n]) (lb ++ [n])
                (set_disk (<[lb ++ [n] := Dir]> (disk w))
                   (log (CallMkdir (base </> n)) w)))
      as (w' & Hrun & Hd & Ho); try done.
    { by eapply (placed_child base rel lb n w). }
    { intros n' q _. simpl. rewrite lookup_insert_ne.
      - rewrite <- app_assoc. apply Hfresh.
      - intros H%(f_equal length). rewrite !length_app in H. simpl in H. lia. }
    exists w'. split; [done|].
    rewrite entries_directory, files_directory. done.
Qed.

Lemma build_structure_spec s : items_spec self s.
Proof. apply items_spec_of, Forall_forall. intros x _. apply item_spec_all. Qed.

(** On a root that is not there yet, the first item of the structure
    makes the root on its way (through [parents=True]); from there on the
    run is the run on a root that is there. *)
Lemma path_mkdir_parent_new (p : Path) n r w :
  namei (disk w) (PurePath.parts p) = inr r -> disk w !! r = None ->
  disk w !! (r ++ [n]) = None -> simple_name n = true ->
  path_mkdir (p </> n) w
  = (set_disk (<[r ++ [n] := Dir]> (<[r := Dir]> (disk w)))
       (log (CallMkdir (p </> n)) w), Ok tt).
Proof.
  intros Hn Hr Hc Hs. unfold path_mkdir. rewrite (div_simple _ _ Hs) at 1.
  apply simple_name_inv in Hs as (_ & Hdd & _). simpl.
  by rewrite (mkdir_p_parent_new _ _ _ _ Hn Hr Hc Hdd).
Qed.

Lemma build_item_first n c r w :
  simple_name n = true ->
  namei (disk w) (PurePath.parts (project_root self)) = inr r ->
  disk w !! r = None -> disk w !! (r ++ [n]) = None ->
  build_item self (project_root self) n c w
  = build_item self (project_root self) n c (set_disk (<[r := Dir]> (disk w)) w).
Proof.
  intros Hs Hn Hr Hc.
  assert (grows (disk w) (<[r := Dir]> (disk w))) as G.
  { apply grows_insert. intros e0. by rewrite Hr. }
  pose proof (div_simple (project_root self) n Hs) as Hdiv.
  pose proof Hs as (_ & Hdd & _)%simple_name_inv.
  destruct c as [content|sub].
  - rewrite !build_item_file.
    assert (PurePath.parts (PurePath.parent (project_root self </> n))
            = PurePath.parts (project_root self)) as Hparent.
    { rewrite Hdiv. simpl. apply removelast_last. }
    erewrite bind_ok; last first.
    { apply (path_mkdir_new _ r); by rewrite ?Hparent. }
    erewrite (bind_ok _ _ (set_disk _ w)); last first.
    { apply path_mkdir_there. rewrite Hparent. apply is_dir_spec. exists r.
      simpl. split; [by eapply namei_grows | apply lookup_insert_eq]. }
    done.
  - rewrite !build_item_directory.
    erewrite bind_ok; last first.
    { by apply (path_mkdir_parent_new _ n r). }
    erewrite (bind_ok _ _ (set_disk _ w)); last first.
    { apply (path_mkdir_new _ (r ++ [n])); simpl.
      - rewrite Hdiv. simpl. apply namei_snoc; try done.
        + by eapply namei_grows.
        + apply lookup_insert_eq.
      - rewrite lookup_insert_ne; [done|].
        intros H%(f_equal length). rewrite length_app in H. simpl in H. lia. }
    done.
Qed.

Lemma build_structure_fresh s r w :
  s <> [] -> well_formed (Directory s) = true ->
  namei (disk w) (PurePath.parts (project_root self)) = inr r ->
  (forall q, disk w !! (r ++ q) = None) ->
  exists w',
    build_structure self (project_root self) s w = (w', Ok tt)
    /\ disk w' = write_all (entries r (Directory s)) (disk w)
    /\ stdout w' = stdout w ++ map progress_line (files_items [] s).
Proof.
  intros Hne Hwf Hn Hfresh. rewrite well_formed_directory in Hwf.
  apply andb_true_iff in Hwf as [Hnd%bool_decide_eq_true Hws].
  pose proof (Hfresh []) as Hr. rewrite app_nil_r in Hr.
  set (w1 := set_disk (<[r := Dir]> (disk w)) w).
  assert (build_structure self (project_root self) s w
          = build_structure self (project_root self) s w1) as ->.
  { destruct s as [|[n c] rest]; [done|]. cbn [build_structure]. unfold bind.
    simpl in Hws. apply andb_true_iff in Hws as [[Hsn _]%andb_true_iff _].
    by rewrite (build_item_first n c r w). }
  destruct (build_structure_spec s (project_root self) [] r w1)
    as (w' & Hrun & Hd & Ho); try done.
  - split; simpl.
    + by rewrite app_nil_r.
    + done.
    + eapply namei_grows; [|done]. apply grows_insert. intros e0. by rewrite Hr.
    + apply lookup_insert_eq.
  - intros n q _. simpl. rewrite lookup_insert_ne; [apply Hfresh|].
    intros H%(f_equal length). rewrite length_app in H. simpl in H. lia.
  - exists w'. rewrite entries_directory. done.
Qed.

End Run.

(** The entries of a well-formed value are at distinct places, one for
    each node. *)
Lemma entries_length c : forall loc, length (entries loc c) = nodes c.
Proof.
  induction c as [content|sub IH] using node_ind_nested; intros loc; [done|].
  rewrite entries_directory, nodes_directory. simpl. f_equal.
  induction IH as [|[n c] sub Hc _ IHsub]; simpl; [done|].
  by rewrite length_app, Hc, IHsub.
Qed.

Lemma entries_NoDup c : forall loc,
  well_formed c = true -> NoDup (entries loc c).*1.
Proof.
  induction c as [content|sub IH] using node_ind_nested; intros loc Hwf.
  - simpl. apply NoDup_singleton.
  - rewrite well_formed_directory in Hwf.
    apply andb_true_iff in Hwf as [Hnd%bool_decide_eq_true Hws].
    rewrite entries_directory. simpl. apply NoDup_cons. split.
    + intros (n & q & _ & H)%entries_items_below.
      apply (f_equal length) in H. rewrite length_app in H. simpl in H. lia.
    + induction IH as [|[n c] sub Hc _ IHsub]; simpl; [apply NoDup_nil_2|].
      simpl in Hnd, Hws. apply NoDup_cons in Hnd as [Hn Hnd].
      apply andb_true_iff in Hws as [[_ Hwc]%andb_true_iff Hws].
      rewrite fmap_app. apply NoDup_app. split; [by apply Hc|].
      split; [|by apply IHsub].
      intros k (q & ->)%entries_below (n' & q' & Hn' & H)%entries_items_below.
      rewrite <- app_assoc in H. apply app_inv_head in H.
      injection H as -> _. done.
Qed.

End BuildSpec.

(** ** Two runs side by side *)

Module Twin.
Import Posix Pathlib Py PosixFacts PyFacts NameFacts Scaffolder BuilderFacts.

Lemma twin_ret {A} (a : A) : twin (ret a) (ret a).
Proof. by intros pre1 pre2 w1 w2 H. Qed.

Lemma twin_raise {A} e : twin (@raise A e) (raise e).
Proof. by intros pre1 pre2 w1 w2 H. Qed.

Lemma twin_bind {A B} (c1 c2 : M A) (k1 k2 : A -> M B) :
  twin c1 c2 -> (forall a, twin (k1 a) (k2 a)) -> twin (bind c1 k1) (bind c2 k2).
Proof.
  intros Hc Hk pre1 pre2 w1 w2 H. unfold bind.
  destruct (Hc _ _ _ _ H) as [H' Ho].
  destruct (c1 w1) as [w1' o1], (c2 w2) as [w2' o2]. simpl in *. subst o2.
  destruct o1 as [a|e]; [by apply Hk | done].
Qed.

Lemma twin_print s : twin (print s) (print s).
Proof.
  intros pre1 pre2 w1 w2 [Hc Hd He Hl (t & H1 & H2)]. split; [|done].
  split; simpl; try done. exists (t ++ [s]). by rewrite H1, H2, !app_assoc.
Qed.

Lemma twin_path_exists p : twin (path_exists p) (path_exists p).
Proof.
  intros pre1 pre2 w1 w2 [Hc Hd He Hl Ho]. unfold path_exists. simpl.
  rewrite Hd. split; [|done]. split; simpl; congruence.
Qed.

Lemma twin_path_mkdir p : twin (path_mkdir p) (path_mkdir p).
Proof.
  intros pre1 pre2 w1 w2 [Hc Hd He Hl Ho]. unfold path_mkdir. rewrite Hd.
  destruct (mkdir_p (disk w2) (PurePath.parts p)) as [m [e|]];
    (split; [|done]); split; simpl; congruence.
Qed.

Lemma twin_open_write p c : twin (open_write p c) (open_write p c).
Proof.
  intros pre1 pre2 w1 w2 [Hc Hd He Hl Ho]. unfold open_write. rewrite Hd.
  destruct (write_file (disk w2) (PurePath.parts p) c) as [e|m];
    (split; [|done]); split; simpl; congruence.
Qed.

Section Selves.

(** Two scaffolders for the same name and root; their types may differ. *)
Variables self1 self2 : t.
Hypothesis same_name : project_name self1 = project_name self2.
Hypothesis same_root : project_root self1 = project_root self2.

Lemma twin_create_file p c : twin (create_file self1 p c) (create_file self2 p c).
Proof.
  unfold create_file. rewrite same_root.
  apply twin_bind; [apply twin_open_write|]. intros _.
  destruct (PurePath.relative_to p (project_root self2));
    [apply twin_print | apply twin_raise].
Qed.

Lemma twin_build_item c : forall base n,
  twin (build_item self1 base n c) (build_item self2 base n c).
Proof.
  induction c as [content|items IH] using node_ind_nested;
    intros base n pre1 pre2 w1 w2 H.
  - rewrite !build_item_file. revert pre1 pre2 w1 w2 H.
    apply twin_bind; [apply twin_path_mkdir|]. intros _. apply twin_create_file.
  - rewrite !build_item_directory. revert pre1 pre2 w1 w2 H.
    apply twin_bind; [apply twin_path_mkdir|]. intros _.
    generalize (base </> n). clear base n.
    induction IH as [|[n c] items Hc _ IHitems]; intros base; simpl.
    + apply twin_ret.
    + apply twin_bind; [apply Hc | intros _; apply IHitems].
Qed.

Lemma twin_build_structure base s :
  twin (build_structure self1 base s) (build_structure self2 base s).
Proof.
  induction s as [|[n c] s IH]; simpl.
  - apply twin_ret.
  - apply twin_bind; [apply twin_build_item | intros _; apply IH].
Qed.

Ltac twins :=
  cbv zeta;
  repeat match goal with
         | |- twin (bind _ _) (bind _ _) => apply twin_bind; [|intros ?]
         end;
  auto using twin_print, twin_create_file, twin_build_structure, twin_ret.

Lemma twin_create_portfolio_structure :
  twin (create_portfolio_structure self1) (create_portfolio_structure self2).
Proof.
  unfold create_portfolio_structure. rewrite same_name, same_root. twins.
Qed.

Lemma twin_print_summary : twin (print_summary self1) (print_summary self2).
Proof. unfold print_summary. rewrite same_name, same_root. twins. Qed.

End Selves.

End Twin.

(** ** Further lemmas *)

Import Posix Pathlib Py PosixFacts PyFacts NameFacts Scaffolder BuilderFacts.
Import CreateFacts Layout BuildSpec Twin.

(** *** Structures on a root that is not there *)

Lemma tree_shaped_parent (m : fs) (loc : list string) e :
  tree_shaped m = true -> m !! loc = Some e -> m !! removelast loc = Some Dir.
Proof.
  unfold tree_shaped. rewrite forallb_forall. intros Hm Hl.
  apply elem_of_map_to_list, list_elem_of_In, Hm in Hl.
  by apply bool_decide_eq_true in Hl.
Qed.

Lemma tree_shaped_fresh (m : fs) (r : list string) :
  tree_shaped m = true -> m !! r = None -> forall q, m !! (r ++ q) = None.
Proof.
  intros Hm Hr q. induction q as [|x q IH] using rev_ind.
  - by rewrite app_nil_r.
  - destruct (m !! (r ++ q ++ [x])) as [e|] eqn:E; [|done].
    apply (tree_shaped_parent _ _ _ Hm) in E.
    rewrite app_assoc, removelast_last in E. congruence.
Qed.

Lemma missing_root_fresh (m : fs) (p r : list string) :
  tree_shaped m = true -> namei m p = inr r -> Posix.exists_ m p = false ->
  forall q, m !! (r ++ q) = None.
Proof.
  intros Hm Hn He. apply tree_shaped_fresh; [done|].
  unfold Posix.exists_, stat in He. rewrite Hn in He.
  by destruct (m !! r).
Qed.

Lemma files_length c : forall rel, length (files rel c) = count_files c.
Proof.
  induction c as [content|sub IH] using node_ind_nested; intros rel; [done|].
  simpl. induction IH as [|[n c] sub Hc _ IHsub]; [done|].
  by rewrite length_app, Hc, IHsub.
Qed.

Lemma files_items_length s rel :
  length (files_items rel s) = count_files (Directory s).
Proof. by rewrite <- files_directory, files_length. Qed.

(** Every file listed for a value is one of its entries, a regular file,
    at the same place below the value. *)
Lemma files_in_entries c : forall loc rel p,
  p ∈ files rel c ->
  exists q content, p = rel ++ q /\ (loc ++ q, Reg content) ∈ entries loc c.
Proof.
  induction c as [content|sub IH] using node_ind_nested; intros loc rel p.
  - simpl. rewrite list_elem_of_singleton. intros ->.
    exists [], content. rewrite !app_nil_r. split; [done|left].
  - rewrite files_directory, entries_directory. intros Hp.
    enough (exists q content, p = rel ++ q
              /\ (loc ++ q, Reg content) ∈ entries_items loc sub) as
      (q & content & ? & ?) by (exists q, content; split; [done|by right]).
    induction IH as [|[n c] sub Hc _ IHsub]; simpl in Hp.
    + by apply elem_of_nil in Hp.
    + apply elem_of_app in Hp as [Hp|Hp].
      * apply (Hc (loc ++ [n])) in Hp as (q & content & -> & Hin).
        exists (n :: q), content. rewrite <- !app_assoc in *. simpl.
        split; [done|]. apply elem_of_app. by left.
      * destruct (IHsub Hp) as (q & content & ? & ?).
        exists q, content. split; [done|]. simpl. apply elem_of_app. by right.
Qed.

(** *** The README *)

Module Readme.
Import PyStr Catalog.

Lemma append_cons x (a b : string) : String x a +:+ b = String x (a +:+ b).
Proof. reflexivity. Qed.

Lemma append_nil_l (a : string) : EmptyString +:+ a = a.
Proof. reflexivity. Qed.

Lemma append_assoc (a b c : string) : (a +:+ b) +:+ c = a +:+ b +:+ c.
Proof.
  induction a as [|x a IH]; [done|]. by rewrite !append_cons, IH.
Qed.

Lemma append_nil_r (a : string) : a +:+ EmptyString = a.
Proof.
  induction a as [|x a IH]; [done|]. by rewrite append_cons, IH.
Qed.

Lemma length_append (a b : string) :
  String.length (a +:+ b) = String.length a + String.length b.
Proof.
  induction a as [|x a IH]; [done|]. rewrite append_cons. simpl. by rewrite IH.
Qed.

Lemma text_app l1 l2 : text (l1 ++ l2) = text l1 +:+ text l2.
Proof.
  induction l1 as [|l l1 IH]; [done|]. cbn [text app].
  by rewrite IH, !append_assoc.
Qed.

Lemma substring_skip (a b : string) m :
  String.substring (String.length a) m (a +:+ b) = String.substring 0 m b.
Proof.
  induction a as [|x a IH]; [done|]. rewrite append_cons. simpl. apply IH.
Qed.

Lemma substring_head (a b : string) :
  String.substring 0 (String.length a) (a +:+ b) = a.
Proof.
  induction a as [|x a IH]; [by destruct b|].
  rewrite append_cons. simpl. by rewrite IH.
Qed.

Lemma prefix_app (sub a b : string) :
  String.prefix sub a = true -> String.prefix sub (a +:+ b) = true.
Proof.
  revert a. induction sub as [|x sub IH]; intros a; [by destruct a, b|].
  destruct a as [|y a]; [done|]. rewrite append_cons. simpl.
  destruct (ascii_dec x y); [apply IH | done].
Qed.

Lemma contains_app_l (sub a b : string) :
  contains sub a = true -> contains sub (a +:+ b) = true.
Proof.
  induction a as [|y a IH].
  - simpl. rewrite orb_false_r. intros H. destruct sub; [by destruct b | done].
  - rewrite append_cons. cbn [contains]. rewrite !orb_true_iff.
    intros [H|H]; [left | right; auto].
    rewrite <- append_cons. by apply prefix_app.
Qed.

Lemma contains_app_r (sub a b : string) :
  contains sub b = true -> contains sub (a +:+ b) = true.
Proof.
  intros H. induction a as [|y a IH]; [done|].
  rewrite append_cons. cbn [contains]. rewrite IH. apply orb_true_r.
Qed.

(** The README is its title line with the name, a fixed text, the name
    again at the head of the tree sketch, and a fixed text. *)
Lemma get_readme_eq name :
  get_readme name = "# " +:+ name +:+ readme_mid +:+ name +:+ readme_tail.
Proof.
  change (get_readme name)
    with (text ([cat ["# "; name]] ++ readme_before_sketch
                ++ [cat [name; "/"]] ++ readme_after_sketch)).
  rewrite !text_app. unfold readme_mid, readme_tail.
  cbn [text cat join String.concat]. unfold blank.
  rewrite !append_nil_l, !append_nil_r, !append_assoc. done.
Qed.

Lemma get_readme_contains name sub :
  contains sub readme_tail = true -> contains sub (get_readme name) = true.
Proof.
  intros H. rewrite get_readme_eq. by do 4 apply contains_app_r.
Qed.

End Readme.

(** *** The README on disk *)

Lemma namei_snoc_inv (m : fs) p n (loc : list string) :
  namei m (p ++ [n]) = inr loc -> n <> ".." ->
  exists lb, namei m p = inr lb /\ m !! lb = Some Dir /\ loc = lb ++ [n].
Proof.
  unfold namei. rewrite walk_app. intros H Hn.
  destruct (walk m [] p) as [|lb]; [done|]. simpl in H.
  destruct (m !! lb) as [[|?]|] eqn:E; try done.
  rewrite (proj2 (String.eqb_neq n "..") Hn) in H. injection H as <-. eauto.
Qed.

Lemma create_file_ok_inv self p c w w' :
  create_file self p c w = (w', Ok tt) ->
  exists loc, namei (disk w) (PurePath.parts p) = inr loc
              /\ disk w' = <[loc := Reg c]> (disk w).
Proof.
  unfold create_file. intros (w1 & [] & Hopen & Hprint)%bind_ok_inv.
  unfold open_write in Hopen.
  destruct (write_file (disk w) (PurePath.parts p) c) as [e|m] eqn:E; [done|].
  apply write_file_inv in E as (loc & Hn & _ & ->). injection Hopen as <-.
  exists loc. split; [done|].
  destruct (PurePath.relative_to p (project_root self)); [|done].
  by injection Hprint as <-.
Qed.

Lemma stat_after_create_file self p c w w' :
  create_file self p c w = (w', Ok tt) ->
  stat (disk w') (PurePath.parts p) = inr (Reg c).
Proof.
  intros H. pose proof (ext_disk _ _ (steady_create_file _ _ _ _ _ _ H)) as G.
  apply create_file_ok_inv in H as (loc & Hn & Hd).
  unfold stat. rewrite (namei_grows _ _ _ _ G Hn), Hd.
  by rewrite lookup_insert_eq.
Qed.

(** Writing a file beside another leaves the other as it is. *)
Lemma stat_sibling_kept self (root : Path) n n' c c' w w' :
  simple_name n = true -> simple_name n' = true -> n <> n' ->
  stat (disk w) (PurePath.parts (root </> n)) = inr (Reg c) ->
  create_file self (root </> n') c' w = (w', Ok tt) ->
  stat (disk w') (PurePath.parts (root </> n)) = inr (Reg c).
Proof.
  intros Hs Hs' Hne Hstat H.
  pose proof (ext_disk _ _ (steady_create_file _ _ _ _ _ _ H)) as G.
  apply create_file_ok_inv in H as (loc' & Hn' & Hd).
  rewrite (div_simple _ _ Hs) in *. rewrite (div_simple _ _ Hs') in Hn'.
  apply simple_name_inv in Hs as (_ & Hdd & _).
  apply simple_name_inv in Hs' as (_ & Hdd' & _).
  simpl in *. unfold stat in *.
  destruct (namei (disk w) (PurePath.parts root ++ [n])) as [|loc] eqn:Hn; [done|].
  rewrite (namei_grows _ _ _ _ G Hn).
  apply namei_snoc_inv in Hn as (lb & Hlb & _ & ->); [|done].
  apply namei_snoc_inv in Hn' as (lb' & Hlb' & _ & ->); [|done].
  assert (lb' = lb) as -> by congruence.
  rewrite Hd, lookup_insert_ne; [done|].
  intros Heq%app_inv_head. congruence.
Qed.

(** The steps of a run that returned, one hypothesis for each. *)
Ltac split_run H :=
  repeat match type of H with
         | bind _ _ _ = (_, Ok _) =>
             let w := fresh "w" in
             let Hs := fresh "Hstep" in
             apply bind_ok_inv in H as (w & [] & Hs & H)
         end.

Lemma create_api_structure_readme self w w' :
  create_api_structure self w = (w', Ok tt) ->
  stat (disk w') (PurePath.parts (project_root self </> "README.md"))
  = inr (Reg (Catalog.get_readme (project_name self))).
Proof.
  unfold create_api_structure. cbv zeta. intros H. split_run H.
  by apply stat_after_create_file in H.
Qed.

Lemma create_portfolio_structure_readme self w w' :
  create_portfolio_structure self w = (w', Ok tt) ->
  stat (disk w') (PurePath.parts (project_root self </> "README.md"))
  = inr (Reg (Catalog.get_readme (project_name self))).
Proof.
  unfold create_portfolio_structure. cbv zeta. intros H. split_run H.
  apply stat_after_create_file in Hstep3.
  pose proof (stat_sibling_kept _ _ "README.md" "Dockerfile" _ _ _ _
                eq_refl eq_refl ltac:(done) Hstep3 Hstep4) as K4.
  pose proof (stat_sibling_kept _ _ "README.md" "docker-compose.yml" _ _ _ _
                eq_refl eq_refl ltac:(done) K4 Hstep5) as K5.
  exact (stat_sibling_kept _ _ "README.md" "run.py" _ _ _ _
           eq_refl eq_refl ltac:(done) K5 H).
Qed.

Lemma create_readme self w w' :
  create self w = (w', Ok tt) ->
  stat (disk w') (PurePath.parts (project_root self </> "README.md"))
  = inr (Reg (Catalog.get_readme (project_name self))).
Proof.
  unfold create.
  intros (w0 & [] & _ & H)%bind_ok_inv.
  apply bind_ok_inv in H as (w1 & found & _ & H).
  apply bind_ok_inv in H as (w2 & [] & _ & H).
  apply bind_ok_inv in H as (w3 & [] & Hbuild & Hsum).
  rewrite (print_summary_disk _ _ _ _ Hsum).
  destruct (String.eqb (project_type self) "portfolio");
    [|destruct (String.eqb (project_type self) "api");
      [|destruct (String.eqb (project_type self) "fullstack")]].
  - by apply create_portfolio_structure_readme in Hbuild.
  - by apply create_api_structure_readme in Hbuild.
  - by apply create_portfolio_structure_readme in Hbuild.
  - by apply bind_ok_inv in Hbuild as (? & ? & _ & ?).
Qed.

(** *** Names with separators *)

Lemma split_slash_app a s :
  has_slash a = false ->
  PyStr.split PyStr.slash (a +:+ String PyStr.slash s)
  = a :: PyStr.split PyStr.slash s.
Proof.
  induction a as [|c a IH]; intros H.
  - rewrite Readme.append_nil_l. cbn [PyStr.split].
    by rewrite Ascii.eqb_refl.
  - simpl in H. apply orb_false_iff in H as [Hc Ha].
    rewrite Readme.append_cons. cbn [PyStr.split]. by rewrite Hc, (IH Ha).
Qed.

(** [cwd / "a/b"] is the directory [b] in the directory [a] of [cwd]. *)
Lemma div_nested (p : Path) a b :
  simple_name a = true -> simple_name b = true ->
  p </> (a +:+ "/" +:+ b)
  = PurePath.mk (PurePath.dslash p) (PurePath.parts p ++ [a; b]).
Proof.
  intros (Hka & _ & Ha)%simple_name_inv (Hkb & _ & Hb)%simple_name_inv.
  unfold PurePath.div, PurePath.parse_parts.
  change ("/" +:+ b) with (String PyStr.slash b).
  rewrite (split_slash_app a b Ha), (split_slash_free b Hb).
  cbn [List.filter]. rewrite Hka, Hkb.
  replace (PurePath.is_absolute (a +:+ String PyStr.slash b)) with false; [done|].
  destruct a as [|c a]; [done|]. simpl in Ha. apply orb_false_iff in Ha as [Hc _].
  rewrite Readme.append_cons. unfold PurePath.is_absolute, PyStr.startswith.
  cbn [String.prefix].
  destruct (Ascii.ascii_dec "/" c) as [<-|]; [discriminate Hc | done].
Qed.

Lemma bind_after {A B} (c : M A) (k : A -> M B) w w' o :
  (forall a, steady (k a)) -> bind c k w = (w', o) -> extends (c w).1 w'.
Proof.
  intros Hk. unfold bind. destruct (c w) as [w1 [a|e]]; simpl.
  - apply Hk.
  - intros [= <- _]. apply extends_refl.
Qed.

Lemma path_mkdir_calls p w : calls (path_mkdir p w).1 = calls w ++ [CallMkdir p].
Proof.
  unfold path_mkdir.
  by destruct (mkdir_p (disk w) (PurePath.parts p)) as [m [e|]].
Qed.

(** Whatever follows, a structure whose first item is a directory begins
    with the [mkdir] of that directory. *)
Lemma build_structure_begins self base n sub rest w w' o :
  build_structure self base ((n, Directory sub) :: rest) w = (w', o) ->
  exists l, calls w' = calls w ++ CallMkdir (base </> n) :: l.
Proof.
  cbn [build_structure]. intros H.
  apply bind_after in H as [_ _ _ _ (l1 & H1 & _)];
    [|intros; apply steady_build_structure].
  destruct (build_item self base n (Directory sub) w) as [w1 o1] eqn:E.
  rewrite build_item_directory in E.
  apply bind_after in E as [_ _ _ _ (l2 & H2 & _)];
    [|intros; apply steady_build_structure].
  simpl in H1. rewrite path_mkdir_calls in H2.
  exists (l2 ++ l1). rewrite H1, H2, <- !app_assoc. done.
Qed.

Lemma create_portfolio_structure_begins self w :
  exists l, calls (create_portfolio_structure self w).1
            = calls w ++ CallMkdir (project_root self </> "app") :: l.
Proof.
  destruct (create_portfolio_structure self w) as [w' o] eqn:E.
  unfold create_portfolio_structure in E. cbv zeta in E.
  apply bind_after in E as [_ _ _ _ (l3 & H3 & _)]; [|intros; steady].
  destruct (build_structure self (project_root self) portfolio_structure w)
    as [w2 o2] eqn:E2.
  apply build_structure_begins in E2 as (l4 & H4). simpl in *.
  exists (l4 ++ l3). rewrite H3, H4, <- !app_assoc. done.
Qed.

Lemma create_api_structure_begins self w :
  exists l, calls (create_api_structure self w).1
            = calls w ++ CallMkdir (project_root self </> "app") :: l.
Proof.
  destruct (create_api_structure self w) as [w' o] eqn:E.
  unfold create_api_structure in E. cbv zeta in E.
  apply bind_after in E as [_ _ _ _ (l3 & H3 & _)]; [|intros; steady].
  destruct (build_structure self (project_root self) api_structure w)
    as [w2 o2] eqn:E2.
  apply build_structure_begins in E2 as (l4 & H4). simpl in *.
  exists (l4 ++ l3). rewrite H3, H4, <- !app_assoc. done.
Qed.

Lemma create_begins self w w' o :
  known_type (project_type self) = true ->
  Pathlib.exists_ (disk w) (project_root self) = false ->
  create self w = (w', o) ->
  exists l, calls w' = calls w ++ CallExists (project_root self)
                         :: CallMkdir (project_root self </> "app") :: l.
Proof.
  intros Hk He. unfold create. unfold bind at 1, print at 1.
  unfold bind at 1, path_exists. simpl. rewrite He.
  unfold bind at 1, ret at 1. intros H.
  apply bind_after in H as [_ _ _ _ (l1 & H1 & _)];
    [|intros; apply steady_print_summary].
  unfold known_type in Hk.
  destruct (String.eqb (project_type self) "portfolio");
    [|destruct (String.eqb (project_type self) "api");
      [|destruct (String.eqb (project_type self) "fullstack"); [|done]]].
  - edestruct create_portfolio_structure_begins as (l2 & H2).
    rewrite H2 in H1. simpl in H1.
    exists (l2 ++ l1). rewrite H1, <- !app_assoc. done.
  - edestruct create_api_structure_begins as (l2 & H2).
    rewrite H2 in H1. simpl in H1.
    exists (l2 ++ l1). rewrite H1, <- !app_assoc. done.
  - edestruct create_portfolio_structure_begins as (l2 & H2).
    unfold create_fullstack_structure in H1.
    rewrite H2 in H1. simpl in H1.
    exists (l2 ++ l1). rewrite H1, <- !app_assoc. done.
Qed.

(** *** The catalog, and [create] on a root that is not there *)

Module ResolveFacts.
Import Catalog.

Lemma bind_ret_r (c : M unit) w : bind c (fun _ => ret tt) w = c w.
Proof. unfold bind, ret. by destruct (c w) as [w' [[]|e]]. Qed.

Lemma bind_ext {A B} (c : M A) (k k' : A -> M B) w :
  (forall a w1, k a w1 = k' a w1) -> bind c k w = bind c k' w.
Proof. intros H. unfold bind. destruct (c w) as [w' [a|e]]; [apply H | done]. Qed.

Lemma create_portfolio_structure_eq self w :
  create_portfolio_structure self w
  = (build_structure self (project_root self) portfolio_structure ;;
     create_files self (portfolio_root_files (project_name self))) w.
Proof.
  unfold create_portfolio_structure. cbv zeta.
  cbn [create_files portfolio_root_files].
  repeat (apply bind_ext; intros _ ?).
  by rewrite bind_ret_r.
Qed.

Lemma create_api_structure_eq self w :
  create_api_structure self w
  = (build_structure self (project_root self) api_structure ;;
     create_files self (api_root_files (project_name self))) w.
Proof.
  unfold create_api_structure. cbv zeta.
  cbn [create_files api_root_files].
  repeat (apply bind_ext; intros _ ?).
  by rewrite bind_ret_r.
Qed.

Lemma print_bind {B} s (k : unit -> M B) w :
  bind (print s) k w
  = k tt (World (cwd w) (disk w) (stdout w ++ [s]) (stderr w) (calls w)).
Proof. reflexivity. Qed.

Lemma print_summary_eq self w :
  print_summary self w
  = (World (cwd w) (disk w) (stdout w ++ summary_lines self) (stderr w) (calls w),
     Ok tt).
Proof.
  unfold print_summary, summary_lines. destruct w as [c d o e l].
  repeat (rewrite print_bind; cbn [cwd disk stdout stderr calls]).
  unfold print. cbn [cwd disk stdout stderr calls].
  by rewrite <- !app_assoc.
Qed.

End ResolveFacts.

Import ResolveFacts.

Lemma entries_items_app loc s1 s2 :
  entries_items loc (s1 ++ s2) = entries_items loc s1 ++ entries_items loc s2.
Proof.
  induction s1 as [|[n c] s1 IH]; [done|]. simpl. by rewrite IH, app_assoc.
Qed.

Lemma files_items_app rel s1 s2 :
  files_items rel (s1 ++ s2) = files_items rel s1 ++ files_items rel s2.
Proof.
  induction s1 as [|[n c] s1 IH]; [done|]. simpl. by rewrite IH, app_assoc.
Qed.

Lemma well_formed_items_app s1 s2 :
  well_formed_items (s1 ++ s2) = well_formed_items s1 && well_formed_items s2.
Proof.
  induction s1 as [|[n c] s1 IH]; [done|]. simpl. by rewrite IH, !andb_assoc.
Qed.

(** The files written beside the dict, on a root that is there. *)
Lemma create_files_spec self l : forall lb w,
  NoDup l.*1 -> well_formed_items (as_files l) = true ->
  placed self (project_root self) [] lb w ->
  (forall n, n ∈ l.*1 -> disk w !! (lb ++ [n]) = None) ->
  exists w',
    create_files self l w = (w', Ok tt)
    /\ disk w' = write_all (entries_items lb (as_files l)) (disk w)
    /\ stdout w' = stdout w ++ map progress_line (files_items [] (as_files l)).
Proof.
  induction l as [|[n c] l IH]; intros lb w Hnd Hwf Hpl Hfresh.
  - exists w. simpl. by rewrite app_nil_r.
  - simpl in Hnd, Hwf. apply NoDup_cons in Hnd as [Hn Hnd].
    apply andb_true_iff in Hwf as [[Hsn _]%andb_true_iff Hwf].
    destruct (create_file_spec self (project_root self) [] lb n c w)
      as (w1 & Hrun1 & Hd1 & Ho1); try done.
    { rewrite Hfresh; [done|left]. }
    assert (extends w w1) as E by (eapply steady_create_file; eauto).
    destruct (IH lb w1) as (w2 & Hrun2 & Hd2 & Ho2); try done.
    { by eapply placed_extends. }
    { intros n' Hn'. rewrite Hd1, lookup_insert_ne.
      - apply Hfresh. by right.
      - intros Heq%app_inv_head. injection Heq as ->. done. }
    exists w2. cbn [create_files]. rewrite (bind_ok _ _ _ _ _ Hrun1).
    split; [done|]. rewrite Hd2, Hd1, Ho2, Ho1, <- app_assoc. done.
Qed.

(** A dict and the files beside it, on a root that is not there. *)
Lemma structure_and_files_fresh self s l r w :
  s <> [] ->
  well_formed (Directory (s ++ as_files l)) = true ->
  namei (disk w) (PurePath.parts (project_root self)) = inr r ->
  (forall q, disk w !! (r ++ q) = None) ->
  exists w',
    (build_structure self (project_root self) s ;; create_files self l) w
    = (w', Ok tt)
    /\ disk w' = write_all (entries r (Directory (s ++ as_files l))) (disk w)
    /\ stdout w' = stdout w
                   ++ map progress_line (files_items [] (s ++ as_files l)).
Proof.
  intros Hne Hwf Hn Hfresh. rewrite well_formed_directory in Hwf.
  apply andb_true_iff in Hwf as [Hnd%bool_decide_eq_true Hws].
  rewrite fmap_app in Hnd. apply NoDup_app in Hnd as (Hnd1 & Hdisj & Hnd2).
  rewrite well_formed_items_app in Hws. apply andb_true_iff in Hws as [Hws1 Hws2].
  assert (well_formed (Directory s) = true) as Hwf1.
  { rewrite well_formed_directory, Hws1, bool_decide_eq_true_2; done. }
  destruct (build_structure_fresh self s r w Hne Hwf1 Hn Hfresh)
    as (w1 & Hrun1 & Hd1 & Ho1).
  assert (extends w w1) as E by (eapply steady_build_structure; eauto).
  assert ((as_files l).*1 = l.*1) as Hnames.
  { unfold as_files. rewrite <- list_fmap_compose. done. }
  rewrite Hnames in Hnd2, Hdisj.
  destruct (create_files_spec self l r w1) as (w2 & Hrun2 & Hd2 & Ho2); try done.
  - split.
    + by rewrite app_nil_r.
    + done.
    + eapply namei_grows; [apply E | done].
    + rewrite Hd1. apply write_all_lookup; [by apply entries_NoDup|].
      rewrite entries_directory. left.
  - intros n Hin. rewrite Hd1, write_all_other.
    + replace [n] with (n :: []) by done. apply Hfresh.
    + rewrite entries_directory. simpl. rewrite not_elem_of_cons. split.
      * intros H%(f_equal length). rewrite length_app in H. simpl in H. lia.
      * intros (n' & q & Hn' & Heq%app_inv_head)%entries_items_below.
        injection Heq as -> _. by apply (Hdisj n').
  - exists w2. rewrite (bind_ok _ _ _ _ _ Hrun1). split; [done|].
    rewrite Hd2, Hd1, Ho2, Ho1, !entries_directory, entries_items_app,
      files_items_app, map_app, app_assoc.
    split; [|done]. change (write_all ((r, Dir) :: ?a) ?m)
      with (write_all a (<[r := Dir]> m)). by rewrite write_all_app.
Qed.

Lemma resolve_known ty name :
  known_type ty = true -> is_Some (resolve ty name).
Proof.
  unfold known_type, resolve.
  destruct (String.eqb ty "portfolio"); [eauto|].
  destruct (String.eqb ty "api"); [eauto|].
  destruct (String.eqb ty "fullstack"); [eauto|done].
Qed.

Lemma resolve_well_formed ty name tree :
  resolve ty name = Some tree -> tree <> [] /\ well_formed (Directory tree) = true.
Proof.
  unfold resolve.
  destruct (String.eqb ty "portfolio"); [intros [= <-]; split; [done|by vm_compute]|].
  destruct (String.eqb ty "api"); [intros [= <-]; split; [done|by vm_compute]|].
  destruct (String.eqb ty "fullstack"); [intros [= <-]; split; [done|by vm_compute]|done].
Qed.

(** [create] for a known type, on a root that is not there, in a file
    system in the shape of a tree in which the path of the root can be
    walked: the run returns, and what it has made is the tree of the type
    and the name, entry for entry. *)
Lemma create_fresh self tree r w :
  resolve (project_type self) (project_name self) = Some tree ->
  tree_shaped (disk w) = true ->
  namei (disk w) (PurePath.parts (project_root self)) = inr r ->
  Pathlib.exists_ (disk w) (project_root self) = false ->
  exists w',
    create self w = (w', Ok tt)
    /\ disk w' = write_all (entries r (Directory tree)) (disk w)
    /\ stdout w' = stdout w ++ msg_creating self
                     :: map progress_line (files_items [] tree)
                     ++ summary_lines self.
Proof.
  intros Hres Hm Hn He.
  pose proof (missing_root_fresh _ _ _ Hm Hn He) as Hfresh.
  destruct (resolve_well_formed _ _ _ Hres) as [Hne Hwf].
  unfold create. unfold bind at 1, print at 1.
  unfold bind at 1, path_exists. cbn [disk log]. rewrite He.
  unfold bind at 1, ret at 1.
  set (w0 := World (cwd w) (disk w) (stdout w ++ [msg_creating self]) (stderr w)
               (calls w ++ [CallExists (project_root self)])).
  assert (exists s l, tree = s ++ as_files l /\ s <> []
            /\ forall k, bind
                 (if String.eqb (project_type self) "portfolio" then
                    create_portfolio_structure self
                  else if String.eqb (project_type self) "api" then
                    create_api_structure self
                  else if String.eqb (project_type self) "fullstack" then
                    create_fullstack_structure self
                  else print (msg_unknown self) ;; sys_exit 1) k w0
               = bind (build_structure self (project_root self) s ;;
                       create_files self l) k w0)
    as (s & l & -> & Hs & ->).
  { clear Hwf Hne. unfold resolve in Hres.
    destruct (String.eqb (project_type self) "portfolio");
      [|destruct (String.eqb (project_type self) "api");
        [|destruct (String.eqb (project_type self) "fullstack"); [|done]]].
    - exists portfolio_structure, (portfolio_root_files (project_name self)).
      split; [congruence|]. split; [done|]. intros k. unfold bind at 1 3.
      by rewrite create_portfolio_structure_eq.
    - exists api_structure, (api_root_files (project_name self)).
      split; [congruence|]. split; [done|]. intros k. unfold bind at 1 3.
      by rewrite create_api_structure_eq.
    - exists portfolio_structure, (portfolio_root_files (project_name self)).
      split; [congruence|]. split; [done|]. intros k. unfold bind at 1 3.
      unfold create_fullstack_structure.
      by rewrite create_portfolio_structure_eq. }
  destruct (structure_and_files_fresh self s l r w0 Hs Hwf Hn Hfresh)
    as (w1 & Hrun & Hd & Ho).
  rewrite (bind_ok _ _ _ _ _ Hrun), print_summary_eq.
  eexists. split; [reflexivity|]. cbn [disk stdout]. split; [done|].
  rewrite Ho. cbn [stdout w0]. by rewrite <- !app_assoc.
Qed.

(** * The claims *)

(** C1.  When the root is there, [create] stops at once: the process exits
    with status 1 after the "already exists" line, the file system is the
    one it found, and the existence check is the only call it has made.
    In every run, whatever the root, the name and the type, that check is
    the first call and is not repeated: all later calls are [mkdir]s and
    [open]s. *)
Theorem existing_root_aborts name ty w :
  let root := cwd w </> name in
  let self := Self name ty root in
  (forall w' o, scaffold name ty w = (w', o) ->
     exists l, calls w' = calls w ++ CallExists root :: l
               /\ forallb mutation l = true)
  /\ (Pathlib.exists_ (disk w) root = true ->
      exists w',
        scaffold name ty w = (w', Raise (SystemExit 1))
        /\ exit_status (@Raise unit (SystemExit 1)) = 1
        /\ disk w' = disk w
        /\ calls w' = calls w ++ [CallExists root]
        /\ stdout w' = stdout w ++ [msg_creating self; msg_exists self]).
Proof.
  intros root self. split.
  - intros w' o H. by apply create_calls in H.
  - intros H. exists (aborted self w). split; [|done].
    rewrite scaffold_eq. by apply create_existing.
Qed.

Lemma existing_root_aborts_witness :
  Pathlib.exists_ (disk Example.taken_world)
    (cwd Example.taken_world </> "demo") = true
  /\ exists w',
       scaffold "demo" "api" Example.taken_world = (w', Raise (SystemExit 1))
       /\ disk w' = disk Example.taken_world.
Proof.
  split; [vm_compute; reflexivity|].
  destruct (existing_root_aborts "demo" "api" Example.taken_world) as [_ H].
  destruct H as (w' & Hrun & _ & Hdisk & _); [vm_compute; reflexivity|].
  exists w'. split; assumption.
Defined.

(** C2, as the code has it.  On a root that is not there, in a file system
    in the shape of a tree in which the path of the root can be walked,
    [_build_structure] of a structure that is not empty, with distinct
    single-component names in every dict, returns and has made exactly
    the entries of the structure: the root directory and, below it, one
    directory for every dict and one file with its content for every
    string, each inside the directory of the dict that holds it.  These
    are as many as the structure has nodes, none was there before, and
    nothing else has changed. *)
Theorem nonempty_structure_materialized self s r w :
  s <> [] ->
  well_formed (Directory s) = true ->
  tree_shaped (disk w) = true ->
  namei (disk w) (PurePath.parts (project_root self)) = inr r ->
  Pathlib.exists_ (disk w) (project_root self) = false ->
  exists w',
    build_structure self (project_root self) s w = (w', Ok tt)
    /\ length (entries r (Directory s)) = nodes (Directory s)
    /\ NoDup (entries r (Directory s)).*1
    /\ (forall loc e, (loc, e) ∈ entries r (Directory s) ->
          disk w !! loc = None /\ disk w' !! loc = Some e)
    /\ (forall loc, loc ∉ (entries r (Directory s)).*1 ->
          disk w' !! loc = disk w !! loc)
    /\ size (disk w') = size (disk w) + nodes (Directory s).
Proof.
  intros Hne Hwf Hm Hn He.
  pose proof (missing_root_fresh _ _ _ Hm Hn He) as Hfresh.
  destruct (build_structure_fresh self s r w Hne Hwf Hn Hfresh)
    as (w' & Hrun & Hd & _).
  pose proof (entries_NoDup (Directory s) r Hwf) as Hnd.
  assert (forall loc, loc ∈ (entries r (Directory s)).*1 -> disk w !! loc = None)
    as Hnew.
  { intros loc (q & ->)%entries_below. apply Hfresh. }
  exists w'. split; [done|]. split; [apply entries_length|]. split; [done|].
  split; [|split].
  - intros loc e Hin. split.
    + apply Hnew. apply list_elem_of_fmap. by exists (loc, e).
    + rewrite Hd. by apply write_all_lookup.
  - intros loc Hloc. rewrite Hd. by apply write_all_other.
  - rewrite Hd, write_all_size, entries_length; done.
Qed.

Lemma nonempty_structure_materialized_witness :
  let self := Self "demo" "api" (cwd Example.fresh_world </> "demo") in
  let w := Example.fresh_world in
  api_structure <> []
  /\ well_formed (Directory api_structure) = true
  /\ tree_shaped (disk w) = true
  /\ namei (disk w) (PurePath.parts (project_root self)) = inr ["home"; "u"; "demo"]
  /\ Pathlib.exists_ (disk w) (project_root self) = false
  /\ exists w',
       build_structure self (project_root self) api_structure w = (w', Ok tt)
       /\ size (disk w') = size (disk w) + nodes (Directory api_structure).
Proof.
  intros self w.
  assert (api_structure <> []) as H1 by discriminate.
  assert (well_formed (Directory api_structure) = true) as H2
    by (vm_compute; reflexivity).
  assert (tree_shaped (disk w) = true) as H3 by (vm_compute; reflexivity).
  assert (namei (disk w) (PurePath.parts (project_root self))
          = inr ["home"; "u"; "demo"]) as H4 by (vm_compute; reflexivity).
  assert (Pathlib.exists_ (disk w) (project_root self) = false) as H5
    by (vm_compute; reflexivity).
  repeat (split; [assumption|]).
  destruct (nonempty_structure_materialized self api_structure _ w H1 H2 H3 H4 H5)
    as (w' & Hrun & _ & _ & _ & _ & Hsize).
  exists w'. split; assumption.
Defined.

(** C2 as stated fails on the two smallest structures.  For the empty
    dict nothing is made, not even the root, though the structure has its
    root node; for a dict with one file two entries are made, the root
    and the file, though the dict has one item. *)
Lemma structure_entries_counterexample :
  let self := Self "demo" "api" (cwd Example.fresh_world </> "demo") in
  let w := Example.fresh_world in
  let made s := size (disk (build_structure self (project_root self) s w).1)
                - size (disk w) in
  Pathlib.exists_ (disk w) (project_root self) = false
  /\ (made [] = 0 /\ nodes (Directory []) = 1
      /\ made [] <> nodes (Directory []))
  /\ (made [("f", File PyStr.blank)] = 2
      /\ nodes_items [("f", File PyStr.blank)] = 1
      /\ made [("f", File PyStr.blank)] <> nodes_items [("f", File PyStr.blank)]).
Proof.
  intros self w made.
  repeat split; first [ by vm_compute | vm_compute; intros H; discriminate H ].
Qed.

(** C3.  On a root that is not there (in a file system in the shape of a
    tree, in which the path of the root can be walked) [create] for a
    known type returns.  And a second [create] after one that returned,
    whatever the name, the type and the world, exits with status 1 on the
    "already exists" line and leaves the file system exactly as the first
    run left it, every file with the content it had. *)
Theorem second_run_fails_and_preserves name ty w :
  (known_type ty = true ->
   tree_shaped (disk w) = true ->
   (exists r, namei (disk w) (PurePath.parts (cwd w </> name)) = inr r) ->
   Pathlib.exists_ (disk w) (cwd w </> name) = false ->
   exists w1, scaffold name ty w = (w1, Ok tt))
  /\ (forall w1,
        scaffold name ty w = (w1, Ok tt) ->
        exists w2,
          scaffold name ty w1 = (w2, Raise (SystemExit 1))
          /\ exit_status (@Raise unit (SystemExit 1)) = 1
          /\ disk w2 = disk w1
          /\ (forall loc content, disk w1 !! loc = Some (Reg content) ->
                                  disk w2 !! loc = Some (Reg content))
          /\ stdout w2 = stdout w1
                           ++ [msg_creating (Self name ty (cwd w1 </> name));
                               msg_exists (Self name ty (cwd w1 </> name))]).
Proof.
  split.
  - intros Hk Hm [r Hn] He.
    destruct (resolve_known ty name Hk) as [tree Hres].
    destruct (create_fresh (Self name ty (cwd w </> name)) tree r w)
      as (w1 & Hrun & _); try done.
    exists w1. by rewrite scaffold_eq.
  - intros w1. rewrite scaffold_eq. intros H.
    pose proof (create_cwd _ _ _ _ H) as Hcwd.
    apply create_ok_inv in H as (_ & _ & Hdir%is_dir_exists). simpl in Hdir.
    exists (aborted (Self name ty (cwd w1 </> name)) w1). split; [|done].
    rewrite scaffold_eq. apply create_existing. simpl. by rewrite Hcwd.
Qed.

Lemma second_run_fails_and_preserves_witness :
  let w := Example.fresh_world in
  known_type "api" = true
  /\ tree_shaped (disk w) = true
  /\ namei (disk w) (PurePath.parts (cwd w </> "demo")) = inr ["home"; "u"; "demo"]
  /\ Pathlib.exists_ (disk w) (cwd w </> "demo") = false
  /\ exists w1 w2,
       scaffold "demo" "api" w = (w1, Ok tt)
       /\ scaffold "demo" "api" w1 = (w2, Raise (SystemExit 1))
       /\ disk w2 = disk w1.
Proof.
  intros w.
  assert (known_type "api" = true) as H1 by (vm_compute; reflexivity).
  assert (tree_shaped (disk w) = true) as H2 by (vm_compute; reflexivity).
  assert (namei (disk w) (PurePath.parts (cwd w </> "demo"))
          = inr ["home"; "u"; "demo"]) as H3 by (vm_compute; reflexivity).
  assert (Pathlib.exists_ (disk w) (cwd w </> "demo") = false) as H4
    by (vm_compute; reflexivity).
  repeat (split; [assumption|]).
  destruct (second_run_fails_and_preserves "demo" "api" w) as [Hfirst Hsecond].
  destruct (Hfirst H1 H2 (ex_intro _ _ H3) H4) as [w1 Hrun1].
  destruct (Hsecond w1 Hrun1) as (w2 & Hrun2 & _ & Hdisk & _).
  exists w1, w2. repeat split; assumption.
Defined.

(** C4.  A type outside the three never builds anything.  Through [main]
    the parser refuses it: the rejected value goes to the error stream,
    the status is 2, and nothing else happens.  Through [create] itself
    the run exits with status 1 and the file system untouched; when the
    root is not there, the last line printed names the type. *)
Theorem unknown_type_rejected repr name ty w :
  let root := cwd w </> name in
  let self := Self name ty root in
  ty ∉ type_choices ->
  main repr name (Some ty) w
  = (World (cwd w) (disk w) (stdout w)
       (stderr w ++ [msg_invalid_choice repr ty]) (calls w),
     Raise (SystemExit 2))
  /\ (exists w', scaffold name ty w = (w', Raise (SystemExit 1))
                 /\ disk w' = disk w)
  /\ (Pathlib.exists_ (disk w) root = false ->
      exists w', scaffold name ty w = (w', Raise (SystemExit 1))
                 /\ disk w' = disk w
                 /\ stdout w' = stdout w ++ [msg_creating self; msg_unknown self]
                 /\ msg_unknown self = "❌ Unknown project type: " +:+ ty).
Proof.
  intros root self Hty.
  assert (known_type ty = false) as Hk.
  { destruct (known_type ty) eqn:E; [|done]. by apply known_type_choices in E. }
  split; [|split].
  - unfold main, parse_args, bind. by rewrite bool_decide_eq_false_2.
  - rewrite scaffold_eq.
    destruct (Pathlib.exists_ (disk w) root) eqn:E.
    + exists (aborted self w). split; [by apply create_existing | done].
    + exists (refused self w). split; [by apply create_unknown | done].
  - intros E. exists (refused self w). rewrite scaffold_eq.
    split; [by apply create_unknown | done].
Qed.

Lemma unknown_type_rejected_witness :
  ("cli" ∉ type_choices)
  /\ main (fun s => s) "demo" (Some "cli") Example.fresh_world
     = (World (cwd Example.fresh_world) (disk Example.fresh_world) []
          ["argument --type: invalid choice: cli (choose from 'portfolio', 'api', 'fullstack')"]
          [],
        Raise (SystemExit 2)).
Proof.
  assert ("cli" ∉ type_choices) as H by (vm_compute; intros H; inversion H; subst; inversion H2; subst; inversion H3; subst; inversion H4).
  split; [exact H|].
  exact (proj1 (unknown_type_rejected (fun s => s) "demo" "cli" Example.fresh_world H)).
Defined.

(** C5.  For every name, and from every world, [create] for the type
    fullstack and [create] for the type portfolio end with the same
    outcome, the same file system (the same directories, the same files
    with the same contents) and the same calls; of what they print only
    the first line, which names the type, differs. *)
Theorem fullstack_same_as_portfolio name w :
  let portfolio := Self name "portfolio" (cwd w </> name) in
  let fullstack := Self name "fullstack" (cwd w </> name) in
  let r1 := scaffold name "portfolio" w in
  let r2 := scaffold name "fullstack" w in
  disk r1.1 = disk r2.1
  /\ r1.2 = r2.2
  /\ calls r1.1 = calls r2.1
  /\ exists t, stdout r1.1 = stdout w ++ msg_creating portfolio :: t
               /\ stdout r2.1 = stdout w ++ msg_creating fullstack :: t.
Proof.
  intros self1 self2 r1 r2.
  set (rest := fun self : t =>
         (found <- path_exists (project_root self) ;
          (if found then print (msg_exists self) ;; sys_exit 1 else ret tt) ;;
          create_portfolio_structure self ;;
          print_summary self)).
  assert (twin (rest self1) (rest self2)) as T.
  { apply twin_bind; [apply twin_path_exists|]. intros found.
    apply twin_bind; [|intros _; apply twin_bind].
    - destruct found; [|apply twin_ret].
      apply twin_bind; [apply twin_print | intros _; apply twin_raise].
    - by apply twin_create_portfolio_structure.
    - intros _. by apply twin_print_summary. }
  set (w1 := World (cwd w) (disk w) (stdout w ++ [msg_creating self1])
               (stderr w) (calls w)).
  set (w2 := World (cwd w) (disk w) (stdout w ++ [msg_creating self2])
               (stderr w) (calls w)).
  assert (r1 = rest self1 w1) as -> by reflexivity.
  assert (r2 = rest self2 w2) as -> by reflexivity.
  destruct (T (stdout w ++ [msg_creating self1]) (stdout w ++ [msg_creating self2])
              w1 w2) as [[_ Hd _ Hc (t & H1 & H2)] Ho].
  { split; [reflexivity.. |]. exists []. by rewrite !app_nil_r. }
  split; [exact Hd|]. split; [exact Ho|]. split; [exact Hc|].
  exists t. rewrite H1, H2, <- !app_assoc. split; reflexivity.
Qed.

(** C6.  For each of the three types and every name, the tree of the
    catalog is a fixed function of the two: it exists, it has the same
    number of files and of directories whatever the name (66 and 25 for
    portfolio and fullstack, 16 and 6 for api, the root counted), and it
    is the tree that [create] lays out: on a root that is not there, from
    whatever world, the run returns and has written the entries of this
    tree and nothing else. *)
Theorem catalog_counts_stable ty name :
  known_type ty = true ->
  exists tree,
    resolve ty name = Some tree
    /\ count_files (Directory tree) = (if String.eqb ty "api" then 16 else 66)
    /\ count_dirs (Directory tree) = (if String.eqb ty "api" then 6 else 25)
    /\ (forall w r,
          tree_shaped (disk w) = true ->
          namei (disk w) (PurePath.parts (cwd w </> name)) = inr r ->
          Pathlib.exists_ (disk w) (cwd w </> name) = false ->
          exists w',
            scaffold name ty w = (w', Ok tt)
            /\ disk w' = write_all (entries r (Directory tree)) (disk w)).
Proof.
  intros Hk. destruct (resolve_known ty name Hk) as [tree Hres].
  exists tree. split; [done|].
  assert (count_files (Directory tree) = (if String.eqb ty "api" then 16 else 66)
          /\ count_dirs (Directory tree) = (if String.eqb ty "api" then 6 else 25))
    as [Hf Hd].
  { unfold resolve in Hres.
    destruct (String.eqb ty "portfolio") eqn:E1.
    { apply String.eqb_eq in E1 as ->. injection Hres as <-. by vm_compute. }
    destruct (String.eqb ty "api") eqn:E2.
    { injection Hres as <-. by vm_compute. }
    destruct (String.eqb ty "fullstack") eqn:E3; [|done].
    injection Hres as <-. by vm_compute. }
  split; [done|]. split; [done|].
  intros w r Hm Hn He.
  destruct (create_fresh (Self name ty (cwd w </> name)) tree r w)
    as (w' & Hrun & Hdisk & _); try done.
  exists w'. by rewrite scaffold_eq.
Qed.

Lemma catalog_counts_stable_witness :
  known_type "api" = true
  /\ exists tree,
       resolve "api" "demo" = Some tree
       /\ count_files (Directory tree) = 16
       /\ count_dirs (Directory tree) = 6.
Proof.
  assert (known_type "api" = true) as H by (vm_compute; reflexivity).
  split; [exact H|].
  destruct (catalog_counts_stable "api" "demo" H) as (tree & Hres & Hf & Hd & _).
  exists tree. repeat split; assumption.
Defined.

(** C7, as the code has it.  For every name the README is the title
    line with the name, a fixed text, the name again at the head of the
    tree sketch, and a fixed text, so the name stands verbatim at both
    places; and that is the README a run that returns leaves on disk.
    No name is refused: the root is [cwd / name] as pathlib joins them,
    so a name that starts with a slash is the root by itself and a name
    [a/b] is the directory [b] in the directory [a] of the working
    directory; and when that root is not there, [create] for a known
    type goes straight from its existence check to the first [mkdir]
    below the root. *)
Theorem readme_names_project_and_root_follows_name name :
  (Catalog.get_readme name
   = "# " +:+ name +:+ readme_mid +:+ name +:+ readme_tail
   /\ String.substring 2 (String.length name) (Catalog.get_readme name) = name
   /\ String.substring (2 + String.length name + String.length readme_mid)
        (String.length name) (Catalog.get_readme name) = name)
  /\ (forall ty w w', scaffold name ty w = (w', Ok tt) ->
        stat (disk w') (PurePath.parts (cwd w </> name </> "README.md"))
        = inr (Reg (Catalog.get_readme name)))
  /\ (forall here : Path, PurePath.is_absolute name = true ->
        here </> name
        = PurePath.mk (PurePath.double_root name) (PurePath.parse_parts name))
  /\ (forall (here : Path) a b,
        name = a +:+ "/" +:+ b -> simple_name a = true -> simple_name b = true ->
        here </> name
        = PurePath.mk (PurePath.dslash here) (PurePath.parts here ++ [a; b]))
  /\ (forall ty w w' o,
        known_type ty = true ->
        Pathlib.exists_ (disk w) (cwd w </> name) = false ->
        scaffold name ty w = (w', o) ->
        exists l, calls w' = calls w ++ CallExists (cwd w </> name)
                               :: CallMkdir (cwd w </> name </> "app") :: l).
Proof.
  pose proof (Readme.get_readme_eq name) as E.
  split; [split; [done|split]|split; [|split; [|split]]].
  - rewrite E. change 2 with (String.length "# ").
    by rewrite Readme.substring_skip, Readme.substring_head.
  - rewrite E.
    replace ("# " +:+ name +:+ readme_mid +:+ name +:+ readme_tail)
      with ((("# " +:+ name) +:+ readme_mid) +:+ name +:+ readme_tail)
      by (by rewrite !Readme.append_assoc).
    replace (2 + String.length name + String.length readme_mid)
      with (String.length (("# " +:+ name) +:+ readme_mid)).
    + by rewrite Readme.substring_skip, Readme.substring_head.
    + by rewrite !Readme.length_append.
  - intros ty w w'. rewrite scaffold_eq. apply create_readme.
  - intros here H. unfold PurePath.div. by rewrite H.
  - intros here a b -> Ha Hb. by apply div_nested.
  - intros ty w w' o Hk He. rewrite scaffold_eq. by apply create_begins.
Qed.

Lemma readme_names_project_and_root_follows_name_witness :
  let w := Example.fresh_world in
  cwd w </> "a/b" = PurePath.mk false ["home"; "u"; "a"; "b"]
  /\ (scaffold "a/b" "api" w).2 = Ok tt
  /\ stat (disk (scaffold "a/b" "api" w).1) ["home"; "u"; "a"; "b"; "README.md"]
     = inr (Reg (Catalog.get_readme "a/b")).
Proof.
  intros w.
  destruct (readme_names_project_and_root_follows_name "a/b")
    as (_ & Hreadme & _ & Hnested & _).
  split; [exact (Hnested (cwd w) "a" "b" eq_refl eq_refl eq_refl)|].
  assert ((scaffold "a/b" "api" w).2 = Ok tt) as E by (vm_compute; reflexivity).
  split; [exact E|].
  exact (Hreadme "api" w _ (run_ok _ _ _ E)).
Defined.

(** C7 as stated fails on its second half: a name with separators is
    taken as it is.  From the working directory [/home/u], the name
    ["/srv/demo"] puts the project at [/srv/demo], with nothing made in
    the working directory, and the name ["../demo"] puts it at
    [/home/demo], beside the working directory; both runs return. *)
Lemma separator_counterexample :
  let w := Example.fresh_world in
  let r1 := scaffold "/srv/demo" "api" w in
  let r2 := scaffold "../demo" "api" w in
  let below_cwd (m : fs) :=
    List.filter (fun loc => bool_decide (take 2 loc = ["home"; "u"]))
      (map fst (map_to_list m)) in
  (r1.2 = Ok tt
   /\ PurePath.relative_to (cwd w </> "/srv/demo") (cwd w) = None
   /\ disk r1.1 !! ["srv"; "demo"; "README.md"]
      = Some (Reg (Catalog.get_readme "/srv/demo"))
   /\ below_cwd (disk r1.1) = [["home"; "u"]])
  /\ (r2.2 = Ok tt
      /\ namei (disk w) (PurePath.parts (cwd w </> "../demo")) = inr ["home"; "demo"]
      /\ disk r2.1 !! ["home"; "demo"; "README.md"]
         = Some (Reg (Catalog.get_readme "../demo"))
      /\ below_cwd (disk r2.1) = [["home"; "u"]]).
Proof.
  vm_compute. repeat split.
Qed.

(** C8, as the code has it.  Under the conditions of C2,
    [_build_structure] prints one line for every file it writes and none
    for a directory: the lines are the files of the structure in the
    order in which the items are reached, each by its path relative to
    the root, and every path reported is a regular file below the root.
    So the number of lines is the number of files of the structure. *)
Theorem progress_reports_files self s r w :
  s <> [] ->
  well_formed (Directory s) = true ->
  tree_shaped (disk w) = true ->
  namei (disk w) (PurePath.parts (project_root self)) = inr r ->
  Pathlib.exists_ (disk w) (project_root self) = false ->
  exists w',
    build_structure self (project_root self) s w = (w', Ok tt)
    /\ stdout w' = stdout w ++ map progress_line (files_items [] s)
    /\ length (files_items [] s) = count_files (Directory s)
    /\ (forall rel, rel ∈ files_items [] s ->
          exists content, disk w' !! (r ++ rel) = Some (Reg content)).
Proof.
  intros Hne Hwf Hm Hn He.
  pose proof (missing_root_fresh _ _ _ Hm Hn He) as Hfresh.
  destruct (build_structure_fresh self s r w Hne Hwf Hn Hfresh)
    as (w' & Hrun & Hd & Ho).
  exists w'. split; [done|]. split; [done|]. split; [apply files_items_length|].
  intros rel Hrel. rewrite <- files_directory in Hrel.
  apply (files_in_entries _ r) in Hrel as (q & content & -> & Hin).
  exists content. rewrite Hd, app_nil_l.
  apply write_all_lookup; [by apply entries_NoDup | done].
Qed.

Lemma progress_reports_files_witness :
  let self := Self "demo" "api" (cwd Example.fresh_world </> "demo") in
  let w := Example.fresh_world in
  api_structure <> []
  /\ well_formed (Directory api_structure) = true
  /\ tree_shaped (disk w) = true
  /\ namei (disk w) (PurePath.parts (project_root self)) = inr ["home"; "u"; "demo"]
  /\ Pathlib.exists_ (disk w) (project_root self) = false
  /\ exists w',
       build_structure self (project_root self) api_structure w = (w', Ok tt)
       /\ stdout w' = stdout w ++ map progress_line (files_items [] api_structure).
Proof.
  intros self w.
  assert (api_structure <> []) as H1 by discriminate.
  assert (well_formed (Directory api_structure) = true) as H2
    by (vm_compute; reflexivity).
  assert (tree_shaped (disk w) = true) as H3 by (vm_compute; reflexivity).
  assert (namei (disk w) (PurePath.parts (project_root self))
          = inr ["home"; "u"; "demo"]) as H4 by (vm_compute; reflexivity).
  assert (Pathlib.exists_ (disk w) (project_root self) = false) as H5
    by (vm_compute; reflexivity).
  repeat (split; [assumption|]).
  destruct (progress_reports_files self api_structure _ w H1 H2 H3 H4 H5)
    as (w' & Hrun & Hout & _).
  exists w'. split; assumption.
Defined.

(** C8 as stated fails where the structure has directories.  For a dict
    that holds one empty directory, two paths are made and the structure
    has one leaf, yet nothing is printed.  For the portfolio project as a
    whole, 91 paths are made and the dict has 63 leaves, yet 66 lines
    report a path: the 59 files of the dict and the 7 files written
    beside it. *)
Lemma progress_lines_counterexample :
  let self := Self "demo" "api" (cwd Example.fresh_world </> "demo") in
  let w := Example.fresh_world in
  let s := [("img", Directory [])] in
  let w1 := (build_structure self (project_root self) s w).1 in
  let w2 := (scaffold "demo" "portfolio" w).1 in
  (size (disk w1) - size (disk w) = 2
   /\ leaves (Directory s) = 1
   /\ length (progress_lines (stdout w1)) = 0
   /\ length (progress_lines (stdout w1)) <> size (disk w1) - size (disk w)
   /\ length (progress_lines (stdout w1)) <> leaves (Directory s))
  /\ (size (disk w2) - size (disk w) = 91
      /\ leaves (Directory portfolio_structure) = 63
      /\ length (progress_lines (stdout w2)) = 66
      /\ length (progress_lines (stdout w2)) <> size (disk w2) - size (disk w)
      /\ length (progress_lines (stdout w2)) <> leaves (Directory portfolio_structure)).
Proof.
  intros self w s w1 w2.
  repeat split; first [ by vm_compute | vm_compute; intros H; discriminate H ].
Qed.

(** C9.  When the root is there and the type is none of the three, the
    run ends on the "already exists" line: the type is never looked at,
    and the "unknown project type" line is not printed. *)
Theorem existing_root_precedes_unknown_type name ty w :
  let root := cwd w </> name in
  let self := Self name ty root in
  Pathlib.exists_ (disk w) root = true ->
  known_type ty = false ->
  exists w',
    scaffold name ty w = (w', Raise (SystemExit 1))
    /\ stdout w' = stdout w ++ [msg_creating self; msg_exists self]
    /\ (msg_unknown self ∉ [msg_creating self; msg_exists self])
    /\ disk w' = disk w.
Proof.
  intros root self H _. exists (aborted self w). split; [|split; [done|split; [|done]]].
  - rewrite scaffold_eq. by apply create_existing.
  - rewrite !not_elem_of_cons. split; [|split; [|apply not_elem_of_nil]].
    + unfold msg_unknown, msg_creating. simpl. discriminate.
    + unfold msg_unknown, msg_exists. simpl. discriminate.
Qed.

Lemma existing_root_precedes_unknown_type_witness :
  Pathlib.exists_ (disk Example.taken_world)
    (cwd Example.taken_world </> "demo") = true
  /\ known_type "cli" = false
  /\ exists w',
       scaffold "demo" "cli" Example.taken_world = (w', Raise (SystemExit 1))
       /\ disk w' = disk Example.taken_world.
Proof.
  split; [vm_compute; reflexivity|]. split; [vm_compute; reflexivity|].
  destruct (existing_root_precedes_unknown_type "demo" "cli" Example.taken_world)
    as (w' & Hrun & _ & _ & Hdisk); [vm_compute; reflexivity..|].
  exists w'. split; assumption.
Defined.

(** C10.  The README that a run leaves on disk is [get_readme] of the
    name, whatever the type: two runs that return, for the same name and
    any two types, from any two worlds, leave READMEs with the same
    bytes.  That text lists [static/], [templates/] and [alembic/], none
    of which is a directory of the api structure. *)
Theorem readme_depends_on_name_only name ty1 ty2 wa wb wa' wb' :
  scaffold name ty1 wa = (wa', Ok tt) ->
  scaffold name ty2 wb = (wb', Ok tt) ->
  let readme w := PurePath.parts (cwd w </> name </> "README.md") in
  (stat (disk wa') (readme wa) = inr (Reg (Catalog.get_readme name))
   /\ stat (disk wb') (readme wb) = inr (Reg (Catalog.get_readme name)))
  /\ (PyStr.contains "static/" (Catalog.get_readme name) = true
      /\ PyStr.contains "templates/" (Catalog.get_readme name) = true
      /\ PyStr.contains "alembic/" (Catalog.get_readme name) = true)
  /\ (forall d, d ∈ ["static"; "templates"; "alembic"] ->
                d ∉ api_structure.*1).
Proof.
  rewrite !scaffold_eq. intros Ha Hb readme.
  apply create_readme in Ha, Hb. split; [done|]. split.
  - repeat split; apply Readme.get_readme_contains; vm_compute; reflexivity.
  - intros d Hd Hin. revert Hd.
    change (api_structure.*1) with ["app"; "tests"] in Hin.
    rewrite !elem_of_cons, elem_of_nil in Hin.
    rewrite !elem_of_cons, elem_of_nil.
    intros [->|[->|[->|[]]]]; destruct Hin as [?|[?|[]]]; discriminate.
Qed.

Lemma readme_depends_on_name_only_witness :
  let w := Example.fresh_world in
  let wa := (scaffold "demo" "api" w).1 in
  let wb := (scaffold "demo" "portfolio" w).1 in
  scaffold "demo" "api" w = (wa, Ok tt)
  /\ scaffold "demo" "portfolio" w = (wb, Ok tt)
  /\ stat (disk wa) ["home"; "u"; "demo"; "README.md"]
     = stat (disk wb) ["home"; "u"; "demo"; "README.md"].
Proof.
  intros w wa wb.
  assert ((scaffold "demo" "api" w).2 = Ok tt) as Ea
    by (vm_compute; reflexivity).
  assert ((scaffold "demo" "portfolio" w).2 = Ok tt) as Eb
    by (vm_compute; reflexivity).
  pose proof (run_ok _ _ _ Ea) as Ha. fold wa in Ha.
  pose proof (run_ok _ _ _ Eb) as Hb. fold wb in Hb.
  split; [exact Ha|]. split; [exact Hb|].
  destruct (readme_depends_on_name_only "demo" "api" "portfolio" w w wa wb Ha Hb)
    as [[H1 H2] _].
  exact (eq_trans H1 (eq_sym H2)).
Defined.

(** * Further properties of the code *)

(** ** Lemmas *)

Lemma bind_raise {A B} (c : M A) (k : A -> M B) w w1 e :
  c w = (w1, Raise e) -> bind c k w = (w1, Raise e).
Proof. unfold bind. by intros ->. Qed.

(** [mkdir_p] where [os.mkdir] fails for another reason than a missing
    parent, and the path is not a directory: the error is raised. *)
Lemma mkdir_p_raises (m : fs) p e :
  Posix.mkdir m p = inl e -> e <> ENOENT -> is_dir m p = false ->
  mkdir_p m p = (m, Some e).
Proof.
  intros Hmk He Hd. unfold mkdir_p.
  rewrite <- (rev_involutive p) in Hmk, Hd.
  destruct (rev p); simpl in *; rewrite Hmk, Hd; by destruct e.
Qed.

Lemma mkdir_p_over_file (m : fs) p (loc : list string) content :
  namei m p = inr loc -> m !! loc = Some (Reg content) ->
  mkdir_p m p = (m, Some EEXIST).
Proof.
  intros Hn Hl. apply mkdir_p_raises; [|done|].
  - unfold Posix.mkdir. by rewrite Hn, Hl.
  - unfold is_dir, stat. by rewrite Hn, Hl.
Qed.

Lemma mkdir_p_through_file (m : fs) p :
  namei m p = inl ENOTDIR -> mkdir_p m p = (m, Some ENOTDIR).
Proof.
  intros Hn. apply mkdir_p_raises; [|done|].
  - unfold Posix.mkdir. by rewrite Hn.
  - unfold is_dir, stat. by rewrite Hn.
Qed.

Lemma namei_through_file (m : fs) p q :
  namei m p = inl ENOTDIR -> namei m (p ++ q) = inl ENOTDIR.
Proof. unfold namei. intros H. by rewrite walk_app, H. Qed.
(** ** What a run leaves in place *)

(** X1.  Whatever the name, the type and the outcome, a run of [create]
    destroys nothing: every directory that was there is still a
    directory, every file is still a file, the working directory and the
    error stream are the same, and output was only appended.  A run that
    raises half-way leaves what it has made. *)
Theorem run_never_destroys name ty w w' o :
  scaffold name ty w = (w', o) ->
  (forall loc, disk w !! loc = Some Dir -> disk w' !! loc = Some Dir)
  /\ (forall loc content, disk w !! loc = Some (Reg content) ->
        exists content', disk w' !! loc = Some (Reg content'))
  /\ cwd w' = cwd w
  /\ stderr w' = stderr w
  /\ exists l, stdout w' = stdout w ++ l.
Proof.
  rewrite scaffold_eq. unfold create. unfold bind at 1, print at 1.
  unfold bind at 1, path_exists. intros H.
  apply steady_create_rest in H as [Hc Hd He [l Ho] _]. simpl in *.
  split; [|split; [|split; [done|split; [done|]]]].
  - intros loc Hl. by eapply grows_dir.
  - intros loc content Hl. specialize (Hd _ _ Hl).
    destruct (disk w' !! loc) as [[|content']|]; try done. eauto.
  - exists ([msg_creating (Self name ty (cwd w </> name))] ++ l).
    by rewrite Ho, <- app_assoc.
Qed.

Lemma run_never_destroys_witness :
  let w := Example.taken_world in
  let r := scaffold "demo" "portfolio" w in
  scaffold "demo" "portfolio" w = (r.1, r.2)
  /\ disk r.1 !! ["home"; "u"; "demo"] = Some Dir.
Proof.
  intros w r.
  assert (scaffold "demo" "portfolio" w = (r.1, r.2)) as H
    by apply surjective_pairing.
  split; [exact H|].
  destruct (run_never_destroys "demo" "portfolio" w r.1 r.2 H) as [Hdir _].
  apply Hdir. vm_compute. reflexivity.
Defined.

(** X2.  On a root that is not there (known type, file system in the
    shape of a tree, path of the root walkable) a run returns and is
    confined to the root: every entry that was there before is there
    afterwards, unchanged, files with their bytes; and every entry that
    is new lies at the root or below it. *)
Theorem fresh_run_confined name ty r w :
  known_type ty = true ->
  tree_shaped (disk w) = true ->
  namei (disk w) (PurePath.parts (cwd w </> name)) = inr r ->
  Pathlib.exists_ (disk w) (cwd w </> name) = false ->
  exists w',
    scaffold name ty w = (w', Ok tt)
    /\ (forall loc e, disk w !! loc = Some e -> disk w' !! loc = Some e)
    /\ (forall loc, disk w !! loc = None -> is_Some (disk w' !! loc) ->
          exists q, loc = r ++ q)
    /\ disk w' !! r = Some Dir.
Proof.
  intros Hk Hm Hn He.
  destruct (resolve_known ty name Hk) as [tree Hres].
  destruct (create_fresh (Self name ty (cwd w </> name)) tree r w)
    as (w' & Hrun & Hd & _); try done.
  pose proof (missing_root_fresh _ _ _ Hm Hn He) as Hfresh.
  destruct (resolve_well_formed _ _ _ Hres) as [_ Hwf].
  exists w'. rewrite scaffold_eq. split; [done|]. split; [|split].
  - intros loc e Hl. rewrite Hd, write_all_other; [done|].
    intros (q & ->)%entries_below. rewrite Hfresh in Hl. done.
  - intros loc Hl Hs.
    destruct (decide (loc ∈ (entries r (Directory tree)).*1)) as [Hin|Hout].
    + by apply entries_below in Hin.
    + rewrite Hd, write_all_other, Hl in Hs by done. by destruct Hs.
  - rewrite Hd. apply write_all_lookup; [by apply entries_NoDup|].
    rewrite entries_directory. left.
Qed.

Lemma fresh_run_confined_witness :
  let w := Example.fresh_world in
  known_type "portfolio" = true
  /\ tree_shaped (disk w) = true
  /\ namei (disk w) (PurePath.parts (cwd w </> "demo")) = inr ["home"; "u"; "demo"]
  /\ Pathlib.exists_ (disk w) (cwd w </> "demo") = false
  /\ exists w',
       scaffold "demo" "portfolio" w = (w', Ok tt)
       /\ disk w' !! ["home"; "u"] = Some Dir
       /\ disk w' !! ["home"; "u"; "demo"] = Some Dir.
Proof.
  intros w.
  assert (known_type "portfolio" = true) as H1 by (vm_compute; reflexivity).
  assert (tree_shaped (disk w) = true) as H2 by (vm_compute; reflexivity).
  assert (namei (disk w) (PurePath.parts (cwd w </> "demo"))
          = inr ["home"; "u"; "demo"]) as H3 by (vm_compute; reflexivity).
  assert (Pathlib.exists_ (disk w) (cwd w </> "demo") = false) as H4
    by (vm_compute; reflexivity).
  repeat (split; [assumption|]).
  destruct (fresh_run_confined "demo" "portfolio" _ w H1 H2 H3 H4)
    as (w' & Hrun & Hkeep & _ & Hroot).
  exists w'. split; [assumption|]. split; [|assumption].
  apply Hkeep. vm_compute. reflexivity.
Defined.

(** X3.  What such a run prints, in this order: the "Creating" line, one
    "Created" line for every file of the tree of the type (the files of
    the dict as [_build_structure] reaches them, then the files written
    beside it), and the eight closing lines; 16 files are reported for
    api and 66 for portfolio and fullstack, whatever the name.  The
    process ends with status 0. *)
Theorem fresh_run_output name ty r w :
  known_type ty = true ->
  tree_shaped (disk w) = true ->
  namei (disk w) (PurePath.parts (cwd w </> name)) = inr r ->
  Pathlib.exists_ (disk w) (cwd w </> name) = false ->
  let self := Self name ty (cwd w </> name) in
  exists w' tree,
    scaffold name ty w = (w', Ok tt)
    /\ exit_status (Ok tt) = 0
    /\ resolve ty name = Some tree
    /\ stdout w' = stdout w ++ msg_creating self
                     :: map progress_line (files_items [] tree)
                     ++ summary_lines self
    /\ length (files_items [] tree) = (if String.eqb ty "api" then 16 else 66)
    /\ length (summary_lines self) = 8.
Proof.
  intros Hk Hm Hn He self.
  destruct (resolve_known ty name Hk) as [tree Hres].
  destruct (create_fresh self tree r w) as (w' & Hrun & _ & Ho); try done.
  exists w', tree. rewrite scaffold_eq.
  split; [done|]. split; [done|]. split; [done|]. split; [done|].
  split; [|done]. clear Hrun Ho. unfold resolve in Hres.
  destruct (String.eqb ty "portfolio") eqn:E1.
  { apply String.eqb_eq in E1 as ->. injection Hres as <-. by vm_compute. }
  destruct (String.eqb ty "api") eqn:E2.
  { injection Hres as <-. by vm_compute. }
  destruct (String.eqb ty "fullstack") eqn:E3; [|done].
  injection Hres as <-. by vm_compute.
Qed.

Lemma fresh_run_output_witness :
  let w := Example.fresh_world in
  known_type "api" = true
  /\ tree_shaped (disk w) = true
  /\ namei (disk w) (PurePath.parts (cwd w </> "demo")) = inr ["home"; "u"; "demo"]
  /\ Pathlib.exists_ (disk w) (cwd w </> "demo") = false
  /\ exists w', scaffold "demo" "api" w = (w', Ok tt)
                /\ length (stdout w') = 25.
Proof.
  intros w.
  assert (known_type "api" = true) as H1 by (vm_compute; reflexivity).
  assert (tree_shaped (disk w) = true) as H2 by (vm_compute; reflexivity).
  assert (namei (disk w) (PurePath.parts (cwd w </> "demo"))
          = inr ["home"; "u"; "demo"]) as H3 by (vm_compute; reflexivity).
  assert (Pathlib.exists_ (disk w) (cwd w </> "demo") = false) as H4
    by (vm_compute; reflexivity).
  repeat (split; [assumption|]).
  destruct (fresh_run_output "demo" "api" _ w H1 H2 H3 H4)
    as (w' & tree & Hrun & _ & _ & Hout & Hfiles & Hsum).
  exists w'. split; [assumption|].
  rewrite Hout, length_app. cbn [length].
  rewrite length_app, length_map, Hfiles, Hsum. reflexivity.
Defined.

(** ** Collisions *)

(** X4.  [_build_structure] does not turn a file into a directory: where
    an item is a dict and a regular file stands at its place, the [mkdir]
    raises [FileExistsError]; nothing is changed, nothing is printed, and
    the items after it are not reached. *)
Theorem directory_over_file_raises self base lb n sub rest content w :
  simple_name n = true ->
  namei (disk w) (PurePath.parts base) = inr lb ->
  disk w !! lb = Some Dir ->
  disk w !! (lb ++ [n]) = Some (Reg content) ->
  exists w',
    build_structure self base ((n, Directory sub) :: rest) w
    = (w', Raise (OSError EEXIST))
    /\ disk w' = disk w
    /\ stdout w' = stdout w
    /\ calls w' = calls w ++ [CallMkdir (base </> n)].
Proof.
  intros Hs Hn Hd Hf.
  pose proof Hs as (_ & Hdd & _)%simple_name_inv.
  eexists. split.
  - cbn [build_structure]. apply bind_raise.
    rewrite build_item_directory. apply bind_raise.
    unfold path_mkdir. rewrite (div_simple _ _ Hs) at 1. simpl.
    rewrite (mkdir_p_over_file _ _ (lb ++ [n]) content); [reflexivity| |done].
    by apply namei_snoc.
  - done.
Qed.

Lemma directory_over_file_raises_witness :
  let w := Example.in_home (<[ ["home"; "u"; "app"] := Reg "x" ]> Example.home) in
  let self := Self "." "api" (cwd w) in
  simple_name "app" = true
  /\ namei (disk w) (PurePath.parts (cwd w)) = inr ["home"; "u"]
  /\ disk w !! ["home"; "u"] = Some Dir
  /\ disk w !! (["home"; "u"] ++ ["app"]) = Some (Reg "x")
  /\ exists w',
       build_structure self (cwd w)
         [("app", Directory [("main.py", File "pass")]); ("run.py", File "pass")] w
       = (w', Raise (OSError EEXIST))
       /\ disk w' = disk w.
Proof.
  intros w self.
  assert (simple_name "app" = true) as H1 by reflexivity.
  assert (namei (disk w) (PurePath.parts (cwd w)) = inr ["home"; "u"]) as H2
    by (vm_compute; reflexivity).
  assert (disk w !! ["home"; "u"] = Some Dir) as H3 by (vm_compute; reflexivity).
  assert (disk w !! (["home"; "u"] ++ ["app"]) = Some (Reg "x")) as H4
    by (vm_compute; reflexivity).
  repeat (split; [assumption|]).
  destruct (directory_over_file_raises self (cwd w) _ "app"
              [("main.py", File "pass")] [("run.py", File "pass")] _ w
              H1 H2 H3 H4) as (w' & Hrun & Hdisk & _).
  exists w'. split; [exact Hrun | exact Hdisk].
Defined.

(** X5.  Nor does it write a file over a directory: where an item is a
    string and a directory stands at its place, [open] raises
    [IsADirectoryError]; nothing is changed and nothing is printed. *)
Theorem file_over_directory_raises self base lb n content rest w :
  simple_name n = true ->
  namei (disk w) (PurePath.parts base) = inr lb ->
  disk w !! lb = Some Dir ->
  disk w !! (lb ++ [n]) = Some Dir ->
  exists w',
    build_structure self base ((n, File content) :: rest) w
    = (w', Raise (OSError EISDIR))
    /\ disk w' = disk w
    /\ stdout w' = stdout w.
Proof.
  intros Hs Hn Hd Hf.
  pose proof Hs as (_ & Hdd & _)%simple_name_inv.
  pose proof (div_simple base n Hs) as Hdiv.
  eexists. split.
  - cbn [build_structure]. apply bind_raise. rewrite build_item_file.
    erewrite bind_ok; last first.
    { apply path_mkdir_there. rewrite Hdiv. simpl. rewrite removelast_last.
      apply is_dir_spec. eauto. }
    unfold create_file. apply bind_raise. unfold open_write, write_file.
    rewrite Hdiv. simpl. rewrite (namei_snoc _ _ _ _ Hn Hd Hdd), Hf. reflexivity.
  - done.
Qed.

Lemma file_over_directory_raises_witness :
  let w := Example.in_home (<[ ["home"; "u"; "README.md"] := Dir ]> Example.home) in
  let self := Self "." "api" (cwd w) in
  simple_name "README.md" = true
  /\ namei (disk w) (PurePath.parts (cwd w)) = inr ["home"; "u"]
  /\ disk w !! ["home"; "u"] = Some Dir
  /\ disk w !! (["home"; "u"] ++ ["README.md"]) = Some Dir
  /\ exists w',
       build_structure self (cwd w) [("README.md", File "text")] w
       = (w', Raise (OSError EISDIR))
       /\ disk w' = disk w.
Proof.
  intros w self.
  assert (simple_name "README.md" = true) as H1 by reflexivity.
  assert (namei (disk w) (PurePath.parts (cwd w)) = inr ["home"; "u"]) as H2
    by (vm_compute; reflexivity).
  assert (disk w !! ["home"; "u"] = Some Dir) as H3 by (vm_compute; reflexivity).
  assert (disk w !! (["home"; "u"] ++ ["README.md"]) = Some Dir) as H4
    by (vm_compute; reflexivity).
  repeat (split; [assumption|]).
  destruct (file_over_directory_raises self (cwd w) _ "README.md" "text" [] w
              H1 H2 H3 H4) as (w' & Hrun & Hdisk & _).
  exists w'. split; [exact Hrun | exact Hdisk].
Defined.

(** X6.  [_create_file] replaces: in a directory that is there and below
    the root, on a name where a regular file stands, it returns, the file
    holds exactly the new content, no other entry is touched, and one
    line is printed, the path of the file relative to the root. *)
Theorem create_file_replaces self base rel lb n content old w :
  simple_name n = true ->
  placed self base rel lb w ->
  disk w !! (lb ++ [n]) = Some (Reg old) ->
  exists w',
    create_file self (base </> n) content w = (w', Ok tt)
    /\ disk w' !! (lb ++ [n]) = Some (Reg content)
    /\ (forall loc, loc <> lb ++ [n] -> disk w' !! loc = disk w !! loc)
    /\ stdout w' = stdout w ++ ["  ✓ Created: " +:+ PyStr.join "/" (rel ++ [n])].
Proof.
  intros Hs Hpl Hold.
  destruct (create_file_spec self base rel lb n content w Hs Hpl)
    as (w' & Hrun & Hd & Ho); [by rewrite Hold|].
  exists w'. split; [done|]. rewrite Hd. split; [|split; [|done]].
  - apply lookup_insert_eq.
  - intros loc Hne. by rewrite lookup_insert_ne.
Qed.

Lemma create_file_replaces_witness :
  let w := Example.in_home (<[ ["home"; "u"; "demo"; "run.py"] := Reg "old" ]>
                             (disk Example.taken_world)) in
  let self := Self "demo" "api" (cwd w </> "demo") in
  simple_name "run.py" = true
  /\ placed self (project_root self) [] ["home"; "u"; "demo"] w
  /\ disk w !! (["home"; "u"; "demo"] ++ ["run.py"]) = Some (Reg "old")
  /\ exists w',
       create_file self (project_root self </> "run.py") "new" w = (w', Ok tt)
       /\ disk w' !! ["home"; "u"; "demo"; "run.py"] = Some (Reg "new")
       /\ stdout w' = ["  ✓ Created: run.py"].
Proof.
  intros w self.
  assert (simple_name "run.py" = true) as H1 by reflexivity.
  assert (placed self (project_root self) [] ["home"; "u"; "demo"] w) as H2
    by (split; vm_compute; reflexivity).
  assert (disk w !! (["home"; "u"; "demo"] ++ ["run.py"]) = Some (Reg "old")) as H3
    by (vm_compute; reflexivity).
  repeat (split; [assumption|]).
  destruct (create_file_replaces self _ _ _ "run.py" "new" "old" w H1 H2 H3)
    as (w' & Hrun & Hnew & _ & Hout).
  exists w'. repeat split; assumption.
Defined.

(** ** Names and roots at the edge *)

(** X7.  A name without components (the empty name, ["."], ["./"]) makes
    the working directory itself the root; as that directory is there,
    [create] stops on the "already exists" line with status 1 and nothing
    changed. *)
Theorem empty_name_aborts name ty w :
  PurePath.parse_parts name = [] ->
  PurePath.is_absolute name = false ->
  Pathlib.exists_ (disk w) (cwd w) = true ->
  PurePath.parts (cwd w </> name) = PurePath.parts (cwd w)
  /\ exists w',
       scaffold name ty w = (w', Raise (SystemExit 1))
       /\ disk w' = disk w
       /\ last (stdout w') = Some ("❌ Error: Directory '" +:+ name
                                     +:+ "' already exists!").
Proof.
  intros Hp Ha He.
  assert (PurePath.parts (cwd w </> name) = PurePath.parts (cwd w)) as Hparts.
  { unfold PurePath.div. rewrite Ha, Hp. simpl. apply app_nil_r. }
  split; [done|].
  exists (aborted (Self name ty (cwd w </> name)) w). rewrite scaffold_eq.
  split; [|split; [done|]].
  - apply create_existing. unfold Pathlib.exists_ in *. simpl. by rewrite Hparts.
  - unfold aborted. simpl. by rewrite last_app.
Qed.

Lemma empty_name_aborts_witness :
  let w := Example.fresh_world in
  PurePath.parse_parts "./" = []
  /\ PurePath.is_absolute "./" = false
  /\ Pathlib.exists_ (disk w) (cwd w) = true
  /\ exists w', scaffold "./" "api" w = (w', Raise (SystemExit 1))
                /\ disk w' = disk w.
Proof.
  intros w.
  assert (PurePath.parse_parts "./" = []) as H1 by reflexivity.
  assert (PurePath.is_absolute "./" = false) as H2 by reflexivity.
  assert (Pathlib.exists_ (disk w) (cwd w) = true) as H3
    by (vm_compute; reflexivity).
  repeat (split; [assumption|]).
  destruct (empty_name_aborts "./" "api" w H1 H2 H3) as (_ & w' & Hrun & Hd & _).
  exists w'. split; assumption.
Defined.

Lemma path_mkdir_raises p w e :
  mkdir_p (disk w) (PurePath.parts p) = (disk w, Some e) ->
  path_mkdir p w = (set_disk (disk w) (log (CallMkdir p) w), Raise (OSError e)).
Proof. unfold path_mkdir. by intros ->. Qed.

(** A structure whose first item is a directory fails as the [mkdir] of
    that directory fails. *)
Lemma build_structure_first_raises self base n sub rest w w1 e :
  path_mkdir (base </> n) w = (w1, Raise e) ->
  build_structure self base ((n, Directory sub) :: rest) w = (w1, Raise e).
Proof.
  intros H. cbn [build_structure]. apply bind_raise.
  rewrite build_item_directory. by apply bind_raise.
Qed.

(** X8.  When the path of the root leads through a regular file, the
    existence check says "no" and the first [mkdir] raises
    [NotADirectoryError]: the run ends with status 1 after the
    "Creating" line alone, and nothing is changed. *)
Theorem root_through_file_raises name ty w :
  known_type ty = true ->
  namei (disk w) (PurePath.parts (cwd w </> name)) = inl ENOTDIR ->
  exists w',
    scaffold name ty w = (w', Raise (OSError ENOTDIR))
    /\ exit_status (@Raise unit (OSError ENOTDIR)) = 1
    /\ disk w' = disk w
    /\ stdout w' = stdout w ++ [msg_creating (Self name ty (cwd w </> name))]
    /\ calls w' = calls w ++ [CallExists (cwd w </> name);
                              CallMkdir (cwd w </> name </> "app")].
Proof.
  intros Hk Hn. set (self := Self name ty (cwd w </> name)).
  assert (Pathlib.exists_ (disk w) (project_root self) = false) as He.
  { unfold Pathlib.exists_, Posix.exists_, stat. simpl. by rewrite Hn. }
  set (w0 := World (cwd w) (disk w) (stdout w ++ [msg_creating self]) (stderr w)
               (calls w ++ [CallExists (project_root self)])).
  assert (path_mkdir (project_root self </> "app") w0
          = (set_disk (disk w0) (log (CallMkdir (project_root self </> "app")) w0),
             Raise (OSError ENOTDIR))) as Hmk.
  { apply path_mkdir_raises. apply mkdir_p_through_file.
    rewrite (div_simple _ "app" eq_refl). simpl. by apply namei_through_file. }
  eexists. rewrite scaffold_eq. fold self. split.
  - unfold create. unfold bind at 1, print at 1.
    unfold bind at 1, path_exists. cbn [disk log]. rewrite He.
    unfold bind at 1, ret at 1. fold w0. apply bind_raise.
    unfold known_type in Hk. change (project_type self) with ty.
    destruct (String.eqb ty "portfolio");
      [|destruct (String.eqb ty "api");
        [|destruct (String.eqb ty "fullstack"); [|done]]].
    + unfold create_portfolio_structure. cbv zeta. apply bind_raise.
      unfold portfolio_structure. apply build_structure_first_raises, Hmk.
    + unfold create_api_structure. cbv zeta. apply bind_raise.
      unfold api_structure. apply build_structure_first_raises, Hmk.
    + unfold create_fullstack_structure, create_portfolio_structure. cbv zeta.
      apply bind_raise.
      unfold portfolio_structure. apply build_structure_first_raises, Hmk.
  - simpl. by rewrite <- app_assoc.
Qed.

Lemma root_through_file_raises_witness :
  let w := Example.in_home (<[ ["home"; "u"; "notes"] := Reg "x" ]> Example.home) in
  known_type "api" = true
  /\ namei (disk w) (PurePath.parts (cwd w </> "notes/demo")) = inl ENOTDIR
  /\ exists w', scaffold "notes/demo" "api" w = (w', Raise (OSError ENOTDIR))
                /\ disk w' = disk w.
Proof.
  intros w.
  assert (known_type "api" = true) as H1 by reflexivity.
  assert (namei (disk w) (PurePath.parts (cwd w </> "notes/demo")) = inl ENOTDIR)
    as H2 by (vm_compute; reflexivity).
  repeat (split; [assumption|]).
  destruct (root_through_file_raises "notes/demo" "api" w H1 H2)
    as (w' & Hrun & _ & Hd & _).
  exists w'. split; assumption.
Defined.

(** ** Exits *)

Lemma never_exits_ret {A} (a : A) : never_exits (ret a).
Proof. by intros w w' o n [= <- <-]. Qed.

Lemma never_exits_os_error {A} e : never_exits (@raise A (OSError e)).
Proof. by intros w w' o n [= <- <-]. Qed.

Lemma never_exits_value_error {A} : never_exits (@raise A ValueError).
Proof. by intros w w' o n [= <- <-]. Qed.

Lemma never_exits_bind {A B} (c : M A) (k : A -> M B) :
  never_exits c -> (forall a, never_exits (k a)) -> never_exits (bind c k).
Proof.
  intros Hc Hk w w' o n. unfold bind.
  destruct (c w) as [w1 [a|e]] eqn:E.
  - apply Hk.
  - intros [= <- <-] [= ->]. by apply (Hc _ _ _ n) in E.
Qed.

Lemma never_exits_print s : never_exits (print s).
Proof. by intros w w' o n [= <- <-]. Qed.

Lemma never_exits_path_mkdir p : never_exits (path_mkdir p).
Proof.
  intros w w' o n. unfold path_mkdir.
  by destruct (mkdir_p (disk w) (PurePath.parts p)) as [m [e|]]; intros [= <- <-].
Qed.

Lemma never_exits_open_write p c : never_exits (open_write p c).
Proof.
  intros w w' o n. unfold open_write.
  by destruct (write_file (disk w) (PurePath.parts p) c); intros [= <- <-].
Qed.

Lemma never_exits_create_file self p c : never_exits (create_file self p c).
Proof.
  unfold create_file. apply never_exits_bind; [apply never_exits_open_write|].
  intros _. destruct (PurePath.relative_to p (project_root self));
    [apply never_exits_print | apply never_exits_value_error].
Qed.

Lemma never_exits_build_item self c : forall base n,
  never_exits (build_item self base n c).
Proof.
  induction c as [content|items IH] using node_ind_nested; intros base n w w' o k.
  - rewrite build_item_file. revert w w' o k.
    apply never_exits_bind; [apply never_exits_path_mkdir|].
    intros _. apply never_exits_create_file.
  - rewrite build_item_directory. revert w w' o k.
    apply never_exits_bind; [apply never_exits_path_mkdir|]. intros _.
    generalize (base </> n). clear base n.
    induction IH as [|[n c] items Hc _ IHitems]; intros base; simpl.
    + apply never_exits_ret.
    + apply never_exits_bind; [apply Hc | intros _; apply IHitems].
Qed.

Lemma never_exits_build_structure self base s :
  never_exits (build_structure self base s).
Proof.
  induction s as [|[n c] s IH]; simpl.
  - apply never_exits_ret.
  - apply never_exits_bind; [apply never_exits_build_item | intros _; apply IH].
Qed.

Ltac never_exits :=
  cbv zeta;
  repeat match goal with
         | |- never_exits (bind _ _) => apply never_exits_bind; [|intros ?]
         end;
  auto using never_exits_print, never_exits_create_file,
    never_exits_build_structure, never_exits_ret.







(** ** Building again *)

(** An item whose entries are all laid out already: building it changes
    nothing on disk. *)
Lemma item_rebuild self c : forall base rel lb n w,
  simple_name n = true -> well_formed c = true ->
  placed self base rel lb w ->
  laid_out (disk w) (entries (lb ++ [n]) c) ->
  exists w',
    build_item self base n c w = (w', Ok tt)
    /\ disk w' = disk w
    /\ stdout w' = stdout w ++ map progress_line (files (rel ++ [n]) c).
Proof.
  induction c as [content|sub IH] using node_ind_nested;
    intros base rel lb n w Hn Hwf Hpl Hlaid.
  - rewrite build_item_file.
    pose proof (div_simple base n Hn) as Hdiv.
    assert (PurePath.parts (PurePath.parent (base </> n)) = PurePath.parts base)
      as Hparent.
    { rewrite Hdiv. simpl. apply removelast_last. }
    erewrite bind_ok; last first.
    { apply path_mkdir_there. rewrite Hparent. by eapply placed_is_dir. }
    assert (disk w !! (lb ++ [n]) = Some (Reg content)) as Hthere.
    { apply Hlaid. simpl. left. }
    destruct (create_file_spec self base rel lb n content
                (set_disk (disk w) (log (CallMkdir (PurePath.parent (base </> n))) w)))
      as (w' & Hrun & Hd & Ho); [done | by destruct Hpl | |].
    { simpl. by rewrite Hthere. }
    exists w'. split; [done|]. split; [|done].
    rewrite Hd. simpl. by apply insert_id.
  - rewrite build_item_directory.
    pose proof (div_simple base n Hn) as Hdiv.
    pose proof Hn as (_ & Hdd & _)%simple_name_inv.
    rewrite well_formed_directory in Hwf.
    apply andb_true_iff in Hwf as [_ Hws].
    rewrite entries_directory in Hlaid.
    assert (disk w !! (lb ++ [n]) = Some Dir) as Hthere by (apply Hlaid; left).
    assert (laid_out (disk w) (entries_items (lb ++ [n]) sub)) as Hitems.
    { intros loc e Hin. apply Hlaid. by right. }
    destruct Hpl as [Hp Ha Hnm Hd].
    erewrite bind_ok; last first.
    { apply path_mkdir_there. rewrite Hdiv. simpl. apply is_dir_spec.
      exists (lb ++ [n]). split; [by apply namei_snoc | done]. }
    rewrite files_directory.
    set (w0 := set_disk (disk w) (log (CallMkdir (base </> n)) w)).
    assert (placed self (base </> n) (rel ++ [n]) (lb ++ [n]) w0) as Hpl0.
    { rewrite Hdiv. split; simpl.
      - by rewrite Hp, app_assoc.
      - done.
      - by apply namei_snoc.
      - done. }
    assert (disk w0 = disk w) as Hd0 by done.
    assert (stdout w0 = stdout w) as Ho0 by done.
    rewrite <- Hd0 in Hitems. rewrite <- Hd0, <- Ho0.
    clearbody w0. clear Hd0 Ho0 Hthere Hlaid Hnm Hd Hp Ha Hdiv.
    revert w0 Hpl0 Hitems.
    generalize (base </> n) (rel ++ [n]) (lb ++ [n]). clear base rel lb n Hn Hdd.
    induction IH as [|[n c] sub Hc _ IHsub]; intros base rel lb w0 Hpl Hitems.
    + exists w0. simpl. by rewrite app_nil_r.
    + simpl in Hws. apply andb_true_iff in Hws as [[Hsn Hwc]%andb_true_iff Hws].
      destruct (Hc base rel lb n w0) as (w1 & Hrun1 & Hd1 & Ho1); try done.
      { intros loc e Hin. apply Hitems. simpl. apply elem_of_app. by left. }
      assert (extends w0 w1) as E by (eapply steady_build_item; eauto).
      destruct (IHsub Hws base rel lb w1) as (w2 & Hrun2 & Hd2 & Ho2).
      { by eapply placed_extends. }
      { rewrite Hd1. intros loc e Hin. apply Hitems. simpl.
        apply elem_of_app. by right. }
      exists w2. cbn [build_structure files_items].
      rewrite (bind_ok _ _ _ _ _ Hrun1). split; [done|].
      split; [congruence|]. by rewrite Ho2, Ho1, map_app, app_assoc.
Qed.

Lemma structure_rebuild self s : forall base rel lb w,
  well_formed_items s = true ->
  placed self base rel lb w ->
  laid_out (disk w) (entries_items lb s) ->
  exists w',
    build_structure self base s w = (w', Ok tt)
    /\ disk w' = disk w
    /\ stdout w' = stdout w ++ map progress_line (files_items rel s).
Proof.
  induction s as [|[n c] s IH]; intros base rel lb w Hws Hpl Hlaid.
  - exists w. simpl. by rewrite app_nil_r.
  - simpl in Hws. apply andb_true_iff in Hws as [[Hsn Hwc]%andb_true_iff Hws].
    destruct (item_rebuild self c base rel lb n w) as (w1 & Hrun1 & Hd1 & Ho1);
      try done.
    { intros loc e Hin. apply Hlaid. simpl. apply elem_of_app. by left. }
    assert (extends w w1) as E by (eapply steady_build_item; eauto).
    destruct (IH base rel lb w1) as (w2 & Hrun2 & Hd2 & Ho2); try done.
    { by eapply placed_extends. }
    { rewrite Hd1. intros loc e Hin. apply Hlaid. simpl.
      apply elem_of_app. by right. }
    exists w2. cbn [build_structure files_items].
    rewrite (bind_ok _ _ _ _ _ Hrun1). split; [done|].
    split; [congruence|]. by rewrite Ho2, Ho1, map_app, app_assoc.
Qed.

(** X10.  [_build_structure] by itself can be run again: after a run on a
    root that was not there (a structure that is not empty, of plain
    and distinct names, in a file system in the shape of a tree), a
    second run of the same structure on the same root returns too, prints
    the same
    "Created" lines again, and leaves the file system exactly as the
    first run left it.  It is the existence check of [create], not the
    builder, that refuses a second run. *)
Theorem rebuild_changes_nothing self s r w w1 :
  s <> [] ->
  well_formed (Directory s) = true ->
  tree_shaped (disk w) = true ->
  namei (disk w) (PurePath.parts (project_root self)) = inr r ->
  Pathlib.exists_ (disk w) (project_root self) = false ->
  build_structure self (project_root self) s w = (w1, Ok tt) ->
  exists w2,
    build_structure self (project_root self) s w1 = (w2, Ok tt)
    /\ disk w2 = disk w1
    /\ stdout w2 = stdout w1 ++ map progress_line (files_items [] s).
Proof.
  intros Hne Hwf Hm Hn He Hrun.
  pose proof (missing_root_fresh _ _ _ Hm Hn He) as Hfresh.
  destruct (build_structure_fresh self s r w Hne Hwf Hn Hfresh)
    as (w1' & Hrun' & Hd & _).
  assert (w1' = w1) as -> by congruence.
  assert (extends w w1) as E by (eapply steady_build_structure; eauto).
  pose proof (entries_NoDup (Directory s) r Hwf) as Hnd.
  assert (laid_out (disk w1) (entries r (Directory s))) as Hlaid.
  { intros loc e Hin. rewrite Hd. by apply write_all_lookup. }
  rewrite entries_directory in Hlaid.
  rewrite well_formed_directory in Hwf.
  apply andb_true_iff in Hwf as [_ Hws].
  apply (structure_rebuild self s (project_root self) [] r w1 Hws).
  - split.
    + by rewrite app_nil_r.
    + done.
    + eapply namei_grows; [apply E | done].
    + apply Hlaid. left.
  - intros loc e Hin. apply Hlaid. by right.
Qed.

Lemma rebuild_changes_nothing_witness :
  let self := Self "demo" "api" (cwd Example.fresh_world </> "demo") in
  let w := Example.fresh_world in
  let w1 := (build_structure self (project_root self) api_structure w).1 in
  api_structure <> []
  /\ well_formed (Directory api_structure) = true
  /\ tree_shaped (disk w) = true
  /\ namei (disk w) (PurePath.parts (project_root self)) = inr ["home"; "u"; "demo"]
  /\ Pathlib.exists_ (disk w) (project_root self) = false
  /\ build_structure self (project_root self) api_structure w = (w1, Ok tt)
  /\ exists w2,
       build_structure self (project_root self) api_structure w1 = (w2, Ok tt)
       /\ disk w2 = disk w1.
Proof.
  intros self w w1.
  assert (api_structure <> []) as H1 by discriminate.
  assert (well_formed (Directory api_structure) = true) as H2
    by (vm_compute; reflexivity).
  assert (tree_shaped (disk w) = true) as H3 by (vm_compute; reflexivity).
  assert (namei (disk w) (PurePath.parts (project_root self))
          = inr ["home"; "u"; "demo"]) as H4 by (vm_compute; reflexivity).
  assert (Pathlib.exists_ (disk w) (project_root self) = false) as H5
    by (vm_compute; reflexivity).
  assert ((build_structure self (project_root self) api_structure w).2 = Ok tt)
    as E by (vm_compute; reflexivity).
  pose proof (run_ok _ _ _ E) as H6. fold w1 in H6.
  repeat (split; [assumption|]).
  destruct (rebuild_changes_nothing self api_structure _ w w1 H1 H2 H3 H4 H5 H6)
    as (w2 & Hrun & Hd & _).
  exists w2. split; assumption.
Defined.

(** ** The order of the items *)

Lemma write_all_perm (es es' : list (list string * entry)) (m : fs) :
  NoDup es.*1 -> es ≡ₚ es' -> write_all es m = write_all es' m.
Proof.
  intros Hnd Hp. assert (NoDup es'.*1) as Hnd' by (by rewrite <- Hp).
  apply map_eq. intros k.
  destruct (decide (k ∈ es.*1)) as [Hin|Hout].
  - apply list_elem_of_fmap in Hin as ([k' e] & -> & Hin). simpl.
    rewrite (write_all_lookup es m k' e), (write_all_lookup es' m k' e); try done.
    by rewrite <- Hp.
  - rewrite !write_all_other; try done. by rewrite <- Hp.
Qed.

Lemma entries_items_perm loc s s' :
  s ≡ₚ s' -> entries_items loc s ≡ₚ entries_items loc s'.
Proof.
  induction 1 as [|[n c] s s' _ IH|[n c] [n' c'] s|s1 s2 s3 _ IH1 _ IH2]; simpl.
  - done.
  - by rewrite IH.
  - rewrite !app_assoc. f_equiv. apply Permutation_app_comm.
  - by rewrite IH1.
Qed.

Lemma files_items_perm rel s s' :
  s ≡ₚ s' -> files_items rel s ≡ₚ files_items rel s'.
Proof.
  induction 1 as [|[n c] s s' _ IH|[n c] [n' c'] s|s1 s2 s3 _ IH1 _ IH2]; simpl.
  - done.
  - by rewrite IH.
  - rewrite !app_assoc. f_equiv. apply Permutation_app_comm.
  - by rewrite IH1.
Qed.

Lemma well_formed_items_perm s s' :
  s ≡ₚ s' -> well_formed_items s = well_formed_items s'.
Proof.
  induction 1 as [|[n c] s s' _ IH|[n c] [n' c'] s|s1 s2 s3 _ IH1 _ IH2]; simpl.
  - done.
  - by rewrite IH.
  - by destruct (simple_name n), (well_formed c), (simple_name n'),
         (well_formed c'), (well_formed_items s).
  - by rewrite IH1.
Qed.

(** X11.  The order of the items of a dict decides the order of the
    "Created" lines and nothing else: two structures with the same items
    in another order (not empty, of plain and distinct names, the root
    not there, in a file system in the shape of a tree), built from the
    same world on the same root, leave the same file system, and print
    the same lines up to their order. *)
Theorem item_order_irrelevant self s s' r w :
  s ≡ₚ s' ->
  s <> [] ->
  well_formed (Directory s) = true ->
  tree_shaped (disk w) = true ->
  namei (disk w) (PurePath.parts (project_root self)) = inr r ->
  Pathlib.exists_ (disk w) (project_root self) = false ->
  exists w1 w2 l1 l2,
    build_structure self (project_root self) s w = (w1, Ok tt)
    /\ build_structure self (project_root self) s' w = (w2, Ok tt)
    /\ disk w1 = disk w2
    /\ stdout w1 = stdout w ++ l1
    /\ stdout w2 = stdout w ++ l2
    /\ l1 ≡ₚ l2.
Proof.
  intros Hp Hne Hwf Hm Hn He.
  pose proof (missing_root_fresh _ _ _ Hm Hn He) as Hfresh.
  assert (s' <> []) as Hne'.
  { intros ->. by apply Permutation_nil_r in Hp. }
  assert (well_formed (Directory s') = true) as Hwf'.
  { rewrite well_formed_directory in *.
    apply andb_true_iff in Hwf as [Hnd%bool_decide_eq_true Hws].
    rewrite <- (well_formed_items_perm _ _ Hp), Hws, bool_decide_eq_true_2; [done|].
    by rewrite <- Hp. }
  destruct (build_structure_fresh self s r w Hne Hwf Hn Hfresh)
    as (w1 & Hrun1 & Hd1 & Ho1).
  destruct (build_structure_fresh self s' r w Hne' Hwf' Hn Hfresh)
    as (w2 & Hrun2 & Hd2 & Ho2).
  exists w1, w2, (map progress_line (files_items [] s)),
    (map progress_line (files_items [] s')).
  repeat (split; [done|]). split; [|split; [done|split; [done|]]].
  - rewrite Hd1, Hd2. apply write_all_perm; [by apply entries_NoDup|].
    rewrite !entries_directory. constructor. by apply entries_items_perm.
  - apply fmap_Permutation. by apply files_items_perm.
Qed.

Lemma item_order_irrelevant_witness :
  let self := Self "demo" "api" (cwd Example.fresh_world </> "demo") in
  let w := Example.fresh_world in
  let s := [("app", Directory [("main.py", File "pass")]); ("run.py", File "go")] in
  let s' := [("run.py", File "go"); ("app", Directory [("main.py", File "pass")])] in
  s ≡ₚ s'
  /\ s <> []
  /\ well_formed (Directory s) = true
  /\ tree_shaped (disk w) = true
  /\ namei (disk w) (PurePath.parts (project_root self)) = inr ["home"; "u"; "demo"]
  /\ Pathlib.exists_ (disk w) (project_root self) = false
  /\ exists w1 w2,
       build_structure self (project_root self) s w = (w1, Ok tt)
       /\ build_structure self (project_root self) s' w = (w2, Ok tt)
       /\ disk w1 = disk w2.
Proof.
  intros self w s s'.
  assert (s ≡ₚ s') as H0 by apply perm_swap.
  assert (s <> []) as H1 by discriminate.
  assert (well_formed (Directory s) = true) as H2 by (vm_compute; reflexivity).
  assert (tree_shaped (disk w) = true) as H3 by (vm_compute; reflexivity).
  assert (namei (disk w) (PurePath.parts (project_root self))
          = inr ["home"; "u"; "demo"]) as H4 by (vm_compute; reflexivity).
  assert (Pathlib.exists_ (disk w) (project_root self) = false) as H5
    by (vm_compute; reflexivity).
  repeat (split; [assumption|]).
  destruct (item_order_irrelevant self s s' _ w H0 H1 H2 H3 H4 H5)
    as (w1 & w2 & l1 & l2 & Hrun1 & Hrun2 & Hd & _).
  exists w1, w2. repeat split; assumption.
Defined.

(** ** A name with a directory that is missing *)

Lemma mkdir_p_snoc (m : fs) p n :
  mkdir_p m (p ++ [n])
  = match Posix.mkdir m (p ++ [n]) with
    | inr m' => (m', None)
    | inl ENOENT =>
        match mkdir_p m p with
        | (m1, None) => mkdir_once m1 (p ++ [n])
        | failed => failed
        end
    | inl e => if is_dir m (p ++ [n]) then (m, None) else (m, Some e)
    end.
Proof.
  unfold mkdir_p. rewrite rev_unit. simpl. rewrite rev_involutive.
  by rewrite <- (rev_involutive (p ++ [n])), rev_unit.
Qed.

Lemma longer_ne (loc q : list string) x : loc ++ x :: q <> loc.
Proof.
  intros H%(f_equal length). rewrite length_app in H. simpl in H. lia.
Qed.

Lemma grows_insert_new (m : fs) (loc : list string) e :
  m !! loc = None -> grows m (<[loc := e]> m).
Proof. intros H. apply grows_insert. intros e0. by rewrite H. Qed.

(** [mkdir_p] where the two directories above are missing too. *)
Lemma mkdir_p_grandparent_new (m : fs) p b n (la : list string) :
  namei m p = inr la -> m !! la = None -> m !! (la ++ [b]) = None ->
  m !! (la ++ [b; n]) = None -> b <> ".." -> n <> ".." ->
  mkdir_p m (p ++ [b; n])
  = (<[la ++ [b; n] := Dir]> (<[la ++ [b] := Dir]> (<[la := Dir]> m)), None).
Proof.
  intros Hn Hl Hb Hc Hbd Hnd.
  change (p ++ [b; n]) with (p ++ [b] ++ [n]). rewrite app_assoc.
  change (la ++ [b; n]) with (la ++ [b] ++ [n]) in *. rewrite app_assoc in *.
  rewrite mkdir_p_snoc. unfold Posix.mkdir at 1.
  assert (namei m (p ++ [b]) = inl ENOENT) as Hnb
    by (by apply (namei_snoc_missing _ _ la)).
  assert (namei m ((p ++ [b]) ++ [n]) = inl ENOENT) as ->.
  { unfold namei in *. by rewrite walk_app, Hnb. }
  rewrite (mkdir_p_parent_new _ _ _ _ Hn Hl Hb Hbd).
  set (m2 := <[la ++ [b] := Dir]> (<[la := Dir]> m)).
  assert (namei m2 (p ++ [b]) = inr (la ++ [b])) as Hn2.
  { apply namei_snoc; [|by unfold m2; rewrite lookup_insert_ne,
                           lookup_insert_eq by apply longer_ne|done].
    eapply namei_grows; [|eapply namei_grows; [|done]].
    - apply grows_insert_new. by rewrite lookup_insert_ne by (symmetry; apply longer_ne).
    - by apply grows_insert_new. }
  unfold mkdir_once, Posix.mkdir.
  rewrite (namei_snoc _ _ _ n Hn2); [|apply lookup_insert_eq|done].
  replace (m2 !! ((la ++ [b]) ++ [n])) with (@None entry); [done|].
  unfold m2. rewrite !lookup_insert_ne; [by rewrite Hc| |apply not_eq_sym, longer_ne].
  rewrite <- app_assoc. apply not_eq_sym, longer_ne.
Qed.

Lemma build_item_under_missing_parent self pp b (la : list string) n c w :
  PurePath.parts (project_root self) = pp ++ [b] ->
  simple_name n = true -> b <> ".." ->
  namei (disk w) pp = inr la -> disk w !! la = None ->
  disk w !! (la ++ [b]) = None -> disk w !! (la ++ [b; n]) = None ->
  build_item self (project_root self) n c w
  = build_item self (project_root self) n c
      (set_disk (<[la ++ [b] := Dir]> (<[la := Dir]> (disk w))) w).
Proof.
  intros Hroot Hs Hbd Hn Hl Hb Hc.
  pose proof (div_simple (project_root self) n Hs) as Hdiv.
  pose proof Hs as (_ & Hdd & _)%simple_name_inv.
  set (m2 := <[la ++ [b] := Dir]> (<[la := Dir]> (disk w))).
  assert (namei m2 (pp ++ [b]) = inr (la ++ [b]) /\ m2 !! (la ++ [b]) = Some Dir)
    as [Hn2 Hl2].
  { split; [|apply lookup_insert_eq].
    apply namei_snoc; [|by unfold m2; rewrite lookup_insert_ne,
                           lookup_insert_eq by apply longer_ne|done].
    eapply namei_grows; [|eapply namei_grows; [|done]].
    - apply grows_insert_new.
      by rewrite lookup_insert_ne by (symmetry; apply longer_ne).
    - by apply grows_insert_new. }
  destruct c as [content|sub].
  - rewrite !build_item_file.
    assert (PurePath.parts (PurePath.parent (project_root self </> n))
            = pp ++ [b]) as Hparent.
    { rewrite Hdiv. simpl. by rewrite removelast_last. }
    erewrite bind_ok; last first.
    { unfold path_mkdir. rewrite Hparent.
      by rewrite (mkdir_p_parent_new _ _ _ _ Hn Hl Hb Hbd). }
    erewrite (bind_ok _ _ (set_disk _ w)); last first.
    { apply path_mkdir_there. rewrite Hparent. apply is_dir_spec.
      by exists (la ++ [b]). }
    done.
  - rewrite !build_item_directory.
    assert (PurePath.parts (project_root self </> n) = pp ++ [b; n]) as Hparts.
    { rewrite Hdiv. simpl. by rewrite Hroot, <- app_assoc. }
    erewrite bind_ok; last first.
    { unfold path_mkdir. rewrite Hparts.
      by rewrite (mkdir_p_grandparent_new _ _ _ _ _ Hn Hl Hb Hc Hbd Hdd). }
    erewrite (bind_ok _ _ (set_disk _ w)); last first.
    { apply (path_mkdir_new _ (la ++ [b; n])); rewrite ?Hparts; simpl.
      - change (pp ++ [b; n]) with (pp ++ [b] ++ [n]).
        change (la ++ [b; n]) with (la ++ [b] ++ [n]). rewrite !app_assoc.
        by apply namei_snoc.
      - fold m2. unfold m2.
        rewrite !lookup_insert_ne; [done|apply not_eq_sym, longer_ne|].
        change (la ++ [b; n]) with (la ++ [b] ++ [n]). rewrite app_assoc.
        apply not_eq_sym, longer_ne. }
    done.
Qed.

Lemma tree_shaped_insert (m : fs) (loc : list string) :
  tree_shaped m = true -> m !! removelast loc = Some Dir -> m !! loc = None ->
  tree_shaped (<[loc := Dir]> m) = true.
Proof.
  intros Hm Hp Hl. unfold tree_shaped. apply forallb_forall.
  intros [k e] Hin%list_elem_of_In%elem_of_map_to_list. simpl.
  apply bool_decide_eq_true.
  assert (removelast loc <> loc) as Hne by congruence.
  destruct (decide (k = loc)) as [->|Hk].
  - by rewrite lookup_insert_ne.
  - rewrite lookup_insert_ne in Hin by done.
    apply (tree_shaped_parent _ _ _ Hm) in Hin.
    destruct (decide (loc = removelast k)) as [->|Hr].
    + apply lookup_insert_eq.
    + by rewrite lookup_insert_ne.
Qed.

(** What [create] does once the root is found missing. *)
Lemma create_missing self w :
  Pathlib.exists_ (disk w) (project_root self) = false ->
  create self w
  = ((if String.eqb (project_type self) "portfolio" then
        create_portfolio_structure self
      else if String.eqb (project_type self) "api" then
        create_api_structure self
      else if String.eqb (project_type self) "fullstack" then
        create_fullstack_structure self
      else print (msg_unknown self) ;; sys_exit 1) ;;
     print_summary self)
      (World (cwd w) (disk w) (stdout w ++ [msg_creating self]) (stderr w)
         (calls w ++ [CallExists (project_root self)])).
Proof.
  intros He. unfold create. unfold bind at 1, print at 1.
  unfold bind at 1, path_exists. cbn [disk log]. rewrite He.
  by unfold bind at 1, ret at 1.
Qed.

Lemma dispatch_known self tree :
  resolve (project_type self) (project_name self) = Some tree ->
  exists s l, tree = s ++ as_files l /\ s <> []
    /\ forall w,
         (if String.eqb (project_type self) "portfolio" then
            create_portfolio_structure self
          else if String.eqb (project_type self) "api" then
            create_api_structure self
          else if String.eqb (project_type self) "fullstack" then
            create_fullstack_structure self
          else print (msg_unknown self) ;; sys_exit 1) w
         = (build_structure self (project_root self) s ;; create_files self l) w.
Proof.
  unfold resolve. intros Hres.
  destruct (String.eqb (project_type self) "portfolio");
    [|destruct (String.eqb (project_type self) "api");
      [|destruct (String.eqb (project_type self) "fullstack"); [|done]]].
  - exists portfolio_structure, (portfolio_root_files (project_name self)).
    split; [congruence|]. split; [done|]. intros w.
    apply create_portfolio_structure_eq.
  - exists api_structure, (api_root_files (project_name self)).
    split; [congruence|]. split; [done|]. intros w.
    apply create_api_structure_eq.
  - exists portfolio_structure, (portfolio_root_files (project_name self)).
    split; [congruence|]. split; [done|]. intros w.
    apply create_portfolio_structure_eq.
Qed.

Lemma bind_cong {A B} (c : M A) (k : A -> M B) w w' :
  c w = c w' -> bind c k w = bind c k w'.
Proof. unfold bind. by intros ->. Qed.

(** With the directory above the root missing, [create] runs as if that
    directory had been made before. *)
Lemma create_under_missing_parent self tree pp b (la : list string) w :
  resolve (project_type self) (project_name self) = Some tree ->
  tree_shaped (disk w) = true ->
  PurePath.parts (project_root self) = pp ++ [b] -> b <> ".." ->
  namei (disk w) pp = inr la -> disk w !! la = None ->
  create self w = create self (set_disk (<[la := Dir]> (disk w)) w).
Proof.
  intros Hres Hm Hroot Hbd Hn Hl.
  pose proof (tree_shaped_fresh _ _ Hm Hl) as Hfresh.
  assert (namei (<[la := Dir]> (disk w)) (PurePath.parts (project_root self))
          = inr (la ++ [b])) as Hna.
  { rewrite Hroot. apply namei_snoc; [|apply lookup_insert_eq|done].
    eapply namei_grows; [|done]. by apply grows_insert_new. }
  rewrite !create_missing; first last.
  - unfold Pathlib.exists_, Posix.exists_, stat. rewrite Hroot.
    by rewrite (namei_snoc_missing _ _ _ _ Hn Hl).
  - unfold Pathlib.exists_, Posix.exists_, stat. cbn [disk set_disk].
    by rewrite Hna, lookup_insert_ne, Hfresh by apply not_eq_sym, longer_ne.
  - destruct (dispatch_known _ _ Hres) as (s & l & -> & Hs & Hd).
    destruct (resolve_well_formed _ _ _ Hres) as [_ Hwf].
    apply bind_cong. rewrite !Hd. apply bind_cong.
    destruct s as [|[n c] rest]; [done|]. cbn [build_structure].
    apply bind_cong.
    rewrite well_formed_directory in Hwf.
    apply andb_true_iff in Hwf as [_ Hws]. simpl in Hws.
    apply andb_true_iff in Hws as [[Hsn _]%andb_true_iff _].
    cbn [cwd disk stdout stderr calls set_disk].
    set (w0 := World (cwd w) (disk w) _ _ _).
    set (w1 := World (cwd w) (<[la := Dir]> (disk w)) _ _ _).
    rewrite (build_item_under_missing_parent self pp b la n c w0 Hroot Hsn Hbd Hn Hl
               (Hfresh [b]) (Hfresh [b; n])).
    rewrite (build_item_first self n c (la ++ [b]) w1 Hsn Hna); [done| |].
    + cbn [disk w1]. by rewrite lookup_insert_ne, Hfresh by apply not_eq_sym, longer_ne.
    + cbn [disk w1]. rewrite <- app_assoc.
      by rewrite lookup_insert_ne, Hfresh by apply not_eq_sym, longer_ne.
Qed.

(** X12.  A name of two components, [a/b], where the working directory
    has no [a]: the run does not stop on the missing directory.  The first
    [mkdir] of the run makes [a] on its way to the root, and the run ends
    as a run on a new root does, with the tree of the type at [a/b];
    everything that was there before is kept. *)
Theorem nested_name_makes_parent a b ty (lc : list string) w :
  simple_name a = true -> simple_name b = true ->
  known_type ty = true ->
  tree_shaped (disk w) = true ->
  namei (disk w) (PurePath.parts (cwd w)) = inr lc ->
  disk w !! lc = Some Dir ->
  disk w !! (lc ++ [a]) = None ->
  exists w' tree,
    resolve ty (a +:+ "/" +:+ b) = Some tree
    /\ scaffold (a +:+ "/" +:+ b) ty w = (w', Ok tt)
    /\ disk w' = write_all (entries (lc ++ [a; b]) (Directory tree))
                   (<[lc ++ [a] := Dir]> (disk w))
    /\ disk w' !! (lc ++ [a]) = Some Dir
    /\ disk w' !! (lc ++ [a; b]) = Some Dir
    /\ (forall loc e, disk w !! loc = Some e -> disk w' !! loc = Some e).
Proof.
  intros Ha Hb Hk Hm Hn Hc Hl.
  set (name := a +:+ "/" +:+ b).
  destruct (resolve_known ty name Hk) as [tree Hres].
  destruct (resolve_well_formed _ _ _ Hres) as [_ Hwf].
  pose proof Ha as (_ & Had & _)%simple_name_inv.
  pose proof Hb as (_ & Hbd & _)%simple_name_inv.
  pose proof (tree_shaped_fresh _ _ Hm Hl) as Hfresh.
  set (self := Self name ty (cwd w </> name)).
  assert (PurePath.parts (project_root self) = (PurePath.parts (cwd w) ++ [a]) ++ [b])
    as Hroot.
  { unfold self, name. cbn [project_root]. rewrite (div_nested _ a b Ha Hb).
    simpl. by rewrite <- app_assoc. }
  assert (namei (disk w) (PurePath.parts (cwd w) ++ [a]) = inr (lc ++ [a])) as Hna
    by (by apply namei_snoc).
  set (wa := set_disk (<[lc ++ [a] := Dir]> (disk w)) w).
  assert (grows (disk w) (disk wa)) as G by (by apply grows_insert_new).
  destruct (create_fresh self tree ((lc ++ [a]) ++ [b]) wa) as (w' & Hrun & Hd & _).
  - done.
  - apply tree_shaped_insert; [done|by rewrite removelast_last|done].
  - rewrite Hroot. apply namei_snoc; [by eapply namei_grows|apply lookup_insert_eq|done].
  - unfold Pathlib.exists_, Posix.exists_, stat. rewrite Hroot.
    rewrite (namei_snoc _ _ (lc ++ [a]) b);
      [|by eapply namei_grows|apply lookup_insert_eq|done].
    cbn [disk wa set_disk].
    by rewrite lookup_insert_ne, Hfresh by apply not_eq_sym, longer_ne.
  - rewrite <- app_assoc in Hd. cbn [app disk wa set_disk] in Hd.
    exists w', tree. split; [done|]. split.
    { rewrite scaffold_eq. fold name self.
      by rewrite (create_under_missing_parent self tree _ b (lc ++ [a]) w
                    Hres Hm Hroot Hbd Hna Hl). }
    split; [done|]. split; [|split].
    + rewrite Hd, write_all_other; [apply lookup_insert_eq|].
      intros (q & H)%entries_below. apply (f_equal length) in H.
      rewrite !length_app in H. simpl in H. lia.
    + rewrite Hd. apply write_all_lookup; [by apply entries_NoDup|].
      rewrite entries_directory. left.
    + intros loc e Hloc. rewrite Hd, write_all_other.
      * rewrite lookup_insert_ne; [done|]. intros <-. congruence.
      * intros (q & ->)%entries_below.
        change (lc ++ [a; b]) with (lc ++ [a] ++ [b]) in Hloc.
        rewrite !app_assoc, <- (app_assoc (lc ++ [a])), Hfresh in Hloc. done.
Qed.

Lemma nested_name_makes_parent_witness :
  let w := Example.fresh_world in
  simple_name "work" = true /\ simple_name "demo" = true
  /\ known_type "api" = true
  /\ tree_shaped (disk w) = true
  /\ namei (disk w) (PurePath.parts (cwd w)) = inr ["home"; "u"]
  /\ disk w !! ["home"; "u"] = Some Dir
  /\ disk w !! ["home"; "u"; "work"] = None
  /\ exists w',
       scaffold "work/demo" "api" w = (w', Ok tt)
       /\ disk w' !! ["home"; "u"; "work"] = Some Dir
       /\ disk w' !! ["home"; "u"; "work"; "demo"] = Some Dir.
Proof.
  intros w.
  assert (simple_name "work" = true) as H1 by (vm_compute; reflexivity).
  assert (simple_name "demo" = true) as H2 by (vm_compute; reflexivity).
  assert (known_type "api" = true) as H3 by (vm_compute; reflexivity).
  assert (tree_shaped (disk w) = true) as H4 by (vm_compute; reflexivity).
  assert (namei (disk w) (PurePath.parts (cwd w)) = inr ["home"; "u"]) as H5
    by (vm_compute; reflexivity).
  assert (disk w !! ["home"; "u"] = Some Dir) as H6 by (vm_compute; reflexivity).
  assert (disk w !! (["home"; "u"] ++ ["work"]) = None) as H7
    by (vm_compute; reflexivity).
  repeat (split; [assumption|]).
  destruct (nested_name_makes_parent "work" "demo" "api" _ w H1 H2 H3 H4 H5 H6 H7)
    as (w' & tree & _ & Hrun & _ & Hp & Hr & _).
  exists w'. repeat split; assumption.
Defined.

(** ** The outcomes of a run *)

Lemma never_value_error_ret {A} (a : A) : never_value_error (ret a).
Proof. by intros w w' o [= <- <-]. Qed.

Lemma never_value_error_bind {A B} (c : M A) (k : A -> M B) :
  never_value_error c -> (forall a, never_value_error (k a)) ->
  never_value_error (bind c k).
Proof.
  intros Hc Hk w w' o. unfold bind.
  destruct (c w) as [w1 [a|e]] eqn:E.
  - apply Hk.
  - intros [= <- <-] [= ->]. by apply Hc in E.
Qed.

Lemma never_value_error_print s : never_value_error (print s).
Proof. by intros w w' o [= <- <-]. Qed.

Lemma never_value_error_path_mkdir p : never_value_error (path_mkdir p).
Proof.
  intros w w' o. unfold path_mkdir.
  by destruct (mkdir_p (disk w) (PurePath.parts p)) as [m [e|]]; intros [= <- <-].
Qed.

Lemma never_value_error_open_write p c : never_value_error (open_write p c).
Proof.
  intros w w' o. unfold open_write.
  by destruct (write_file (disk w) (PurePath.parts p) c); intros [= <- <-].
Qed.

(** A file in a directory at the root or below it, under a plain name:
    [relative_to] finds the root in front of its path. *)
Lemma never_value_error_create_file self rel n content :
  simple_name n = true ->
  never_value_error
    (create_file self
       (PurePath.mk (PurePath.dslash (project_root self))
          (PurePath.parts (project_root self) ++ rel) </> n) content).
Proof.
  intros Hs. unfold create_file. rewrite (div_simple _ n Hs). simpl.
  rewrite <- app_assoc, relative_to_below.
  apply never_value_error_bind; [apply never_value_error_open_write|].
  intros _. apply never_value_error_print.
Qed.

Lemma never_value_error_build_item self c : forall rel n,
  simple_name n = true -> well_formed c = true ->
  never_value_error
    (build_item self
       (PurePath.mk (PurePath.dslash (project_root self))
          (PurePath.parts (project_root self) ++ rel)) n c).
Proof.
  induction c as [content|items IH] using node_ind_nested;
    intros rel n Hs Hwf w w' o.
  - rewrite build_item_file. revert w w' o.
    apply never_value_error_bind; [apply never_value_error_path_mkdir|].
    intros _. by apply never_value_error_create_file.
  - rewrite build_item_directory. revert w w' o.
    apply never_value_error_bind; [apply never_value_error_path_mkdir|]. intros _.
    rewrite (div_simple _ n Hs). simpl. rewrite <- app_assoc.
    rewrite well_formed_directory in Hwf. apply andb_true_iff in Hwf as [_ Hwf].
    generalize (rel ++ [n]). clear rel n Hs.
    induction IH as [|[n c] items Hc _ IHitems]; intros rel; simpl.
    + apply never_value_error_ret.
    + simpl in Hwf. apply andb_true_iff in Hwf as [[Hs Hc']%andb_true_iff Hwf].
      apply never_value_error_bind; [by apply Hc | intros _; by apply IHitems].
Qed.

Lemma root_as_base (p : Path) :
  p = PurePath.mk (PurePath.dslash p) (PurePath.parts p ++ []).
Proof. destruct p. simpl. by rewrite app_nil_r. Qed.

Lemma never_value_error_build_structure self s :
  well_formed_items s = true ->
  never_value_error (build_structure self (project_root self) s).
Proof.
  rewrite (root_as_base (project_root self)) at 1.
  induction s as [|[n c] s IH]; simpl; intros Hwf.
  - apply never_value_error_ret.
  - apply andb_true_iff in Hwf as [[Hs Hc]%andb_true_iff Hwf].
    apply never_value_error_bind;
      [by apply never_value_error_build_item | intros _; by apply IH].
Qed.

Lemma never_value_error_root_file self n content :
  simple_name n = true ->
  never_value_error (create_file self (project_root self </> n) content).
Proof.
  intros Hs. rewrite (root_as_base (project_root self)) at 1.
  by apply never_value_error_create_file.
Qed.

Ltac never_value_error :=
  cbv zeta;
  repeat match goal with
         | |- never_value_error (bind _ _) =>
             apply never_value_error_bind; [|intros ?]
         end;
  auto using never_value_error_print, never_value_error_ret;
  try (apply never_value_error_root_file; reflexivity);
  try (apply never_value_error_build_structure; vm_compute; reflexivity).





